(** * A shallow embedding of the AWS public-pricing cost plugin

    The development follows [internal/plugin]: request validation
    ([ValidateActualCostRequest], [validateTimestamps], [parseResourceFromARN]),
    the actual-cost fallback ([GetActualCost], [parseResourceFromRequest]) and
    the recommendation heuristics ([GetRecommendations] and the three
    generators behind it).

    Conventions.
    - Go's [float64] is Rocq's primitive binary64 float, so every arithmetic
      step and every comparison of the source is the IEEE operation itself,
      each rounded on its own (no fused multiply-add).
    - Go's [int]/[int64] are [Z]; the places where the source can leave the
      64-bit range are written out (the wrap-around of the additions in
      [time.Unix], saturation in [Time.Sub], range errors in [Atoi]).
    - [map[string]string] is [gmap string string]; a nil map is [None].
    - [(T, error)] results are [Result T]; logging has no observable result
      and is left out. *)

From Stdlib Require Import ZArith String Ascii List Floats Uint63 Lia.
From stdpp Require Import base option gmap strings list fin_maps pretty.

#[local] Open Scope string_scope.
#[local] Open Scope Z_scope.

(** Decimal constants such as [0.9] denote the nearest binary64 value, in Go
    as here. *)
#[local] Set Warnings "-inexact-float".

(** ** Go values: errors, results, numbers *)

Module Go.

(** [google.golang.org/grpc/codes] (the two codes the plugin uses). *)
Inductive Code := InvalidArgument | FailedPrecondition.

(** [pbc.ErrorCode] (the two codes the plugin uses). *)
Inductive ErrorCode :=
| ERROR_CODE_INVALID_RESOURCE
| ERROR_CODE_UNSUPPORTED_REGION.

(** The [error] values the plugin builds.
    - [Errorf]: [fmt.Errorf(msg)], and errors of helpers described by text;
    - [StatusError]: [status.Error(code, msg)];
    - [ErrorWithID]: [p.newErrorWithID(traceID, code, msg, errorCode)];
    - [RegionMismatch]: the [FailedPrecondition] status that
      [RegionMismatchError] returns once its details are attached: the code
      [ERROR_CODE_UNSUPPORTED_REGION] with the [trace_id], [plugin_region],
      [resource_region] and [required_region] entries (the last one is the
      plugin region again). *)
Inductive error :=
| Errorf (msg : string)
| StatusError (c : Code) (msg : string)
| ErrorWithID (traceID : string) (c : Code) (msg : string) (ec : ErrorCode)
| RegionMismatch (traceID pluginRegion resourceRegion : string).

Definition codeName (c : Code) : string :=
  match c with
  | InvalidArgument => "InvalidArgument"
  | FailedPrecondition => "FailedPrecondition"
  end.

(** [err.Error()]: a gRPC status error prints its code and description. *)
Definition ErrorText (e : error) : string :=
  match e with
  | Errorf msg => msg
  | StatusError c msg
  | ErrorWithID _ c msg _ => "rpc error: code = " +:+ codeName c +:+ " desc = " +:+ msg
  | RegionMismatch _ _ _ =>
      "rpc error: code = " +:+ codeName FailedPrecondition +:+ " desc = region mismatch"
  end.

Inductive Result (A : Type) :=
| Ok (a : A)
| Err (e : error).
Arguments Ok {A} a.
Arguments Err {A} e.

Definition bind {A B} (r : Result A) (k : A -> Result B) : Result B :=
  match r with
  | Ok a => k a
  | Err e => Err e
  end.

Definition isOk {A} (r : Result A) : bool :=
  match r with Ok _ => true | Err _ => false end.

(** [m[k]] on a possibly nil map: the zero value when the key is absent. *)
Definition index (m : option (gmap string string)) (k : string) : string :=
  default "" (m ≫= (.!! k)).

(** [v, ok := m[k]]. *)
Definition commaOk (m : option (gmap string string)) (k : string) : option string :=
  m ≫= (.!! k).

Definition minInt64 : Z := - 2 ^ 63.
Definition maxInt64 : Z := 2 ^ 63 - 1.
Definition inInt64 (z : Z) : bool := (minInt64 <=? z) && (z <=? maxInt64).

(** [float64(n)] for an [int] [n]: the nearest binary64, ties to even. *)
Definition float64_of_int (n : Z) : float :=
  if n =? minInt64 then (-9223372036854775808)%float
  else if n <? 0 then PrimFloat.opp (PrimFloat.of_uint63 (Uint63.of_Z (- n)))
  else PrimFloat.of_uint63 (Uint63.of_Z n).

(** [x > y] on [float64]. *)
Definition fgt (x y : float) : bool := PrimFloat.ltb y x.

Definition isNaN (x : float) : bool := negb (PrimFloat.eqb x x).

End Go.
Export Go.

(** [Result] is an error monad; [x ← r; k] stops at the first error, as the
    source's [if err != nil { return nil, err }] does. *)
#[global] Instance Result_ret : MRet Result := @Ok.
#[global] Instance Result_bind : MBind Result := fun A B k r => Go.bind r k.

(** ** [time] and [timestamppb] *)

Module GoTime.

(** [timestamppb.Timestamp]: [Seconds] is an [int64] and [Nanos] an
    [int32]. *)
Record Timestamp := mkTimestamp { Seconds : Z; Nanos : Z }.

(** A [time.Time] without monotonic reading: the [int64] count of seconds
    since January 1 of year 1, and the nanoseconds within the second. *)
Record Time := mkTime { sec : Z; nsec : Z }.

Definition nanosPerSecond : Z := 1000000000.

(** [unixToInternal]: the seconds from year 1 to 1970. *)
Definition unixToInternal : Z := 62135596800.

(** The value an [int64] operation keeps of the exact result [z]. *)
Definition wrapInt64 (z : Z) : Z := (z + 2 ^ 63) mod 2 ^ 64 - 2 ^ 63.

(** [time.Unix(sec, nsec)]: [nsec] outside [0, 1e9) is carried into [sec]
    ([n := nsec / 1e9; sec += n; nsec -= n * 1e9; if nsec < 0 { nsec += 1e9;
    sec-- }], the division truncating), then [unixTime] stores
    [sec + unixToInternal]. Each operation on [sec] is an [int64] operation
    and wraps around. *)
Definition Unix (s n : Z) : Time :=
  let '(s, n) :=
    if (n <? 0) || (nanosPerSecond <=? n) then
      let q := Z.quot n nanosPerSecond in
      let s := wrapInt64 (s + q) in
      let n := n - q * nanosPerSecond in
      if n <? 0 then (wrapInt64 (s - 1), n + nanosPerSecond) else (s, n)
    else (s, n) in
  mkTime (wrapInt64 (s + unixToInternal)) n.

(** [ts.AsTime()]. *)
Definition AsTime (ts : Timestamp) : Time := Unix (Seconds ts) (Nanos ts).

Definition After (t u : Time) : bool :=
  (sec u <? sec t) || ((sec t =? sec u) && (nsec u <? nsec t)).

Definition Before (t u : Time) : bool :=
  (sec t <? sec u) || ((sec t =? sec u) && (nsec t <? nsec u)).

(** A [time.Duration] is an [int64] count of nanoseconds. *)
Definition Duration := Z.
Definition Hour : Duration := 3600 * nanosPerSecond.

(** [t.Sub(u)]: the difference of the two stored instants, saturated at the
    ends of [int64]. *)
Definition Sub (t u : Time) : Duration :=
  let d := (sec t - sec u) * nanosPerSecond + (nsec t - nsec u) in
  if inInt64 d then d
  else if Before t u then minInt64 else maxInt64.

(** [d.Hours()]: whole hours plus the fractional rest, as the library
    computes it. *)
Definition Hours (d : Duration) : float :=
  (float64_of_int (Z.quot d Hour)
   + float64_of_int (Z.rem d Hour) / 3600000000000)%float.

End GoTime.
Export GoTime.

(** ** [strconv] *)

Module Strconv.

Definition digitValue (c : ascii) : option Z :=
  let n := Z.of_N (N_of_ascii c) in
  if (48 <=? n) && (n <=? 57) then Some (n - 48) else None.

Fixpoint digits (acc : Z) (s : string) : option Z :=
  match s with
  | EmptyString => Some acc
  | String c rest =>
      match digitValue c with
      | Some d => digits (10 * acc + d) rest
      | None => None
      end
  end.

(** Unsigned decimal: at least one digit, digits only. *)
Definition unsignedDecimal (s : string) : option Z :=
  match s with
  | EmptyString => None
  | _ => digits 0 s
  end.

(** [strconv.Atoi]: an optional sign and decimal digits; [None] stands for
    the syntax error and for the range error outside [int64]. *)
Definition Atoi (s : string) : option Z :=
  let signed :=
    match s with
    | String "-" rest => Z.opp <$> unsignedDecimal rest
    | String "+" rest => unsignedDecimal rest
    | _ => unsignedDecimal s
    end in
  n ← signed; if inInt64 n then Some n else None.

(** [strconv.Itoa]. *)
Definition Itoa (n : Z) : string := pretty n.

End Strconv.

(** ** Protocol messages ([pbc]) *)

(** [pbc.ResourceDescriptor]. *)
Module ResourceDescriptor.
Record t := mk {
  Provider : string;
  ResourceType : string;
  Sku : string;
  Region : string;
  Tags : option (gmap string string)
}.

(** The zero value, what [var resource pbc.ResourceDescriptor] holds. *)
Definition zero : t := mk "" "" "" "" None.

Definition withRegion (d : t) (r : string) : t :=
  mk (Provider d) (ResourceType d) (Sku d) r (Tags d).
End ResourceDescriptor.

(** [pbc.GetActualCostRequest]. A nil [Start] or [End] is [None]. *)
Module GetActualCostRequest.
Record t := mk {
  ResourceId : string;
  Start : option Timestamp;
  End : option Timestamp;
  Tags : option (gmap string string);
  Arn : string
}.
End GetActualCostRequest.

(** [pbc.ActualCostResult]. *)
Module ActualCostResult.
Record t := mk {
  Timestamp : option GoTime.Timestamp;
  Cost : float;
  UsageAmount : float;
  UsageUnit : string;
  Source : string
}.
End ActualCostResult.

(** [pbc.GetActualCostResponse]. *)
Module GetActualCostResponse.
Record t := mk { Results : list ActualCostResult.t }.
End GetActualCostResponse.

(** The two fields of [pbc.GetProjectedCostResponse] that [GetActualCost]
    reads. *)
Module GetProjectedCostResponse.
Record t := mk { CostPerMonth : float; BillingDetail : string }.
End GetProjectedCostResponse.

(** [pbc.RecommendationFilter], the fields [GetRecommendations] reads. *)
Module RecommendationFilter.
Record t := mk {
  ResourceType : string;
  Region : string;
  Sku : string;
  Tags : option (gmap string string)
}.
End RecommendationFilter.

(** [pbc.GetRecommendationsRequest]. *)
Module GetRecommendationsRequest.
Record t := mk { Filter : option RecommendationFilter.t }.
End GetRecommendationsRequest.

Inductive RecommendationCategory := RECOMMENDATION_CATEGORY_COST.
Inductive RecommendationActionType := RECOMMENDATION_ACTION_TYPE_MODIFY.
Inductive RecommendationPriority :=
| RECOMMENDATION_PRIORITY_LOW
| RECOMMENDATION_PRIORITY_MEDIUM.

(** [pbc.ResourceRecommendationInfo]. *)
Module ResourceRecommendationInfo.
Record t := mk {
  Provider : string;
  ResourceType : string;
  Region : string;
  Sku : string
}.
End ResourceRecommendationInfo.

(** [pbc.ModifyAction]. *)
Module ModifyAction.
Record t := mk {
  ModificationType : string;
  CurrentConfig : gmap string string;
  RecommendedConfig : gmap string string
}.
End ModifyAction.

(** [pbc.RecommendationImpact]. *)
Module RecommendationImpact.
Record t := mk {
  EstimatedSavings : float;
  Currency : string;
  ProjectionPeriod : string;
  CurrentCost : float;
  ProjectedCost : float;
  SavingsPercentage : float
}.
End RecommendationImpact.

(** [pbc.Recommendation]; the action detail is always the [Modify] case. *)
Module Recommendation.
Record t := mk {
  Id : string;
  Category : RecommendationCategory;
  ActionType : RecommendationActionType;
  Resource : ResourceRecommendationInfo.t;
  Modify : ModifyAction.t;
  Impact : RecommendationImpact.t;
  Priority : RecommendationPriority;
  ConfidenceScore : float;
  Description : string;
  Reasoning : list string;
  Metadata : option (gmap string string);
  Source : string
}.
End Recommendation.

(** [pbc.RecommendationSummary], its scalar fields. *)
Module RecommendationSummary.
Record t := mk {
  TotalRecommendations : Z;
  TotalEstimatedSavings : float;
  Currency : string;
  ProjectionPeriod : string
}.
End RecommendationSummary.

(** [pbc.GetRecommendationsResponse]. *)
Module GetRecommendationsResponse.
Record t := mk {
  Recommendations : list Recommendation.t;
  Summary : RecommendationSummary.t
}.
End GetRecommendationsResponse.

(** ** ARN parsing *)

Module Arn.

(** [ARNComponents] of [arn.go]. *)
Record ARNComponents := mkARN {
  Partition : string;
  Service : string;
  Region : string;
  AccountID : string;
  ResourceType : string;
  ResourceID : string
}.

(** The text before the first [sep] and the text after it. *)
Fixpoint cut (sep : ascii) (s : string) : option (string * string) :=
  match s with
  | EmptyString => None
  | String c rest =>
      if decide (c = sep) then Some (EmptyString, rest)
      else '(a, b) ← cut sep rest; Some (String c a, b)
  end.

(** [strings.SplitN(s, sep, n)] for a one-byte separator. *)
Fixpoint SplitN (n : nat) (sep : ascii) (s : string) : list string :=
  match n with
  | O => []
  | S O => [s]
  | S n' =>
      match cut sep s with
      | Some (a, b) => a :: SplitN n' sep b
      | None => [s]
      end
  end.

Definition validPartitions : list string := ["aws"; "aws-cn"; "aws-us-gov"].
Definition isolatedPartitions : list string := ["aws-iso"; "aws-iso-b"].

Definition isolatedPartitionText : string :=
  "isolated partitions (aws-iso, aws-iso-b) do not have public pricing data".

(** Modelled from the spec: [ParseARN] of [arn.go], which is not among the
    sources. The grammar is [arn:partition:service:region:account:resource]
    with at least six colon-separated segments; the partition is one of
    [aws], [aws-cn], [aws-us-gov]; the isolated partitions are refused with
    their own explanation; service and resource are non-empty; region and
    account may be empty; the resource is [kind/id], [kind:id] or a bare
    name. The cases of [TestParseARN], [TestParseARN_InvalidFormats] and
    [TestParseARN_IsolatedPartitions] are checked below. *)
Definition ParseARN (arn : string) : Result ARNComponents :=
  match SplitN 6 ":" arn with
  | [scheme; partition; service; region; account; resource] =>
      if negb (bool_decide (scheme = "arn")) then
        Err (Errorf "invalid ARN format: missing arn prefix")
      else if bool_decide (partition ∈ isolatedPartitions) then
        Err (Errorf ("unsupported partition: " +:+ isolatedPartitionText))
      else if negb (bool_decide (partition ∈ validPartitions)) then
        Err (Errorf "unknown partition")
      else if bool_decide (service = "") then
        Err (Errorf "invalid ARN format: empty service")
      else if bool_decide (resource = "") then
        Err (Errorf "invalid ARN format: empty resource")
      else
        let '(kind, id) :=
          match cut "/" resource with
          | Some ki => ki
          | None => default (resource, "") (cut ":" resource)
          end in
        Ok (mkARN partition service region account kind id)
  | _ => Err (Errorf "invalid ARN format: expected at least 6 segments")
  end.

(** Modelled from the spec: the fixed service table of
    [ToPulumiResourceType]; a volume under the [ec2] service is [ebs], and
    a service outside the table keeps its own name. *)
Definition serviceTable : list (string * string) :=
  [("ec2", "ec2"); ("rds", "rds"); ("s3", "s3"); ("lambda", "lambda");
   ("dynamodb", "dynamodb"); ("eks", "eks")].

Definition ToPulumiResourceType (a : ARNComponents) : string :=
  if bool_decide (Service a = "ec2") && bool_decide (ResourceType a = "volume")
  then "ebs"
  else default (Service a) ((list_to_map serviceTable : gmap string string) !! Service a).

End Arn.

(** ** The plugin and what it depends on *)

(** [pricing.PricingClient], the two getters the recommendation code calls.
    Each returns the rate and whether it was found. *)
Record PricingClient := mkPricingClient {
  EC2OnDemandPricePerHour : string -> string -> string -> float * bool;
  EBSPricePerGBMonth : string -> float * bool
}.

(** [AWSPublicPlugin]. *)
Record AWSPublicPlugin := mkPlugin {
  region : string;
  pricing : PricingClient
}.

(** Functions the plugin calls whose bodies are outside the sources: other
    packages ([encoding/json], [pluginsdk], [fmt], [uuid]) and helpers of the
    plugin package defined in other files. They are taken as they are
    called. *)
Record Externals := mkExternals {
  (** [json.Unmarshal([]byte(s), &resource)]: the decoded descriptor, or
      [None] when it returns an error. *)
  jsonUnmarshal : string -> option ResourceDescriptor.t;
  (** [pluginsdk.ValidateActualCostRequest(req)]: [None] is a nil error. *)
  sdkValidateActualCostRequest : GetActualCostRequest.t -> option error;
  (** [ParseARN(s)] and [arn.ToPulumiResourceType()]. *)
  ParseARN : string -> Result Arn.ARNComponents;
  ToPulumiResourceType : Arn.ARNComponents -> string;
  (** [extractAWSSKU(tags)], called on a non-nil map. *)
  extractAWSSKU : gmap string string -> string;
  (** [p.getProjectedForResource(ctx, resource)]. *)
  getProjectedForResource : ResourceDescriptor.t -> Result GetProjectedCostResponse.t;
  (** [formatActualBillingDetail(detail, runtimeHours, actualCost)]. *)
  formatActualBillingDetail : string -> float -> float -> string;
  (** The text of the error [calculateRuntimeHours] returns. *)
  runtimeHoursErrorText : string;
  (** [detectService(resourceType)] and [parseInstanceType(instanceType)]. *)
  detectService : string -> string;
  parseInstanceType : string -> string * string;
  (** The value of the [n]-th call of [uuid.New().String()] in one request. *)
  uuidNew : nat -> string;
  (** [fmt.Sprintf("%.0f", x)]. *)
  sprintf_f0 : float -> string;
  (** [pluginsdk.CalculateRecommendationSummary(recs, period)]. *)
  CalculateRecommendationSummary :
    list Recommendation.t -> string -> RecommendationSummary.t;
  (** Whether [st.WithDetails(errDetail)] returns without error in
      [RegionMismatchError], for the details made of this trace ID, plugin
      region and resource region. *)
  withDetailsOk : string -> string -> string -> bool
}.

Section Plugin.

Context (ext : Externals) (p : AWSPublicPlugin).

(** *** validation.go *)

(** [validateTimestamps]; [None] is a nil error. *)
Definition validateTimestamps (req : GetActualCostRequest.t) : option error :=
  match GetActualCostRequest.Start req, GetActualCostRequest.End req with
  | None, _ => Some (StatusError InvalidArgument "start_time is required")
  | Some _, None => Some (StatusError InvalidArgument "end_time is required")
  | Some s, Some e =>
      if negb (After (AsTime e) (AsTime s))
      then Some (StatusError InvalidArgument "end_time must be after start_time")
      else None
  end.

(** The SKU that [parseResourceFromARN] reads from the tags. *)
Definition skuFromTags (tags : option (gmap string string)) : string :=
  match tags with
  | None => ""
  | Some m =>
      let sku := index tags "sku" in
      if bool_decide (sku = "") then extractAWSSKU ext m else sku
  end.

Definition skuTagKeys : list string :=
  ["sku"; "instanceType"; "instance_class"; "type"; "volumeType"; "volume_type"].

Definition descriptorTagKeys : list string :=
  ["provider"; "resource_type"; "sku"; "region"].

(** The loop [for k, v := range tags { switch k { case skip...: default:
    out[k] = v } }] into a fresh map. Ranging over a nil map does nothing. *)
Definition copyTagsExcept (skip : list string) (tags : option (gmap string string))
  : gmap string string :=
  filter (fun kv => kv.1 ∉ skip) (default ∅ tags).

Definition missingSkuText : string :=
  "ARN provided but tags missing 'sku' (instance type, volume type, etc.)".

(** [parseResourceFromARN]. *)
Definition parseResourceFromARN (req : GetActualCostRequest.t)
  : Result ResourceDescriptor.t :=
  arn ← ParseARN ext (GetActualCostRequest.Arn req);
  let sku := skuFromTags (GetActualCostRequest.Tags req) in
  if bool_decide (sku = "") then Err (Errorf missingSkuText)
  else
    let resourceType := ToPulumiResourceType ext arn in
    let tags := copyTagsExcept skuTagKeys (GetActualCostRequest.Tags req) in
    Ok (ResourceDescriptor.mk "aws" resourceType sku (Arn.Region arn) (Some tags)).

(** [RegionMismatchError]: the status with its details, or, when the details
    cannot be attached, the bare status. *)
Definition RegionMismatchError (traceID resourceRegion : string) : error :=
  let msg := "region mismatch" in
  if withDetailsOk ext traceID (region p) resourceRegion
  then RegionMismatch traceID (region p) resourceRegion
  else StatusError FailedPrecondition msg.

(** *** plugin.go *)

(** Modelled from the spec: [hoursPerMonth], declared in another file of the
    package, is the fixed monthly-hours constant 730. *)
Definition hoursPerMonth : float := 730.

(** Modelled from the spec: [calculateRuntimeHours] of [actual.go], which is
    not among the sources. An end before the start is an error; otherwise
    the result is [to.Sub(from).Hours()], which is 0 for equal instants. *)
Definition calculateRuntimeHours (from to : Time) : Result float :=
  if Before to from then Err (Errorf (runtimeHoursErrorText ext))
  else Ok (Hours (Sub to from)).

Definition missingResourceText : string :=
  "missing resource information: provide ResourceId as JSON or use Tags".

Definition incompleteResourceText : string :=
  "resource information incomplete: need provider, resource_type, sku, region in ResourceId or Tags".

(** The descriptor [parseResourceFromRequest] reads from a non-nil tag map. *)
Definition descriptorFromTags (tags : gmap string string) : ResourceDescriptor.t :=
  ResourceDescriptor.mk
    (index (Some tags) "provider")
    (index (Some tags) "resource_type")
    (index (Some tags) "sku")
    (index (Some tags) "region")
    (Some (copyTagsExcept descriptorTagKeys (Some tags))).

Definition incomplete (d : ResourceDescriptor.t) : bool :=
  bool_decide (ResourceDescriptor.Provider d = "")
  || bool_decide (ResourceDescriptor.ResourceType d = "")
  || bool_decide (ResourceDescriptor.Sku d = "")
  || bool_decide (ResourceDescriptor.Region d = "").

(** The tag fallback of [parseResourceFromRequest]. *)
Definition parseResourceFromTags (tags : option (gmap string string))
  : Result ResourceDescriptor.t :=
  match tags with
  | None => Err (StatusError InvalidArgument missingResourceText)
  | Some m =>
      let resource := descriptorFromTags m in
      if incomplete resource
      then Err (StatusError InvalidArgument incompleteResourceText)
      else Ok resource
  end.

(** [parseResourceFromRequest]: a [ResourceId] that decodes as JSON is
    returned at once; otherwise the tags are used. *)
Definition parseResourceFromRequest (req : GetActualCostRequest.t)
  : Result ResourceDescriptor.t :=
  let fromJSON :=
    if bool_decide (GetActualCostRequest.ResourceId req = "") then None
    else jsonUnmarshal ext (GetActualCostRequest.ResourceId req) in
  match fromJSON with
  | Some resource => Ok resource
  | None => parseResourceFromTags (GetActualCostRequest.Tags req)
  end.

(** [GetActualCost]. *)
Definition GetActualCost (req : option GetActualCostRequest.t)
  : Result GetActualCostResponse.t :=
  match req with
  | None => Err (StatusError InvalidArgument "missing request")
  | Some req =>
      match GetActualCostRequest.Start req, GetActualCostRequest.End req with
      | None, _ => Err (StatusError InvalidArgument "missing Start timestamp")
      | Some _, None => Err (StatusError InvalidArgument "missing End timestamp")
      | Some start, Some end_ =>
          let fromTime := AsTime start in
          let toTime := AsTime end_ in
          match calculateRuntimeHours fromTime toTime with
          | Err err =>
              Err (StatusError InvalidArgument ("invalid time range: " +:+ ErrorText err))
          | Ok runtimeHours =>
              resource ← parseResourceFromRequest req;
              if PrimFloat.eqb runtimeHours 0 then
                Ok (GetActualCostResponse.mk
                      [ActualCostResult.mk (Some start) 0 0 "" "aws-public-fallback"])
              else
                projectedResp ← getProjectedForResource ext resource;
                let actualCost :=
                  (GetProjectedCostResponse.CostPerMonth projectedResp
                   * (runtimeHours / hoursPerMonth))%float in
                Ok (GetActualCostResponse.mk
                      [ActualCostResult.mk (Some start) actualCost runtimeHours "hours"
                         (formatActualBillingDetail ext
                            (GetProjectedCostResponse.BillingDetail projectedResp)
                            runtimeHours actualCost)])
          end
      end
  end.

(** [ValidateActualCostRequest]; [traceID] is [p.getTraceID(ctx)]. *)
Definition ValidateActualCostRequest (traceID : string)
    (req : option GetActualCostRequest.t) : Result ResourceDescriptor.t :=
  let invalid (msg : string) : error :=
    ErrorWithID traceID InvalidArgument msg ERROR_CODE_INVALID_RESOURCE in
  match req with
  | None => Err (invalid "request is required")
  | Some req =>
      match validateTimestamps req with
      | Some err => Err (invalid (ErrorText err))
      | None =>
          if negb (bool_decide (GetActualCostRequest.Arn req = "")) then
            match parseResourceFromARN req with
            | Err err => Err (invalid (ErrorText err))
            | Ok resource =>
                let r := ResourceDescriptor.Region resource in
                if negb (bool_decide (r = "")) && negb (bool_decide (r = region p))
                then Err (RegionMismatchError traceID r)
                else if bool_decide (r = "")
                then Ok (ResourceDescriptor.withRegion resource (region p))
                else Ok resource
            end
          else
            match sdkValidateActualCostRequest ext req with
            | Some err => Err (invalid (ErrorText err))
            | None =>
                match parseResourceFromRequest req with
                | Err err => Err (invalid (ErrorText err))
                | Ok resource =>
                    if negb (bool_decide (ResourceDescriptor.Region resource = region p))
                    then Err (RegionMismatchError traceID
                                (ResourceDescriptor.Region resource))
                    else Ok resource
                end
            end
      end
  end.

(** *** recommendations.go *)

Definition confidenceHigh : float := 0.9.
Definition confidenceMedium : float := 0.7.
Definition sourceAWSPublic : string := "aws-public".
Definition modTypeGenUpgrade : string := "generation_upgrade".
Definition modTypeGraviton : string := "graviton_migration".
Definition modTypeVolumeUpgrade : string := "volume_type_upgrade".
Definition defaultEBSVolumeGB : Z := 100.

(** Modelled from the spec: [generationUpgradeMap], declared in another file
    of the package, is a fixed mapping from an older compute family to
    exactly one newer family; its entries are the ones listed in the
    recommendations data model (specs/012-recommendations/data-model.md). *)
Definition generationUpgradeMap : gmap string string :=
  list_to_map
    [("t2", "t3"); ("t3", "t3a");
     ("m4", "m5"); ("m5", "m6i"); ("m5a", "m6a");
     ("c4", "c5"); ("c5", "c6i"); ("c5a", "c6a");
     ("r4", "r5"); ("r5", "r6i"); ("r5a", "r6a");
     ("i3", "i3en");
     ("d2", "d3")].

(** Modelled from the spec: [gravitonMap], declared in another file of the
    package, is the second fixed family mapping, toward the ARM families;
    its entries are the ones listed in the same data model. *)
Definition gravitonMap : gmap string string :=
  list_to_map
    [("m5", "m6g"); ("m5a", "m6g"); ("m5n", "m6g"); ("m6i", "m6g"); ("m6a", "m6g");
     ("c5", "c6g"); ("c5a", "c6g"); ("c5n", "c6gn"); ("c6i", "c6g"); ("c6a", "c6g");
     ("r5", "r6g"); ("r5a", "r6g"); ("r5n", "r6g"); ("r6i", "r6g"); ("r6a", "r6g");
     ("t3", "t4g"); ("t3a", "t4g")].

(** The statement
    [savingsPercent := 0.0; if currentMonthly > 0 { savingsPercent =
    (savings / currentMonthly) * 100 }], returning with the percentage the
    divisors of the divisions it performed. *)
Definition savingsPercentTraced (savings currentMonthly : float)
  : float * list float :=
  if fgt currentMonthly 0
  then ((savings / currentMonthly * 100)%float, [currentMonthly])
  else (0%float, []).

Definition savingsPercentOf (savings currentMonthly : float) : float :=
  (savingsPercentTraced savings currentMonthly).1.

(** The [Impact] block the three generators build. *)
Definition impactOf (currentMonthly newMonthly : float) : RecommendationImpact.t :=
  let savings := (currentMonthly - newMonthly)%float in
  RecommendationImpact.mk savings "USD" "monthly" currentMonthly newMonthly
    (savingsPercentOf savings currentMonthly).

(** [getGenerationUpgradeRecommendation]; [id] is the value of its
    [uuid.New().String()], and [None] is the nil recommendation. *)
Definition getGenerationUpgradeRecommendation (id instanceType region_ : string)
  : option Recommendation.t :=
  let '(family, size) := parseInstanceType ext instanceType in
  if bool_decide (family = "") then None
  else
    match generationUpgradeMap !! family with
    | None => None
    | Some newFamily =>
        let newType := newFamily +:+ "." +:+ size in
        let '(currentPrice, found) :=
          EC2OnDemandPricePerHour (pricing p) instanceType "Linux" "Shared" in
        if negb found then None
        else
          let '(newPrice, found) :=
            EC2OnDemandPricePerHour (pricing p) newType "Linux" "Shared" in
          if negb found || fgt newPrice currentPrice then None
          else
            let currentMonthly := (currentPrice * hoursPerMonth)%float in
            let newMonthly := (newPrice * hoursPerMonth)%float in
            let reasoning :=
              (["Newer " +:+ newFamily +:+ " instances offer better performance";
                "Drop-in replacement with no architecture changes required"]
               ++ match gravitonMap !! newFamily with
                  | Some gravitonFamily =>
                      ["Alternative: consider " +:+ (gravitonFamily +:+ "." +:+ size)
                       +:+ " for ARM compatibility (~20% additional savings)"]
                  | None => []
                  end)%list in
            Some (Recommendation.mk id
                    RECOMMENDATION_CATEGORY_COST
                    RECOMMENDATION_ACTION_TYPE_MODIFY
                    (ResourceRecommendationInfo.mk "aws" "ec2" region_ instanceType)
                    (ModifyAction.mk modTypeGenUpgrade
                       {[ "instance_type" := instanceType ]}
                       {[ "instance_type" := newType ]})
                    (impactOf currentMonthly newMonthly)
                    RECOMMENDATION_PRIORITY_MEDIUM
                    confidenceHigh
                    ("Upgrade from " +:+ instanceType +:+ " to " +:+ newType
                     +:+ " for better performance at same or lower cost")
                    reasoning
                    None
                    sourceAWSPublic)
    end.

(** [getGravitonRecommendation]. *)
Definition getGravitonRecommendation (id instanceType region_ : string)
  : option Recommendation.t :=
  let '(family, size) := parseInstanceType ext instanceType in
  if bool_decide (family = "") then None
  else
    match gravitonMap !! family with
    | None => None
    | Some gravitonFamily =>
        let gravitonType := gravitonFamily +:+ "." +:+ size in
        let '(currentPrice, found) :=
          EC2OnDemandPricePerHour (pricing p) instanceType "Linux" "Shared" in
        if negb found then None
        else
          let '(gravitonPrice, found) :=
            EC2OnDemandPricePerHour (pricing p) gravitonType "Linux" "Shared" in
          if negb found || fgt gravitonPrice currentPrice then None
          else
            let currentMonthly := (currentPrice * hoursPerMonth)%float in
            let gravitonMonthly := (gravitonPrice * hoursPerMonth)%float in
            let impact := impactOf currentMonthly gravitonMonthly in
            Some (Recommendation.mk id
                    RECOMMENDATION_CATEGORY_COST
                    RECOMMENDATION_ACTION_TYPE_MODIFY
                    (ResourceRecommendationInfo.mk "aws" "ec2" region_ instanceType)
                    (ModifyAction.mk modTypeGraviton
                       (<[ "instance_type" := instanceType ]>
                          {[ "architecture" := "x86_64" ]})
                       (<[ "instance_type" := gravitonType ]>
                          {[ "architecture" := "arm64" ]}))
                    impact
                    RECOMMENDATION_PRIORITY_LOW
                    confidenceMedium
                    ("Migrate from " +:+ instanceType +:+ " to " +:+ gravitonType
                     +:+ " (Graviton) for ~"
                     +:+ sprintf_f0 ext (RecommendationImpact.SavingsPercentage impact)
                     +:+ "% cost savings")
                    ["Graviton instances are typically ~20% cheaper with comparable performance";
                     "Requires validation that application supports ARM architecture"]
                    (Some (<[ "architecture_change" := "x86_64 -> arm64" ]>
                             {[ "requires_validation" :=
                                  "Application must support ARM architecture" ]}))
                    sourceAWSPublic)
    end.

(** [generateEC2Recommendations]; [n] counts the UUIDs drawn before it. *)
Definition generateEC2Recommendations (n : nat) (instanceType region_ : string)
  : list Recommendation.t :=
  let recommendations :=
    match getGenerationUpgradeRecommendation (uuidNew ext n) instanceType region_ with
    | Some rec => [rec]
    | None => []
    end in
  match getGravitonRecommendation
          (uuidNew ext (n + length recommendations)%nat) instanceType region_ with
  | Some rec => (recommendations ++ [rec])%list
  | None => recommendations
  end.

(** The size that [getEBSRecommendations] reads from the tags. *)
Definition ebsSizeGB (tags : option (gmap string string)) : Z :=
  let parsedOr (sizeStr : string) : Z :=
    match Strconv.Atoi sizeStr with
    | Some parsed => if 0 <? parsed then parsed else defaultEBSVolumeGB
    | None => defaultEBSVolumeGB
    end in
  match commaOk tags "size" with
  | Some sizeStr => parsedOr sizeStr
  | None =>
      match commaOk tags "volume_size" with
      | Some sizeStr => parsedOr sizeStr
      | None => defaultEBSVolumeGB
      end
  end.

(** [getEBSRecommendations]. *)
Definition getEBSRecommendations (id volumeType region_ : string)
    (tags : option (gmap string string)) : list Recommendation.t :=
  if negb (bool_decide (volumeType = "gp2")) then []
  else
    let sizeGB := ebsSizeGB tags in
    let '(gp2Price, found) := EBSPricePerGBMonth (pricing p) "gp2" in
    if negb found then []
    else
      let '(gp3Price, found) := EBSPricePerGBMonth (pricing p) "gp3" in
      if negb found || fgt gp3Price gp2Price then []
      else
        let currentMonthly := (gp2Price * float64_of_int sizeGB)%float in
        let gp3Monthly := (gp3Price * float64_of_int sizeGB)%float in
        let impact := impactOf currentMonthly gp3Monthly in
        [Recommendation.mk id
           RECOMMENDATION_CATEGORY_COST
           RECOMMENDATION_ACTION_TYPE_MODIFY
           (ResourceRecommendationInfo.mk "aws" "ebs" region_ volumeType)
           (ModifyAction.mk modTypeVolumeUpgrade
              (<[ "volume_type" := "gp2" ]> {[ "size_gb" := Strconv.Itoa sizeGB ]})
              (<[ "volume_type" := "gp3" ]> {[ "size_gb" := Strconv.Itoa sizeGB ]}))
           impact
           RECOMMENDATION_PRIORITY_MEDIUM
           confidenceHigh
           ("Upgrade " +:+ Strconv.Itoa sizeGB +:+ "GB gp2 volume to gp3 for ~"
            +:+ sprintf_f0 ext (RecommendationImpact.SavingsPercentage impact)
            +:+ "% cost savings")
           ["gp3 volumes are ~20% cheaper than gp2";
            "gp3 provides better baseline performance (3000 IOPS, 125 MB/s)";
            "API-compatible change with no data migration required"]
           (Some (<[ "baseline_iops" := "gp2: 100 IOPS/GB, gp3: 3000 IOPS (included)" ]>
                    {[ "baseline_throughput" :=
                         "gp2: 128-250 MB/s, gp3: 125 MB/s (included)" ]}))
           sourceAWSPublic].

(** The recommendations [GetRecommendations] collects for a non-nil
    request. *)
Definition recommendationsFor (req : GetRecommendationsRequest.t)
  : list Recommendation.t :=
  match GetRecommendationsRequest.Filter req with
  | None => []
  | Some filter_ =>
      if bool_decide (RecommendationFilter.Sku filter_ = "") then []
      else
        let resourceType := RecommendationFilter.ResourceType filter_ in
        let region_ :=
          if bool_decide (RecommendationFilter.Region filter_ = "")
          then region p else RecommendationFilter.Region filter_ in
        let service := detectService ext resourceType in
        if bool_decide (service = "ec2") then
          generateEC2Recommendations 0 (RecommendationFilter.Sku filter_) region_
        else if bool_decide (service = "ebs") then
          getEBSRecommendations (uuidNew ext 0) (RecommendationFilter.Sku filter_)
            region_ (RecommendationFilter.Tags filter_)
        else []
  end.

(** [GetRecommendations]. *)
Definition GetRecommendations (traceID : string)
    (req : option GetRecommendationsRequest.t) : Result GetRecommendationsResponse.t :=
  match req with
  | None =>
      Err (ErrorWithID traceID InvalidArgument "missing request"
             ERROR_CODE_INVALID_RESOURCE)
  | Some req =>
      let recommendations := recommendationsFor req in
      Ok (GetRecommendationsResponse.mk recommendations
            (CalculateRecommendationSummary ext recommendations "monthly"))
  end.

End Plugin.

(** ** A concrete plugin to run the code on

    A small rate card and stand-ins for the functions of [Externals], used to
    evaluate the definitions above on sample requests. *)

Module Sample.

Definition rateCardEC2 : gmap string float :=
  list_to_map
    [("t2.micro", 0.0116%float); ("t3.micro", 0.0104%float);
     ("t3a.micro", 0.0094%float); ("m5.large", 0.096%float);
     ("m6i.large", 0.096%float); ("m6g.large", 0.077%float);
     ("c5.large", 0.085%float); ("c6i.large", 0.0875%float)].

Definition rateCardEBS : gmap string float :=
  list_to_map [("gp2", 0.1%float); ("gp3", 0.08%float)].

(** Not found is the pair [(0, false)]. *)
Definition lookupRate (card : gmap string float) (k : string) : float * bool :=
  match card !! k with
  | Some r => (r, true)
  | None => (0%float, false)
  end.

Definition client : PricingClient :=
  mkPricingClient
    (fun instanceType os tenancy =>
       if bool_decide (os = "Linux") && bool_decide (tenancy = "Shared")
       then lookupRate rateCardEC2 instanceType else (0%float, false))
    (lookupRate rateCardEBS).

Definition plugin : AWSPublicPlugin := mkPlugin "us-east-1" client.

(** [json.Unmarshal] on the identifiers of the samples: the empty object
    decodes to the zero descriptor, the other identifiers are not JSON. *)
Definition jsonUnmarshal (s : string) : option ResourceDescriptor.t :=
  if bool_decide (s = "{}") then Some ResourceDescriptor.zero else None.

(** The SDK check asks for a [ResourceId]. *)
Definition sdkValidate (req : GetActualCostRequest.t) : option error :=
  if bool_decide (GetActualCostRequest.ResourceId req = "")
  then Some (Errorf "resource_id is required") else None.

(** The first non-empty value among the type-bearing tags. *)
Definition extractAWSSKU (tags : gmap string string) : string :=
  default ""
    (head (filter (fun v => v ≠ "")
             (omap (fun k => tags !! k)
                ["instanceType"; "instance_class"; "type"; "volumeType"; "volume_type"]))).

(** Modelled from the spec: a compute resource priced at rate [R] with no
    usage tags has projected monthly cost [R * 730]; a resource type without
    an estimator is reported as unsupported. *)
Definition getProjectedForResource (d : ResourceDescriptor.t)
  : Result GetProjectedCostResponse.t :=
  if bool_decide (ResourceDescriptor.ResourceType d = "ec2") then
    let '(rate, found) :=
      EC2OnDemandPricePerHour client (ResourceDescriptor.Sku d) "Linux" "Shared" in
    if found
    then Ok (GetProjectedCostResponse.mk (rate * 730)%float "On-demand Linux, Shared")
    else Err (StatusError InvalidArgument "no pricing for instance type")
  else Err (StatusError InvalidArgument "unsupported resource type").

(** [family.size]; no dot, no family. *)
Definition parseInstanceType (instanceType : string) : string * string :=
  default ("", "") (Arn.cut "." instanceType).

Definition roundHalfEven (a b : Z) : Z :=
  let q := a / b in
  let r := a mod b in
  if 2 * r <? b then q
  else if b <? 2 * r then q + 1
  else if Z.even q then q else q + 1.

(** [%.0f]: the nearest integer, ties to even. *)
Definition sprintf_f0 (x : float) : string :=
  match Prim2SF x with
  | S754_zero s => if s then "-0" else "0"
  | S754_infinity s => if s then "-Inf" else "+Inf"
  | S754_nan => "NaN"
  | S754_finite s m e =>
      let n := if 0 <=? e then Zpos m * 2 ^ e else roundHalfEven (Zpos m) (2 ^ (- e)) in
      (if s then "-" else "") +:+ pretty n
  end.

Definition summary (recs : list Recommendation.t) (period : string)
  : RecommendationSummary.t :=
  RecommendationSummary.mk (Z.of_nat (length recs))
    (foldr (fun r acc =>
              (RecommendationImpact.EstimatedSavings (Recommendation.Impact r) + acc)%float)
       0%float recs)
    "USD" period.

(** Attaching the details marshals them, which asks for valid UTF-8. For the
    samples: strings of ASCII bytes attach, any other string is taken to
    fail. *)
Definition asciiOnly (s : string) : bool :=
  forallb (fun c => Z.of_N (N_of_ascii c) <? 128) (list_ascii_of_string s).

Definition withDetailsOk (traceID pluginRegion resourceRegion : string) : bool :=
  asciiOnly traceID && asciiOnly pluginRegion && asciiOnly resourceRegion.

Definition ext : Externals :=
  mkExternals
    jsonUnmarshal
    sdkValidate
    Arn.ParseARN
    Arn.ToPulumiResourceType
    extractAWSSKU
    getProjectedForResource
    (fun detail hours cost => "Fallback estimate: " +:+ detail)
    "end time is before start time"
    (fun resourceType => resourceType)
    parseInstanceType
    (fun n => "uuid-" +:+ pretty n)
    sprintf_f0
    summary
    withDetailsOk.

Definition t0 : Timestamp := mkTimestamp 1735689600 0.
Definition t0_plus_24h : Timestamp := mkTimestamp 1735776000 0.

(** A [t3.micro] described by tags, over 24 hours. *)
Definition reqTags24h : GetActualCostRequest.t :=
  GetActualCostRequest.mk "" (Some t0) (Some t0_plus_24h)
    (Some (list_to_map
             [("provider", "aws"); ("resource_type", "ec2"); ("sku", "t3.micro");
              ("region", "us-east-1"); ("app", "web")]))
    "".

(** The same resource over an empty window. *)
Definition reqTagsZero : GetActualCostRequest.t :=
  GetActualCostRequest.mk "" (Some t0) (Some t0)
    (Some (list_to_map
             [("provider", "aws"); ("resource_type", "ec2"); ("sku", "t3.micro");
              ("region", "us-east-1"); ("app", "web")]))
    "".

(** A bucket ARN, whose region segment is empty, with its storage class in
    the tags. *)
Definition reqBucket : GetActualCostRequest.t :=
  GetActualCostRequest.mk "" (Some t0) (Some t0_plus_24h)
    (Some (list_to_map [("sku", "STANDARD"); ("team", "data")]))
    "arn:aws:s3:::my-bucket".

(** An instance ARN whose tags carry no SKU. *)
Definition reqInstanceNoSku : GetActualCostRequest.t :=
  GetActualCostRequest.mk "" (Some t0) (Some t0_plus_24h)
    (Some (list_to_map [("app", "web")]))
    "arn:aws:ec2:us-east-1:123456789012:instance/i-abc123".

(** An instance ARN whose type comes from the [instanceType] tag. *)
Definition reqInstance : GetActualCostRequest.t :=
  GetActualCostRequest.mk "" (Some t0) (Some t0_plus_24h)
    (Some (list_to_map [("instanceType", "t3.micro"); ("type", "x"); ("app", "web")]))
    "arn:aws:ec2:us-east-1:123456789012:instance/i-abc123".

(** A [ResourceId] holding the empty JSON object, and no tags. *)
Definition reqEmptyObject : GetActualCostRequest.t :=
  GetActualCostRequest.mk "{}" (Some t0) (Some t0_plus_24h) None "".

Definition filterOf (resourceType sku : string) (tags : option (gmap string string))
  : GetRecommendationsRequest.t :=
  GetRecommendationsRequest.mk (Some (RecommendationFilter.mk resourceType "" sku tags)).

End Sample.

(** ** The projected-cost validation (validation.go) *)

(** [pbc.GetProjectedCostRequest], the field the validation reads; a nil
    [Resource] is [None]. *)
Module GetProjectedCostRequest.
Record t := mk { Resource : option ResourceDescriptor.t }.
End GetProjectedCostRequest.

Section Projected.

(** [pluginsdk.ValidateProjectedCostRequest(req)], on a possibly nil request;
    [None] is a nil error. *)
Context (sdkValidateProjectedCostRequest :
           option GetProjectedCostRequest.t -> option error)
        (ext : Externals) (p : AWSPublicPlugin).

(** [ValidateProjectedCostRequest]. The outer [None] is the nil-pointer
    panic of [req.Resource.Region] when the SDK check lets a nil request or a
    nil resource through. *)
Definition ValidateProjectedCostRequest (traceID : string)
    (req : option GetProjectedCostRequest.t) : option (Result ResourceDescriptor.t) :=
  match sdkValidateProjectedCostRequest req with
  | Some err =>
      Some (Err (ErrorWithID traceID InvalidArgument (ErrorText err)
                   ERROR_CODE_INVALID_RESOURCE))
  | None =>
      resource ← req ≫= GetProjectedCostRequest.Resource;
      Some (if negb (bool_decide (ResourceDescriptor.Region resource = region p))
            then Err (RegionMismatchError ext p traceID
                        (ResourceDescriptor.Region resource))
            else Ok resource)
  end.

End Projected.

(** ** Utilization for the carbon estimate (package carbon) *)

Module Carbon.

(** [Clamp]. *)
Definition Clamp (v min max : float) : float :=
  if PrimFloat.ltb v min then min
  else if fgt v max then max
  else v.

Section Utilization.

(** [DefaultUtilization], a constant of the package declared in another
    file. *)
Context (DefaultUtilization : float).

(** [GetUtilization]; a nil [perResourceUtil] is [None]. *)
Definition GetUtilization (requestUtil : float) (perResourceUtil : option float)
  : float :=
  match perResourceUtil with
  | Some u =>
      if fgt u 0 then Clamp u 0 1
      else if fgt requestUtil 0 then Clamp requestUtil 0 1
      else DefaultUtilization
  | None =>
      if fgt requestUtil 0 then Clamp requestUtil 0 1
      else DefaultUtilization
  end.

End Utilization.

(** *** instance_specs.go *)

(** [InstanceSpec]. *)
Record InstanceSpec := mkSpec {
  InstanceType : string;
  VCPUCount : Z;
  MinWatts : float;
  MaxWatts : float
}.

Definition zeroSpec : InstanceSpec := mkSpec "" 0 0 0.

Definition colInstanceType : nat := 0.
Definition colVCPUCount : nat := 2.
Definition colMinWatts : nat := 14.
Definition colMaxWatts : nat := 17.

(** What one call of [reader.Read()] gives before the end of the data: a
    record, or an error of the CSV reader. *)
Inductive ReadResult :=
| ReadRecord (record : list string)
| ReadError.

(** [strings.ReplaceAll(s, ",", ".")]. *)
Fixpoint replaceCommas (s : string) : string :=
  match s with
  | EmptyString => EmptyString
  | String c rest =>
      String (if bool_decide (c = ","%char) then "."%char else c) (replaceCommas rest)
  end.

Section Specs.

(** [strings.TrimSpace] and [strconv.ParseFloat(s, 64)] ([None] is its
    error). *)
Context (TrimSpace : string -> string) (ParseFloat : string -> option float).

(** [parseEuropeanFloat]. *)
Definition parseEuropeanFloat (s : string) : float :=
  match ParseFloat (replaceCommas (TrimSpace s)) with
  | Some val => val
  | None => 0%float
  end.

(** [record[i]] once [len(record) > colMaxWatts] is known. *)
Definition field (record : list string) (i : nat) : string := nth i record "".

(** One turn of the loop of [parseInstanceSpecs]: every [continue] leaves the
    map as it is. *)
Definition parseRow (specs : gmap string InstanceSpec) (r : ReadResult)
  : gmap string InstanceSpec :=
  match r with
  | ReadError => specs
  | ReadRecord record =>
      if (length record <=? colMaxWatts)%nat then specs
      else
        let instanceType := TrimSpace (field record colInstanceType) in
        if bool_decide (instanceType = "") then specs
        else
          match Strconv.Atoi (TrimSpace (field record colVCPUCount)) with
          | None => specs
          | Some vcpuCount =>
              if vcpuCount <? 1 then specs
              else
                let minWatts := parseEuropeanFloat (field record colMinWatts) in
                let maxWatts := parseEuropeanFloat (field record colMaxWatts) in
                if PrimFloat.ltb minWatts 0 || PrimFloat.ltb maxWatts minWatts
                then specs
                else <[ instanceType := mkSpec instanceType vcpuCount minWatts maxWatts ]>
                       specs
          end
  end.

(** [parseInstanceSpecs], on what the reader yields: [headerOk] tells whether
    the first [Read] returned without error, [rows] are the results of the
    later calls up to the end of the data. *)
Definition parseInstanceSpecs (headerOk : bool) (rows : list ReadResult)
  : gmap string InstanceSpec :=
  if headerOk then foldl parseRow ∅ rows else ∅.

(** [GetInstanceSpec], on the map built at the first use. *)
Definition GetInstanceSpec (instanceSpecs : gmap string InstanceSpec)
    (instanceType : string) : InstanceSpec * bool :=
  match instanceSpecs !! instanceType with
  | Some spec => (spec, true)
  | None => (zeroSpec, false)
  end.

(** [InstanceSpecCount]. *)
Definition InstanceSpecCount (instanceSpecs : gmap string InstanceSpec) : Z :=
  Z.of_nat (size instanceSpecs).

End Specs.

End Carbon.

(** ** Region configuration (package regionsconfig) *)

Module Regionsconfig.

(** [RegionConfig] and [Config]. *)
Record RegionConfig := mkRegion { ID : string; Name : string; Tag : string }.
Record Config := mkConfig { Regions : list RegionConfig }.

(** A byte of the class [[a-zA-Z0-9_-]]. *)
Definition safeByte (c : ascii) : bool :=
  let n := Z.of_N (N_of_ascii c) in
  ((97 <=? n) && (n <=? 122)) || ((65 <=? n) && (n <=? 90))
  || ((48 <=? n) && (n <=? 57)) || (n =? 95) || (n =? 45).

Fixpoint allSafe (s : string) : bool :=
  match s with
  | EmptyString => true
  | String c rest => safeByte c && allSafe rest
  end.

(** [safePattern.MatchString(s)] for [^[a-zA-Z0-9_-]+$]: one byte at least,
    and every byte in the class. *)
Definition safePatternMatch (s : string) : bool :=
  negb (bool_decide (s = "")) && allSafe s.

Definition invalidCharsText : string :=
  " contains invalid characters (only alphanumeric, hyphens, underscores allowed)".

Section Validate.

(** [fmt.Sprintf("%q", s)]. *)
Context (quote : string -> string).

(** The checks [Validate] makes on one region, given the IDs seen so far;
    [None] lets the loop go on. *)
Definition checkRegion (seen : gset string) (r : RegionConfig) : option error :=
  if bool_decide (ID r = "") then Some (Errorf "region missing id")
  else if bool_decide (Name r = "") then
    Some (Errorf ("region " +:+ ID r +:+ " missing name"))
  else if bool_decide (Tag r = "") then
    Some (Errorf ("region " +:+ ID r +:+ " missing tag"))
  else if negb (safePatternMatch (ID r)) then
    Some (Errorf ("region id " +:+ quote (ID r) +:+ invalidCharsText))
  else if negb (safePatternMatch (Name r)) then
    Some (Errorf ("region name " +:+ quote (Name r) +:+ invalidCharsText))
  else if negb (safePatternMatch (Tag r)) then
    Some (Errorf ("region tag " +:+ quote (Tag r) +:+ invalidCharsText))
  else
    let expectedTag := "region_" +:+ ID r in
    if negb (bool_decide (Tag r = expectedTag)) then
      Some (Errorf ("region " +:+ ID r +:+ " tag mismatch: expected " +:+ expectedTag
                    +:+ ", got " +:+ Tag r))
    else if bool_decide (ID r ∈ seen) then
      Some (Errorf ("duplicate region id: " +:+ ID r))
    else None.

(** The loop of [Validate], from the set [seen]. *)
Fixpoint validateFrom (seen : gset string) (regions : list RegionConfig)
  : option error :=
  match regions with
  | [] => None
  | r :: rest =>
      match checkRegion seen r with
      | Some err => Some err
      | None => validateFrom ({[ ID r ]} ∪ seen) rest
      end
  end.

(** [Validate]; [None] is a nil error. *)
Definition Validate (regions : list RegionConfig) : option error :=
  validateFrom ∅ regions.

(** [os.ReadFile] and [yaml.Unmarshal(data, &config)]. *)
Context (ReadFile : string -> Result string)
        (yamlUnmarshal : string -> Result Config).

(** [Load]. *)
Definition Load (filename : string) : Result Config :=
  match ReadFile filename with
  | Err err => Err (Errorf ("failed to read regions config: " +:+ ErrorText err))
  | Ok data =>
      match yamlUnmarshal data with
      | Err err => Err (Errorf ("failed to parse regions config: " +:+ ErrorText err))
      | Ok config => Ok config
      end
  end.

(** [LoadAndValidate]. *)
Definition LoadAndValidate (filename : string) : Result Config :=
  config ← Load filename;
  match Validate (Regions config) with
  | Some err => Err (Errorf ("validation failed: " +:+ ErrorText err))
  | None => Ok config
  end.

End Validate.

End Regionsconfig.

(** ** The metrics aggregator (package main) *)

Module MetricsAggregator.

(** [Config]. *)
Record Config := mkConfig {
  StartPort : Z;
  EndPort : Z;
  ListenPort : string;
  Timeout : Duration
}.

Definition newline : string := String (ascii_of_nat 10) EmptyString.

(** The fields of [http.Response] that [fetchMetrics] reads; the body is read
    later, through the response. *)
Record Response (Body : Type) := mkResponse {
  StatusCode : Z;
  Status : string;
  body : Body
}.
Arguments mkResponse {Body} _ _ _.
Arguments StatusCode {Body} _.
Arguments Status {Body} _.
Arguments body {Body} _.

Definition StatusOK : Z := 200.

(** What the handler calls outside the program. [World] is the state it acts
    on: the clock and the servers behind the ports. A call that takes time or
    talks to a server takes the world and gives the world it leaves. *)
Record Net (World Ctx Request Body : Type) := mkNet {
  (** [context.WithTimeout(context.Background(), d)], made in a world. *)
  WithTimeout : World -> Duration -> Ctx;
  (** [http.NewRequestWithContext(ctx, "GET", url, nil)]. *)
  NewRequestWithContext : Ctx -> string -> Result Request;
  (** [http.DefaultClient.Do(req)]. *)
  Do : Request -> World -> Result (Response Body) * World;
  (** [io.ReadAll(resp.Body)] and [resp.Body.Close()]. *)
  ReadAll : Body -> World -> Result string * World;
  Close : Body -> World -> World
}.
Arguments mkNet {World Ctx Request Body} _ _ _ _ _.
Arguments WithTimeout {World Ctx Request Body} _ _ _.
Arguments NewRequestWithContext {World Ctx Request Body} _ _ _.
Arguments Do {World Ctx Request Body} _ _ _.
Arguments ReadAll {World Ctx Request Body} _ _ _.
Arguments Close {World Ctx Request Body} _ _ _.

Section Handler.

Context {World Ctx Request Body : Type} (net : Net World Ctx Request Body).

(** [fetchMetrics(ctx, port)]; the deferred [Close] runs on every return after
    a response was obtained. *)
Definition fetchMetrics (ctx : Ctx) (port : Z) (w : World) : Result string * World :=
  let url := "http://localhost:" +:+ Strconv.Itoa port +:+ "/metrics" in
  match NewRequestWithContext net ctx url with
  | Err err => (Err err, w)
  | Ok req =>
      match Do net req w with
      | (Err err, w) => (Err err, w)
      | (Ok resp, w) =>
          if negb (StatusCode resp =? StatusOK) then
            (Err (Errorf ("bad status: " +:+ Status resp)), Close net (body resp) w)
          else
            match ReadAll net (body resp) w with
            | (Err err, w) => (Err err, Close net (body resp) w)
            | (Ok text, w) => (Ok text, Close net (body resp) w)
            end
      end
  end.

(** One turn of the loop of [aggregatedMetricsHandler]: a failed fetch is
    logged and skipped. *)
Definition appendPort (ctx : Ctx) (acc : string * World) (port : Z) : string * World :=
  let '(allMetrics, w) := acc in
  match fetchMetrics ctx port w with
  | (Ok metrics, w) => (allMetrics +:+ metrics +:+ newline, w)
  | (Err _, w) => (allMetrics, w)
  end.

(** The loop over a list of ports, from what was written so far. *)
Definition scrape (ctx : Ctx) (acc : string * World) (ports : list Z) : string * World :=
  foldl (appendPort ctx) acc ports.

(** [aggregatedMetricsHandler]: the body it writes and the world it leaves,
    from the loop [for port := StartPort; port <= EndPort; port++] under the
    one context made at the start. With [EndPort] at the largest [int] the
    condition never fails and the handler does not return: that is [None]. *)
Definition aggregatedMetricsHandler (config : Config) (w : World)
  : option (string * World) :=
  let ctx := WithTimeout net w (Timeout config) in
  if (StartPort config <=? EndPort config) && (EndPort config =? maxInt64) then None
  else Some (scrape ctx ("", w)
               (seqZ (StartPort config) (EndPort config - StartPort config + 1))).

End Handler.

End MetricsAggregator.

(** ** More sample values *)

Module Fixtures.

(** The SDK check of a projected-cost request asks for a resource. *)
Definition sdkValidateProjected (req : option GetProjectedCostRequest.t) : option error :=
  match req ≫= GetProjectedCostRequest.Resource with
  | Some _ => None
  | None => Some (Errorf "resource is required")
  end.

Definition t3micro (rg : string) : ResourceDescriptor.t :=
  ResourceDescriptor.mk "aws" "ec2" "t3.micro" rg None.

Definition webTags : gmap string string :=
  list_to_map
    [("provider", "aws"); ("resource_type", "ec2"); ("sku", "t3.micro");
     ("region", "us-east-1"); ("app", "web")].

(** An instance ARN of another region than the plugin's. *)
Definition reqInstanceWest : GetActualCostRequest.t :=
  GetActualCostRequest.mk "" (Some Sample.t0) (Some Sample.t0_plus_24h)
    (Some (list_to_map [("sku", "t3.micro")]))
    "arn:aws:ec2:us-west-2:123456789012:instance/i-abc123".

(** A malformed ARN beside tags that describe the resource in full. *)
Definition reqBadArn : GetActualCostRequest.t :=
  GetActualCostRequest.mk "i-abc123" (Some Sample.t0) (Some Sample.t0_plus_24h)
    (Some webTags) "arn:aws:ec2".

(** A window that ends before it starts. *)
Definition reqBackwards : GetActualCostRequest.t :=
  GetActualCostRequest.mk "" (Some Sample.t0_plus_24h) (Some Sample.t0)
    (Some webTags) "".

(** A plain identifier with tags that lack the SKU, over an empty window. *)
Definition reqNoSkuZero : GetActualCostRequest.t :=
  GetActualCostRequest.mk "i-abc123" (Some Sample.t0) (Some Sample.t0)
    (Some (list_to_map [("provider", "aws"); ("resource_type", "ec2");
                        ("region", "us-east-1")]))
    "".

(** A resource type the sample estimator does not price. *)
Definition reqBucketTags : GetActualCostRequest.t :=
  GetActualCostRequest.mk "" (Some Sample.t0) (Some Sample.t0_plus_24h)
    (Some (list_to_map [("provider", "aws"); ("resource_type", "s3");
                        ("sku", "STANDARD"); ("region", "us-east-1")]))
    "".



(** An instance ARN whose tags hold every SKU-bearing key, and more. *)
Definition allKeysTags : gmap string string :=
  list_to_map
    [("sku", "t3.micro"); ("instanceType", "t3.small"); ("instance_class", "db.t3");
     ("type", "x"); ("volumeType", "gp2"); ("volume_type", "gp3");
     ("provider", "aws"); ("resource_type", "ec2"); ("region", "us-east-1");
     ("app", "web")].

Definition reqInstanceAllKeys : GetActualCostRequest.t :=
  GetActualCostRequest.mk "" (Some Sample.t0) (Some Sample.t0_plus_24h)
    (Some allKeysTags) "arn:aws:ec2:us-east-1:123456789012:instance/i-abc123".

(** The same tags without an ARN. *)
Definition reqAllKeysTags : GetActualCostRequest.t :=
  GetActualCostRequest.mk "" (Some Sample.t0) (Some Sample.t0_plus_24h)
    (Some allKeysTags) "".

Definition regions : list Regionsconfig.RegionConfig :=
  [Regionsconfig.mkRegion "us-east-1" "US_East_N_Virginia" "region_us-east-1";
   Regionsconfig.mkRegion "eu-west-1" "EU_West_Ireland" "region_eu-west-1"].

(** Quoting for the fixtures: the text between double quotes. *)
Definition quote (s : string) : string :=
  String (ascii_of_nat 34) (s +:+ String (ascii_of_nat 34) EmptyString).

(** Trimming for the fixtures: leading and trailing spaces. *)
Fixpoint trimLeft (s : string) : string :=
  match s with
  | String " " rest => trimLeft rest
  | _ => s
  end.

Definition TrimSpace (s : string) : string :=
  String.rev (trimLeft (String.rev (trimLeft s))).

(** Parsing for the fixtures: the decimal numbers of the sample rows. *)
Definition ParseFloat (s : string) : option float :=
  if bool_decide (s = "0.5") then Some 0.5%float
  else if bool_decide (s = "1.2") then Some 1.2%float
  else if bool_decide (s = "3.4") then Some 3.4%float
  else None.

(** A row of 18 columns with the four columns that are read. *)
Definition row (instanceType vcpus minWatts maxWatts : string) : Carbon.ReadResult :=
  Carbon.ReadRecord
    ([instanceType; ""; vcpus] ++ replicate 11 "" ++ [minWatts; ""; ""; maxWatts])%list.

(** A small network for the aggregator. The world is the clock, in
    nanoseconds; a context is its deadline; a request is the deadline and the
    URL. A request made at or after the deadline fails, one made before it
    takes 10 ns. Ports
    8001 and 8003 answer with their metrics, 8002 answers 503, any other port
    refuses the connection. Reading a body takes no time. *)
Definition metricsOf (url : string) : Result (MetricsAggregator.Response string) :=
  if bool_decide (url = "http://localhost:8001/metrics") then
    Ok (MetricsAggregator.mkResponse 200 "200 OK" "up 1")
  else if bool_decide (url = "http://localhost:8002/metrics") then
    Ok (MetricsAggregator.mkResponse 503 "503 Service Unavailable" "")
  else if bool_decide (url = "http://localhost:8003/metrics") then
    Ok (MetricsAggregator.mkResponse 200 "200 OK" "up 3")
  else Err (Errorf "connection refused").

Definition net : MetricsAggregator.Net Z Z (Z * string)%type string :=
  MetricsAggregator.mkNet
    (fun now timeout => now + timeout)
    (fun deadline url => Ok (deadline, url))
    (fun req now =>
       if req.1 <=? now then (Err (Errorf "context deadline exceeded"), now)
       else (metricsOf req.2, now + 10))
    (fun text now => (Ok text, now))
    (fun _ now => now).

End Fixtures.

(** ** Predicates used in the statements *)

(** [Fpos lo x]: the binary64 value [x] is positive, either infinite or
    finite of magnitude [2 ^ (lo - 1)] at least. *)
Definition Fpos (lo : Z) (x : spec_float) : Prop :=
  x = S754_infinity false
  \/ exists m e, x = S754_finite false m e /\ lo <= Zdigits2 (Zpos m) + e.

(** The recommended rate of a candidate is acceptable against the current
    rate: it is not greater, which between two numbers means less or equal. *)
Definition notDearer (recommended current : float) : Prop :=
  fgt recommended current = false
  /\ (isNaN recommended = false -> isNaN current = false ->
      PrimFloat.leb recommended current = true).

(** The instant of a timestamp, in nanoseconds since the Unix epoch. *)
Definition unixNanos (ts : Timestamp) : Z :=
  Seconds ts * nanosPerSecond + Nanos ts.

(** The timestamps that [AsTime] converts without wrap-around: [Nanos] is an
    [int32], and [Seconds] leaves room in [int64] for the carry of the
    nanoseconds and for [unixToInternal]. Every timestamp of the years 1 to
    9999, the range a valid [Timestamp] has, is among them. *)
Definition inTimeRange (ts : Timestamp) : Prop :=
  minInt64 + 3 <= Seconds ts <= maxInt64 - unixToInternal - 3
  /\ - 2 ^ 31 <= Nanos ts < 2 ^ 31.

(** The timestamps a request carries are in that range. *)
Definition windowInRange (req : GetActualCostRequest.t) : Prop :=
  forall ts,
    GetActualCostRequest.Start req = Some ts \/ GetActualCostRequest.End req = Some ts ->
    inTimeRange ts.

(** A region entry that [Validate] accepts on its own: safe ID and name, and
    the tag that belongs to the ID. *)
Definition validRegion (r : Regionsconfig.RegionConfig) : Prop :=
  Regionsconfig.safePatternMatch (Regionsconfig.ID r) = true
  /\ Regionsconfig.safePatternMatch (Regionsconfig.Name r) = true
  /\ Regionsconfig.Tag r = "region_" +:+ Regionsconfig.ID r.

(** What [parseRow] stores for an instance type: the type as its own key,
    one vCPU at least, and watts that passed both comparisons. *)
Definition storedSpec (k : string) (spec : Carbon.InstanceSpec) : Prop :=
  Carbon.InstanceType spec = k
  /\ k <> ""
  /\ 1 <= Carbon.VCPUCount spec <= maxInt64
  /\ PrimFloat.ltb (Carbon.MinWatts spec) 0 = false
  /\ PrimFloat.ltb (Carbon.MaxWatts spec) (Carbon.MinWatts spec) = false.

(** * Properties *)

(** ** Comparisons of binary64 values *)

Lemma SFcompare_antisym (x y : spec_float) :
  SFcompare y x = option_map CompOpp (SFcompare x y).
Proof.
  destruct x as [sx|sx| |sx mx ex], y as [sy|sy| |sy my ey]; simpl;
    try reflexivity;
    try (destruct sx; reflexivity); try (destruct sy; reflexivity);
    try (destruct sx, sy; reflexivity).
  destruct sx, sy; simpl; try reflexivity;
    rewrite (Z.compare_antisym ex ey); destruct (ex ?= ey); simpl; try reflexivity;
    change (Pos.compare_cont Eq) with Pos.compare;
    rewrite (Pos.compare_antisym mx my); destruct (mx ?= my)%positive; reflexivity.
Qed.

Lemma SFcompare_None (x y : spec_float) :
  SFcompare x y = None -> SFeqb x x = false \/ SFeqb y y = false.
Proof.
  destruct x as [sx|sx| |sx mx ex], y as [sy|sy| |sy my ey]; simpl;
    try discriminate; auto;
    try (destruct sx; discriminate); try (destruct sy; discriminate).
Qed.

(** Between two numbers, "not greater" is "less or equal". *)
Lemma fgt_false_leb (x y : float) :
  isNaN x = false -> isNaN y = false ->
  fgt x y = false -> PrimFloat.leb x y = true.
Proof.
  unfold isNaN, fgt. rewrite !negb_false_iff.
  rewrite !FloatAxioms.eqb_spec, FloatAxioms.ltb_spec, FloatAxioms.leb_spec.
  unfold SFltb, SFleb.
  intros Hx Hy. rewrite (SFcompare_antisym (Prim2SF x) (Prim2SF y)).
  destruct (SFcompare (Prim2SF x) (Prim2SF y)) as [[]|] eqn:E; simpl; try congruence.
  apply SFcompare_None in E. destruct E; congruence.
Qed.

(** A value above zero is not zero, and a zero is not above zero. *)
Lemma fgt_zero_neq (c : float) :
  fgt c 0 = true -> PrimFloat.eqb c 0 = false.
Proof.
  unfold fgt. rewrite FloatAxioms.ltb_spec, FloatAxioms.eqb_spec. unfold SFltb, SFeqb.
  rewrite (SFcompare_antisym (Prim2SF 0) (Prim2SF c)).
  destruct (SFcompare (Prim2SF 0) (Prim2SF c)) as [[]|]; simpl; congruence.
Qed.

Lemma eqb_zero_not_fgt (c : float) :
  PrimFloat.eqb c 0 = true -> fgt c 0 = false.
Proof.
  intros H. destruct (fgt c 0) eqn:E; [|reflexivity].
  apply fgt_zero_neq in E. congruence.
Qed.

(** ** Rounding to binary64

    What is needed of the specification of binary64 arithmetic to know that
    a sum or a quotient of positive values away from the subnormal range is
    not zero. *)

(** The number of binary digits of a positive integer is its [log2] plus
    one. *)
Lemma digits2_pos_size (p : positive) : digits2_pos p = Pos.size p.
Proof. induction p; simpl; congruence. Qed.

Lemma Zdigits2_log2 (m : Z) : 0 < m -> Zdigits2 m = Z.log2 m + 1.
Proof.
  destruct m as [|p|p]; try lia. intros _. simpl. rewrite digits2_pos_size.
  destruct p; simpl; lia.
Qed.

(** Shifting a mantissa right by [p] bits divides it by [2 ^ p]. *)
Lemma shr_1_m (mrs : shr_record) :
  0 <= shr_m mrs -> shr_m (shr_1 mrs) = Z.div2 (shr_m mrs).
Proof.
  destruct mrs as [[|[p|p|]|p] r s]; simpl; intros H; try reflexivity; lia.
Qed.

Lemma iter_pos_shr_1 (p : positive) (mrs : shr_record) :
  0 <= shr_m mrs -> shr_m (SpecFloat.iter_pos shr_1 p mrs) = shr_m mrs / 2 ^ Zpos p.
Proof.
  revert mrs.
  assert (Hdiv2 : forall mrs, 0 <= shr_m mrs -> 0 <= shr_m (shr_1 mrs)).
  { intros mrs H. rewrite shr_1_m by exact H. rewrite Z.div2_div.
    apply Z.div_pos; lia. }
  induction p as [p IH|p IH|]; intros mrs Hm; simpl SpecFloat.iter_pos.
  - rewrite IH, IH, shr_1_m by
      (try rewrite IH by auto; try apply Z.div_pos; auto; lia).
    rewrite Z.div2_div, !Z.div_div by lia.
    f_equal. rewrite <- Z.pow_add_r by lia.
    change 2 with (2 ^ 1) at 1. rewrite <- Z.pow_add_r by lia. f_equal. lia.
  - rewrite IH, IH by (try rewrite IH by auto; try apply Z.div_pos; auto; lia).
    rewrite !Z.div_div by lia.
    f_equal. rewrite <- Z.pow_add_r by lia. f_equal. lia.
  - rewrite shr_1_m by exact Hm. rewrite Z.div2_div. reflexivity.
Qed.

Lemma shr_m_of_loc (m : Z) (l : location) : shr_m (shr_record_of_loc m l) = m.
Proof. destruct l as [|[]]; reflexivity. Qed.

(** Away from the subnormal range, bringing a mantissa to the exponent of
    the format keeps it positive, keeps the magnitude, and leaves at most
    [prec] digits. *)
Lemma shr_fexp_normal (m e : Z) (l : location) :
  0 < m -> emin + prec <= Zdigits2 m + e ->
  exists mrs e',
    shr_fexp prec emax m e l = (mrs, e')
    /\ 0 < shr_m mrs
    /\ Zdigits2 (shr_m mrs) + e' = Zdigits2 m + e
    /\ Zdigits2 (shr_m mrs) <= prec
    /\ (Zdigits2 m <= prec -> shr_m mrs = m /\ e' = e).
Proof.
  intros Hm Hmag. unfold shr_fexp, shr, fexp.
  rewrite (Zdigits2_log2 m Hm) in *.
  assert (Hl : 0 <= Z.log2 m) by apply Z.log2_nonneg.
  unfold SpecFloat.emin, prec, emax in *.
  destruct (Z.max (Z.log2 m + 1 + e - 53) (3 - 1024 - 53) - e) as [|p|p] eqn:En.
  - exists (shr_record_of_loc m l), e. rewrite shr_m_of_loc, (Zdigits2_log2 m Hm).
    repeat split; auto; lia.
  - eexists _, _. split; [reflexivity|].
    rewrite iter_pos_shr_1 by (rewrite shr_m_of_loc; lia).
    rewrite shr_m_of_loc.
    assert (Hp : Zpos p = Z.log2 m + 1 - 53) by lia.
    assert (Hpow : 2 ^ Zpos p <= m).
    { transitivity (2 ^ Z.log2 m).
      - apply Z.pow_le_mono_r; lia.
      - apply Z.log2_spec. exact Hm. }
    assert (Hq : 0 < m / 2 ^ Zpos p).
    { apply Z.div_str_pos. split; [apply Z.pow_pos_nonneg; lia | exact Hpow]. }
    split; [exact Hq|].
    rewrite (Zdigits2_log2 _ Hq).
    rewrite <- Z.shiftr_div_pow2 by lia.
    rewrite Z.log2_shiftr by exact Hm.
    repeat split; lia.
  - exists (shr_record_of_loc m l), e. rewrite shr_m_of_loc, (Zdigits2_log2 m Hm).
    repeat split; auto; lia.
Qed.

Lemma round_nearest_even_cases (m : Z) (l : location) :
  round_nearest_even m l = m \/ round_nearest_even m l = m + 1.
Proof.
  destruct l as [|[]]; simpl; auto. destruct (Z.even m); auto.
Qed.

(** Rounding a positive value away from the subnormal range gives a
    positive value that is not smaller in magnitude. *)
Lemma binary_round_aux_pos (m e : Z) (l : location) :
  0 < m -> emin + prec <= Zdigits2 m + e ->
  Fpos (Zdigits2 m + e) (binary_round_aux prec emax false m e l).
Proof.
  intros Hm Hmag. unfold binary_round_aux.
  destruct (shr_fexp_normal m e l Hm Hmag) as (mrs1 & e1 & -> & Hm1 & Hmag1 & Hd1 & _).
  set (m1 := round_nearest_even (shr_m mrs1) (loc_of_shr_record mrs1)).
  assert (Hm1' : shr_m mrs1 <= m1 <= shr_m mrs1 + 1).
  { subst m1. destruct (round_nearest_even_cases (shr_m mrs1) (loc_of_shr_record mrs1))
      as [-> | ->]; lia. }
  assert (Hpos1 : 0 < m1) by lia.
  assert (Hdig : Zdigits2 (shr_m mrs1) <= Zdigits2 m1).
  { rewrite !Zdigits2_log2 by lia. apply Z.add_le_mono_r, Z.log2_le_mono. lia. }
  destruct (shr_fexp_normal m1 e1 loc_Exact Hpos1 ltac:(lia))
    as (mrs2 & e2 & -> & Hm2 & Hmag2 & Hd2 & _).
  destruct (shr_m mrs2) as [|p2|p2] eqn:E2; try lia.
  destruct (e2 <=? emax - prec); [right | left; reflexivity].
  exists p2, e2. split; [reflexivity|]. lia.
Qed.

Lemma Fpos_weaken (lo lo' : Z) (x : spec_float) : lo' <= lo -> Fpos lo x -> Fpos lo' x.
Proof.
  intros Hle [-> | (m & e & -> & H)]; [left; reflexivity | right].
  exists m, e. split; [reflexivity | lia].
Qed.

Lemma Fpos_nonzero (lo : Z) (x : spec_float) :
  Fpos lo x -> SFeqb x (S754_zero false) = false.
Proof. intros [-> | (m & e & -> & _)]; reflexivity. Qed.

Lemma digits2_pos_iter_xO (m d : positive) :
  Zpos (digits2_pos (Pos.iter xO m d)) = Zpos (digits2_pos m) + Zpos d.
Proof.
  induction d as [|d IH] using Pos.peano_ind.
  - simpl. lia.
  - rewrite Pos.iter_succ. simpl digits2_pos. rewrite Pos2Z.inj_succ, IH. lia.
Qed.

Lemma shl_align_mag (mx : positive) (ex ex' : Z) :
  Zdigits2 (Zpos (fst (shl_align mx ex ex'))) + snd (shl_align mx ex ex')
  = Zdigits2 (Zpos mx) + ex.
Proof.
  unfold shl_align. destruct (ex' - ex) as [|d|d] eqn:E; cbn [fst snd Zdigits2];
    try reflexivity.
  rewrite <- Pos2Z.opp_pos in E. rewrite digits2_pos_iter_xO. lia.
Qed.

Lemma shl_align_snd_le (mx : positive) (ex ex' : Z) :
  ex' <= ex -> snd (shl_align mx ex ex') = ex'.
Proof.
  intros H. unfold shl_align. destruct (ex' - ex) as [|d|d] eqn:E; cbn [snd]; lia.
Qed.

Lemma binary_round_pos (m : positive) (e : Z) :
  emin + prec <= Zdigits2 (Zpos m) + e ->
  Fpos (Zdigits2 (Zpos m) + e) (binary_round prec emax false m e).
Proof.
  intros Hmag. unfold binary_round.
  pose proof (shl_align_mag m e (fexp prec emax (Zpos (digits2_pos m) + e))) as Hal.
  destruct (shl_align m e (fexp prec emax (Zpos (digits2_pos m) + e))) as [mz ez].
  cbn [fst snd] in Hal. rewrite <- Hal.
  apply binary_round_aux_pos; [reflexivity|]. rewrite Hal. exact Hmag.
Qed.

(** The sum of two positive values is positive, and as large in magnitude
    as the first. *)
Lemma SFadd_pos (a b : Z) (x y : spec_float) :
  emin + prec <= a ->
  Fpos a x -> Fpos b y -> Fpos a (SFadd prec emax x y).
Proof.
  intros Ha [-> | (mx & ex & -> & Hx)] [-> | (my & ey & -> & Hy)];
    try (left; reflexivity).
  unfold SFadd, cond_Zopp, binary_normalize.
  pose proof (shl_align_mag mx ex (Z.min ex ey)) as Hal.
  rewrite (shl_align_snd_le mx ex (Z.min ex ey)) in Hal by lia.
  set (mx' := fst (shl_align mx ex (Z.min ex ey))) in *.
  set (my' := fst (shl_align my ey (Z.min ex ey))) in *.
  change (Zpos mx' + Zpos my') with (Zpos (mx' + my')).
  assert (Hdig : Zdigits2 (Zpos mx') <= Zdigits2 (Zpos (mx' + my'))).
  { rewrite !Zdigits2_log2 by lia. apply Z.add_le_mono_r, Z.log2_le_mono. lia. }
  eapply Fpos_weaken; [|apply binary_round_pos]; lia.
Qed.

(** The quotient of two positive finite values is positive when the
    difference of their magnitudes stays away from the subnormal range. *)
Lemma SFdiv_pos (a b : Z) (x : spec_float) (my : positive) (ey : Z) :
  emin + prec <= a - b ->
  Fpos a x -> Zdigits2 (Zpos my) + ey <= b ->
  Fpos (a - b) (SFdiv prec emax x (S754_finite false my ey)).
Proof.
  intros Hab [-> | (mx & ex & -> & Hx)] Hy; [left; reflexivity|].
  unfold SFdiv, SFdiv_core_binary.
  set (d1 := Zdigits2 (Zpos mx)) in *. set (d2 := Zdigits2 (Zpos my)) in *.
  set (e' := Z.min (fexp prec emax (d1 + ex - (d2 + ey))) (ex - ey)).
  set (s := ex - ey - e').
  assert (Hd1 : d1 = Z.log2 (Zpos mx) + 1) by (apply Zdigits2_log2; lia).
  assert (Hd2 : d2 = Z.log2 (Zpos my) + 1) by (apply Zdigits2_log2; lia).
  assert (Hl1 : 0 <= Z.log2 (Zpos mx)) by apply Z.log2_nonneg.
  assert (Hl2 : 0 <= Z.log2 (Zpos my)) by apply Z.log2_nonneg.
  assert (Hs : 0 <= s /\ prec + d2 - d1 <= s).
  { subst s e'. unfold fexp, SpecFloat.emin, prec, emax in *. lia. }
  set (m' := match s with Z.pos _ => Z.shiftl (Z.pos mx) s | 0 => Z.pos mx | Z.neg _ => 0 end).
  assert (Hm' : m' = Zpos mx * 2 ^ s).
  { subst m'. destruct s as [|p|p] eqn:Es; try lia.
    rewrite Z.shiftl_mul_pow2 by lia. reflexivity. }
  set (k := d1 - 1 + s - d2).
  assert (Hk : 0 <= k) by (subst k; unfold prec in *; lia).
  assert (Hlow : 2 ^ k * Zpos my <= m').
  { rewrite Hm'.
    assert (H1 : 2 ^ Z.log2 (Zpos mx) <= Zpos mx) by (apply Z.log2_spec; lia).
    assert (H2 : Zpos my < 2 ^ d2).
    { rewrite Hd2. apply Z.log2_spec. lia. }
    assert (H3 : 2 ^ k * 2 ^ d2 = 2 ^ Z.log2 (Zpos mx) * 2 ^ s).
    { rewrite <- !Z.pow_add_r by lia. f_equal. subst k. lia. }
    assert (0 < 2 ^ k) by (apply Z.pow_pos_nonneg; lia).
    assert (0 < 2 ^ s) by (apply Z.pow_pos_nonneg; lia).
    nia. }
  destruct (Z.div_eucl m' (Zpos my)) as [q r] eqn:Ediv.
  assert (Hq : q = m' / Zpos my) by (unfold Z.div; rewrite Ediv; reflexivity).
  assert (Hqk : 2 ^ k <= q).
  { rewrite Hq. apply Z.div_le_lower_bound; lia. }
  assert (Hqpos : 0 < q).
  { assert (0 < 2 ^ k) by (apply Z.pow_pos_nonneg; lia). lia. }
  assert (Hlq : k <= Z.log2 q).
  { apply Z.log2_le_pow2; lia. }
  simpl xorb.
  eapply Fpos_weaken; [|apply binary_round_aux_pos; [exact Hqpos|]];
    rewrite (Zdigits2_log2 q Hqpos); subst k s; lia.
Qed.

(** The conversion of an [int] and the hours of a duration. *)

Lemma Prim2SF_float64_of_int (n : Z) :
  0 <= n < 2 ^ 63 ->
  Prim2SF (float64_of_int n) = binary_normalize prec emax n 0 false.
Proof.
  intros Hn. unfold float64_of_int.
  destruct (n =? minInt64) eqn:E1; [apply Z.eqb_eq in E1; unfold minInt64 in E1; lia|].
  destruct (n <? 0) eqn:E2; [apply Z.ltb_lt in E2; lia|].
  rewrite of_uint63_spec, Uint63.of_Z_spec.
  rewrite Z.mod_small; [reflexivity|]. exact Hn.
Qed.

Lemma Prim2SF_float64_of_int_0 : Prim2SF (float64_of_int 0) = S754_zero false.
Proof. rewrite Prim2SF_float64_of_int by lia. reflexivity. Qed.

Lemma Prim2SF_float64_of_int_pos (n : Z) :
  0 < n < 2 ^ 63 -> Fpos 1 (Prim2SF (float64_of_int n)).
Proof.
  intros Hn. rewrite Prim2SF_float64_of_int by lia.
  destruct n as [|p|p]; try lia. unfold binary_normalize.
  assert (Hd : 1 <= Zdigits2 (Zpos p)).
  { rewrite Zdigits2_log2 by lia. pose proof (Z.log2_nonneg (Zpos p)). lia. }
  eapply Fpos_weaken; [|apply binary_round_pos].
  - lia.
  - unfold SpecFloat.emin, prec, emax. lia.
Qed.

Lemma SFadd_zero_l (a : Z) (s : bool) (y : spec_float) :
  Fpos a y -> SFadd prec emax (S754_zero s) y = y.
Proof. intros [-> | (m & e & -> & _)]; reflexivity. Qed.

Lemma SFadd_zero_r (a : Z) (s : bool) (x : spec_float) :
  Fpos a x -> SFadd prec emax x (S754_zero s) = x.
Proof. intros [-> | (m & e & -> & _)]; reflexivity. Qed.

(** The hour count of a positive duration is not zero: one of the whole
    hours and the fractional rest is positive, and neither the division by
    3.6e12 nor the sum rounds a positive value down to zero. *)
Lemma Hours_nonzero (d : Duration) :
  0 < d <= maxInt64 -> PrimFloat.eqb (Hours d) 0 = false.
Proof.
  intros Hd. unfold Hours.
  rewrite FloatAxioms.eqb_spec, FloatAxioms.add_spec, FloatAxioms.div_spec.
  change (Prim2SF 0) with (S754_zero false).
  change (Prim2SF 3600000000000) with (S754_finite false 7372800000000000 (-11)).
  assert (HH : Hour = 3600000000000) by reflexivity.
  assert (Hq : Z.quot d Hour = d / Hour) by (apply Z.quot_div_nonneg; lia).
  assert (Hr : Z.rem d Hour = d mod Hour) by (apply Z.rem_mod_nonneg; lia).
  rewrite Hq, Hr.
  pose proof (Z.div_mod d Hour ltac:(lia)) as Hdm.
  pose proof (Z.mod_pos_bound d Hour ltac:(lia)) as Hmb.
  assert (Hqb : 0 <= d / Hour < 2 ^ 63).
  { split; [apply Z.div_pos; lia|].
    apply Z.div_lt_upper_bound; unfold maxInt64 in *; lia. }
  assert (Hrb : 0 <= d mod Hour < 2 ^ 63) by lia.
  assert (Hdiv : forall x, Fpos 1 x ->
            Fpos (1 - 42)
              (SF64div x (S754_finite false 7372800000000000 (-11)))).
  { intros x Hx. apply SFdiv_pos; [|exact Hx|].
    - unfold SpecFloat.emin, prec, emax. lia.
    - vm_compute. discriminate. }
  destruct (Z.eq_dec (d / Hour) 0) as [Hq0 | Hq0];
    destruct (Z.eq_dec (d mod Hour) 0) as [Hr0 | Hr0].
  - lia.
  - rewrite Hq0, Prim2SF_float64_of_int_0.
    pose proof (Hdiv _ (Prim2SF_float64_of_int_pos (d mod Hour) ltac:(lia))) as HQ.
    unfold SF64add. rewrite (SFadd_zero_l _ _ _ HQ).
    apply (Fpos_nonzero _ _ HQ).
  - rewrite Hr0, Prim2SF_float64_of_int_0.
    pose proof (Prim2SF_float64_of_int_pos (d / Hour) ltac:(lia)) as HA.
    change (SF64div (S754_zero false) (S754_finite false 7372800000000000 (-11)))
      with (S754_zero false).
    unfold SF64add. rewrite (SFadd_zero_r _ _ _ HA).
    apply (Fpos_nonzero _ _ HA).
  - pose proof (Prim2SF_float64_of_int_pos (d / Hour) ltac:(lia)) as HA.
    pose proof (Hdiv _ (Prim2SF_float64_of_int_pos (d mod Hour) ltac:(lia))) as HQ.
    eapply Fpos_nonzero. unfold SF64add. eapply SFadd_pos; [|exact HA|exact HQ].
    unfold SpecFloat.emin, prec, emax. lia.
Qed.

(** ** Instants and durations *)

Lemma Before_irrefl (t : Time) : Before t t = false.
Proof.
  unfold Before. rewrite !Z.ltb_irrefl, andb_false_r. reflexivity.
Qed.

Lemma After_irrefl (t : Time) : After t t = false.
Proof.
  unfold After. rewrite !Z.ltb_irrefl, andb_false_r. reflexivity.
Qed.

Lemma After_not_Before (t u : Time) : After t u = true -> Before t u = false.
Proof.
  unfold After, Before. intros H.
  apply orb_false_iff. rewrite andb_false_iff, !Z.ltb_ge.
  apply orb_true_iff in H. rewrite andb_true_iff, !Z.ltb_lt, Z.eqb_eq in H.
  rewrite Z.eqb_neq. lia.
Qed.

Lemma After_Before (t u : Time) : After t u = Before u t.
Proof.
  unfold After, Before. f_equal. f_equal. apply Z.eqb_sym.
Qed.

Lemma Sub_diag (t : Time) : Sub t t = 0.
Proof. unfold Sub. rewrite !Z.sub_diag. reflexivity. Qed.

Lemma Hours_0 : Hours 0 = 0%float.
Proof. reflexivity. Qed.

(** An [int64] result that is in range is kept; any result is brought into
    range. *)
Lemma wrapInt64_id (z : Z) : minInt64 <= z <= maxInt64 -> wrapInt64 z = z.
Proof.
  unfold wrapInt64, minInt64, maxInt64. intros H.
  rewrite Z.mod_small by lia. lia.
Qed.

Lemma wrapInt64_range (z : Z) : minInt64 <= wrapInt64 z <= maxInt64.
Proof.
  unfold wrapInt64, minInt64, maxInt64.
  pose proof (Z.mod_pos_bound (z + 2 ^ 63) (2 ^ 64) ltac:(lia)). lia.
Qed.

(** [time.Unix] always leaves the nanoseconds within the second. *)
Lemma Unix_nsec_range (s n : Z) : 0 <= nsec (Unix s n) < nanosPerSecond.
Proof.
  unfold Unix.
  destruct ((n <? 0) || (nanosPerSecond <=? n)) eqn:E.
  - assert (Hrem : n - Z.quot n nanosPerSecond * nanosPerSecond = Z.rem n nanosPerSecond).
    { rewrite Z.rem_eq by discriminate. lia. }
    rewrite Hrem.
    pose proof (Z.rem_bound_abs n nanosPerSecond ltac:(discriminate)).
    destruct (Z.rem n nanosPerSecond <? 0) eqn:E2; simpl.
    + apply Z.ltb_lt in E2. unfold nanosPerSecond in *. lia.
    + apply Z.ltb_ge in E2. unfold nanosPerSecond in *. lia.
  - simpl. apply orb_false_iff in E as [E1%Z.ltb_ge E2%Z.leb_gt]. lia.
Qed.

(** Between the instants of two timestamps, a later end gives a positive
    duration. *)
Lemma Sub_After_pos (a b : Timestamp) :
  After (AsTime a) (AsTime b) = true ->
  0 < Sub (AsTime a) (AsTime b) <= maxInt64.
Proof.
  intros Hafter. pose proof (After_not_Before _ _ Hafter) as Hnb.
  unfold Sub. rewrite Hnb.
  destruct (inInt64 _) eqn:Hin; [|unfold maxInt64; lia].
  unfold inInt64 in Hin. apply andb_true_iff in Hin as [_ Hmax%Z.leb_le].
  split; [|exact Hmax].
  pose proof (Unix_nsec_range (Seconds a) (Nanos a)) as Ha.
  pose proof (Unix_nsec_range (Seconds b) (Nanos b)) as Hb.
  change (Unix (Seconds a) (Nanos a)) with (AsTime a) in Ha.
  change (Unix (Seconds b) (Nanos b)) with (AsTime b) in Hb.
  unfold After in Hafter. apply orb_true_iff in Hafter.
  rewrite andb_true_iff, !Z.ltb_lt, Z.eqb_eq in Hafter.
  unfold nanosPerSecond in *. lia.
Qed.

Lemma Hours_After_nonzero (a b : Timestamp) :
  After (AsTime a) (AsTime b) = true ->
  PrimFloat.eqb (Hours (Sub (AsTime a) (AsTime b))) 0 = false.
Proof. intros H. apply Hours_nonzero, Sub_After_pos, H. Qed.

(** Within the range, [AsTime] stores the instant of the timestamp, counted
    from year 1, whatever the split into seconds and nanos. *)
Lemma AsTime_inTimeRange (ts : Timestamp) :
  inTimeRange ts ->
  sec (AsTime ts) * nanosPerSecond + nsec (AsTime ts)
  = unixNanos ts + unixToInternal * nanosPerSecond
  /\ 0 <= nsec (AsTime ts) < nanosPerSecond.
Proof.
  intros [Hs Hn]. split; [|apply Unix_nsec_range].
  unfold AsTime, Unix, unixNanos.
  destruct ts as [s n]; simpl in *.
  pose proof (Z.quot_rem' n nanosPerSecond) as Hqr.
  assert (Hrem : n - Z.quot n nanosPerSecond * nanosPerSecond = Z.rem n nanosPerSecond)
    by lia.
  assert (Hq : -2 <= Z.quot n nanosPerSecond <= 2).
  { destruct (Z_lt_le_dec n 0).
    - pose proof (Z.rem_bound_pos_neg n nanosPerSecond ltac:(reflexivity) ltac:(lia)).
      unfold nanosPerSecond in *. lia.
    - pose proof (Z.rem_bound_pos_pos n nanosPerSecond ltac:(reflexivity) ltac:(lia)).
      unfold nanosPerSecond in *. lia. }
  unfold minInt64, maxInt64, unixToInternal in Hs.
  destruct ((n <? 0) || (nanosPerSecond <=? n)) eqn:E.
  - rewrite Hrem.
    rewrite (wrapInt64_id (s + Z.quot n nanosPerSecond))
      by (unfold minInt64, maxInt64; lia).
    destruct (Z.rem n nanosPerSecond <? 0) eqn:E2; simpl.
    + rewrite (wrapInt64_id (s + Z.quot n nanosPerSecond - 1))
        by (unfold minInt64, maxInt64; lia).
      rewrite wrapInt64_id by (unfold minInt64, maxInt64, unixToInternal; lia).
      unfold nanosPerSecond, unixToInternal in *. lia.
    + rewrite wrapInt64_id by (unfold minInt64, maxInt64, unixToInternal; lia).
      unfold nanosPerSecond, unixToInternal in *. lia.
  - simpl. rewrite wrapInt64_id by (unfold minInt64, maxInt64, unixToInternal; lia).
    unfold nanosPerSecond, unixToInternal in *. lia.
Qed.

(** Within the range, [After] and [Before] compare the nanoseconds since the
    epoch. *)
Lemma After_unixNanos (a b : Timestamp) :
  inTimeRange a -> inTimeRange b ->
  (After (AsTime a) (AsTime b) = true <-> unixNanos b < unixNanos a).
Proof.
  intros Ra Rb.
  destruct (AsTime_inTimeRange a Ra) as [Ha Hna], (AsTime_inTimeRange b Rb) as [Hb Hnb].
  unfold After. rewrite orb_true_iff, andb_true_iff, !Z.ltb_lt, Z.eqb_eq.
  unfold nanosPerSecond in *. lia.
Qed.

Lemma Before_unixNanos (a b : Timestamp) :
  inTimeRange a -> inTimeRange b ->
  (Before (AsTime a) (AsTime b) = true <-> unixNanos a < unixNanos b).
Proof. intros Ra Rb. rewrite <- After_Before. apply After_unixNanos; assumption. Qed.

Lemma AsTime_eq_unixNanos (a b : Timestamp) :
  inTimeRange a -> inTimeRange b ->
  (AsTime a = AsTime b <-> unixNanos a = unixNanos b).
Proof.
  intros Ra Rb.
  destruct (AsTime_inTimeRange a Ra) as [Ha Hna], (AsTime_inTimeRange b Rb) as [Hb Hnb].
  split.
  - intros E. rewrite E in Ha. lia.
  - intros E.
    assert (sec (AsTime a) = sec (AsTime b) /\ nsec (AsTime a) = nsec (AsTime b))
      as [Hs Hn] by (unfold nanosPerSecond in *; lia).
    destruct (AsTime a), (AsTime b). simpl in *. congruence.
Qed.

(** [calculateRuntimeHours] on one instant is zero hours, and on an end after
    the start it is the hours of the difference. *)
Lemma calculateRuntimeHours_diag (ext : Externals) (t : Time) :
  calculateRuntimeHours ext t t = Ok 0%float.
Proof.
  unfold calculateRuntimeHours. rewrite Before_irrefl, Sub_diag, Hours_0. reflexivity.
Qed.

Lemma calculateRuntimeHours_After (ext : Externals) (from to : Time) :
  After to from = true ->
  calculateRuntimeHours ext from to = Ok (Hours (Sub to from)).
Proof.
  intros H. unfold calculateRuntimeHours. rewrite (After_not_Before _ _ H). reflexivity.
Qed.

Lemma calculateRuntimeHours_Before (ext : Externals) (from to : Time) :
  Before to from = true ->
  calculateRuntimeHours ext from to = Err (Errorf (runtimeHoursErrorText ext)).
Proof. intros H. unfold calculateRuntimeHours. rewrite H. reflexivity. Qed.

(** ** The actual-cost fallback *)


(** Goals of the samples: a timestamp in the range of [AsTime]. *)
Ltac in_time_range :=
  unfold inTimeRange, minInt64, maxInt64, unixToInternal; simpl; lia.




(** C2. A request whose end is the same instant as its start, and whose
    resource resolves, succeeds with one result of cost 0. *)
Theorem GetActualCost_zero_duration
    (ext : Externals) (req : GetActualCostRequest.t) (start end_ : Timestamp)
    (resource : ResourceDescriptor.t) :
  GetActualCostRequest.Start req = Some start ->
  GetActualCostRequest.End req = Some end_ ->
  AsTime end_ = AsTime start ->
  parseResourceFromRequest ext req = Ok resource ->
  GetActualCost ext (Some req)
  = Ok (GetActualCostResponse.mk
          [ActualCostResult.mk (Some start) 0 0 "" "aws-public-fallback"]).
Proof.
  intros Hs He Heq Hres.
  unfold GetActualCost. rewrite Hs, He, Heq, calculateRuntimeHours_diag.
  rewrite Hres. reflexivity.
Qed.

Lemma GetActualCost_zero_duration_witness :
  GetActualCost Sample.ext (Some Sample.reqTagsZero)
  = Ok (GetActualCostResponse.mk
          [ActualCostResult.mk (Some Sample.t0) 0 0 "" "aws-public-fallback"]).
Proof.
  apply (GetActualCost_zero_duration Sample.ext Sample.reqTagsZero Sample.t0 Sample.t0
           (descriptorFromTags
              (list_to_map
                 [("provider", "aws"); ("resource_type", "ec2"); ("sku", "t3.micro");
                  ("region", "us-east-1"); ("app", "web")])));
    vm_compute; reflexivity.
Defined.

(** ** Resolving the resource of a request *)

(** What [copyTagsExcept] keeps and what it drops. *)
Lemma copyTagsExcept_skipped (skip : list string) (tags : option (gmap string string))
    (k : string) :
  k ∈ skip -> copyTagsExcept skip tags !! k = None.
Proof.
  intros Hk. unfold copyTagsExcept.
  apply map_lookup_filter_None. right. intros v _ Hnot. apply Hnot, Hk.
Qed.

Lemma copyTagsExcept_kept (skip : list string) (tags : option (gmap string string))
    (k : string) :
  k ∉ skip -> copyTagsExcept skip tags !! k = commaOk tags k.
Proof.
  intros Hk. unfold copyTagsExcept, commaOk.
  destruct tags as [m|]; simpl.
  - destruct (m !! k) as [v|] eqn:E.
    + apply map_lookup_filter_Some. split; [exact E | exact Hk].
    + apply map_lookup_filter_None. left. exact E.
  - apply map_lookup_filter_None. left. apply lookup_empty.
Qed.

(** The two outcomes of [parseResourceFromARN] once the ARN has parsed. *)
Lemma parseResourceFromARN_no_sku (ext : Externals) (req : GetActualCostRequest.t)
    (arn : Arn.ARNComponents) :
  ParseARN ext (GetActualCostRequest.Arn req) = Ok arn ->
  skuFromTags ext (GetActualCostRequest.Tags req) = "" ->
  parseResourceFromARN ext req = Err (Errorf missingSkuText).
Proof.
  intros Harn Hsku. unfold parseResourceFromARN. rewrite Harn. simpl.
  rewrite Hsku. reflexivity.
Qed.

Lemma parseResourceFromARN_sku (ext : Externals) (req : GetActualCostRequest.t)
    (arn : Arn.ARNComponents) :
  ParseARN ext (GetActualCostRequest.Arn req) = Ok arn ->
  skuFromTags ext (GetActualCostRequest.Tags req) ≠ "" ->
  parseResourceFromARN ext req
  = Ok (ResourceDescriptor.mk "aws" (ToPulumiResourceType ext arn)
          (skuFromTags ext (GetActualCostRequest.Tags req)) (Arn.Region arn)
          (Some (copyTagsExcept skuTagKeys (GetActualCostRequest.Tags req)))).
Proof.
  intros Harn Hsku. unfold parseResourceFromARN. rewrite Harn. simpl.
  rewrite bool_decide_eq_false_2 by exact Hsku. reflexivity.
Qed.

Lemma parseResourceFromARN_Ok (ext : Externals) (req : GetActualCostRequest.t)
    (d : ResourceDescriptor.t) :
  parseResourceFromARN ext req = Ok d ->
  exists arn,
    ParseARN ext (GetActualCostRequest.Arn req) = Ok arn
    /\ skuFromTags ext (GetActualCostRequest.Tags req) ≠ ""
    /\ d = ResourceDescriptor.mk "aws" (ToPulumiResourceType ext arn)
             (skuFromTags ext (GetActualCostRequest.Tags req)) (Arn.Region arn)
             (Some (copyTagsExcept skuTagKeys (GetActualCostRequest.Tags req))).
Proof.
  unfold parseResourceFromARN.
  destruct (ParseARN ext (GetActualCostRequest.Arn req)) as [arn|e]; simpl;
    [|discriminate].
  case_bool_decide as Hsku; [discriminate|].
  intros [= <-]. exists arn. auto.
Qed.

(** The ARN branch of [ValidateActualCostRequest] returns what
    [parseResourceFromARN] built, with at most the region filled in. *)
Lemma ValidateActualCostRequest_arn_Ok (ext : Externals) (p : AWSPublicPlugin)
    (traceID : string) (req : GetActualCostRequest.t) (d : ResourceDescriptor.t) :
  GetActualCostRequest.Arn req ≠ "" ->
  ValidateActualCostRequest ext p traceID (Some req) = Ok d ->
  exists d0,
    parseResourceFromARN ext req = Ok d0
    /\ d = ResourceDescriptor.withRegion d0 (region p)
    /\ (ResourceDescriptor.Region d0 = "" \/ ResourceDescriptor.Region d0 = region p).
Proof.
  intros Harn. unfold ValidateActualCostRequest.
  destruct (validateTimestamps req); [discriminate|].
  rewrite bool_decide_eq_false_2 by exact Harn. simpl.
  destruct (parseResourceFromARN ext req) as [d0|e]; [|discriminate].
  exists d0. split; [reflexivity|].
  destruct d0 as [pr rt sku rg tags]; simpl in *.
  repeat case_bool_decide; simpl in *; try discriminate;
    match goal with H : Ok _ = Ok _ |- _ => injection H as <- end;
    subst; auto.
Qed.

(** C5. When the ARN of a request parses and its tags yield no SKU,
    [parseResourceFromARN] fails with the error that names the missing
    ['sku'], and so does [ValidateActualCostRequest] on a request with valid
    timestamps, as an invalid-argument error. Whenever a descriptor is built
    from an ARN, its SKU is the one read from the tags. *)
Theorem arn_without_sku_is_rejected
    (ext : Externals) (p : AWSPublicPlugin) (traceID : string)
    (req : GetActualCostRequest.t) (arn : Arn.ARNComponents) :
  GetActualCostRequest.Arn req ≠ "" ->
  ParseARN ext (GetActualCostRequest.Arn req) = Ok arn ->
  skuFromTags ext (GetActualCostRequest.Tags req) = "" ->
  parseResourceFromARN ext req = Err (Errorf missingSkuText)
  /\ (validateTimestamps req = None ->
      ValidateActualCostRequest ext p traceID (Some req)
      = Err (ErrorWithID traceID InvalidArgument missingSkuText
               ERROR_CODE_INVALID_RESOURCE))
  /\ (forall d, ValidateActualCostRequest ext p traceID (Some req) <> Ok d)
  /\ (forall req' d,
        parseResourceFromARN ext req' = Ok d ->
        ResourceDescriptor.Sku d = skuFromTags ext (GetActualCostRequest.Tags req')
        /\ ResourceDescriptor.Sku d ≠ "").
Proof.
  intros Hne Harn Hsku.
  pose proof (parseResourceFromARN_no_sku ext req arn Harn Hsku) as Hparse.
  split; [exact Hparse|]. split; [|split].
  - intros Hts. unfold ValidateActualCostRequest. rewrite Hts.
    rewrite bool_decide_eq_false_2 by exact Hne. simpl. rewrite Hparse. reflexivity.
  - intros d Hd.
    destruct (ValidateActualCostRequest_arn_Ok ext p traceID req d Hne Hd)
      as (d0 & Hd0 & _).
    congruence.
  - intros req' d Hd.
    destruct (parseResourceFromARN_Ok ext req' d Hd) as (arn' & _ & Hs & ->).
    simpl. auto.
Qed.

Lemma arn_without_sku_is_rejected_witness :
  ValidateActualCostRequest Sample.ext Sample.plugin "trace-1"
    (Some Sample.reqInstanceNoSku)
  = Err (ErrorWithID "trace-1" InvalidArgument missingSkuText
           ERROR_CODE_INVALID_RESOURCE).
Proof.
  apply (arn_without_sku_is_rejected Sample.ext Sample.plugin "trace-1"
           Sample.reqInstanceNoSku
           (Arn.mkARN "aws" "ec2" "us-east-1" "123456789012" "instance" "i-abc123"));
    vm_compute; (reflexivity || discriminate).
Defined.

(** C6. When the ARN of a request parses with an empty region segment, the
    empty region never fails the request: with valid timestamps and a SKU in
    the tags the request resolves, every descriptor it resolves to has the
    region of the plugin, and the only errors left are the invalid-argument
    ones of the timestamps and of the SKU, never a region mismatch. *)
Theorem empty_arn_region_defaults_to_plugin_region
    (ext : Externals) (p : AWSPublicPlugin) (traceID : string)
    (req : GetActualCostRequest.t) (arn : Arn.ARNComponents) :
  GetActualCostRequest.Arn req ≠ "" ->
  ParseARN ext (GetActualCostRequest.Arn req) = Ok arn ->
  Arn.Region arn = "" ->
  (validateTimestamps req = None ->
   skuFromTags ext (GetActualCostRequest.Tags req) ≠ "" ->
   ValidateActualCostRequest ext p traceID (Some req)
   = Ok (ResourceDescriptor.mk "aws" (ToPulumiResourceType ext arn)
           (skuFromTags ext (GetActualCostRequest.Tags req)) (region p)
           (Some (copyTagsExcept skuTagKeys (GetActualCostRequest.Tags req)))))
  /\ (forall d,
        ValidateActualCostRequest ext p traceID (Some req) = Ok d ->
        ResourceDescriptor.Region d = region p)
  /\ (forall e,
        ValidateActualCostRequest ext p traceID (Some req) = Err e ->
        exists msg,
          e = ErrorWithID traceID InvalidArgument msg ERROR_CODE_INVALID_RESOURCE).
Proof.
  intros Hne Harn Hrg. split; [|split].
  - intros Hts Hsku.
    unfold ValidateActualCostRequest. rewrite Hts.
    rewrite bool_decide_eq_false_2 by exact Hne. simpl.
    rewrite (parseResourceFromARN_sku ext req arn Harn Hsku). simpl.
    rewrite Hrg. reflexivity.
  - intros d Hd.
    destruct (ValidateActualCostRequest_arn_Ok ext p traceID req d Hne Hd)
      as (d0 & _ & -> & _).
    reflexivity.
  - intros e. unfold ValidateActualCostRequest.
    destruct (validateTimestamps req); [intros [= <-]; eauto|].
    rewrite bool_decide_eq_false_2 by exact Hne. simpl.
    destruct (decide (skuFromTags ext (GetActualCostRequest.Tags req) = ""))
      as [Hsku | Hsku].
    + rewrite (parseResourceFromARN_no_sku ext req arn Harn Hsku).
      intros [= <-]. eauto.
    + rewrite (parseResourceFromARN_sku ext req arn Harn Hsku). simpl.
      rewrite Hrg. discriminate.
Qed.

Lemma empty_arn_region_defaults_to_plugin_region_witness :
  ResourceDescriptor.Region
    <$> (match ValidateActualCostRequest Sample.ext Sample.plugin "trace-1"
                 (Some Sample.reqBucket) with
         | Ok d => Some d
         | Err _ => None
         end)
  = Some "us-east-1".
Proof.
  rewrite (proj1 (empty_arn_region_defaults_to_plugin_region Sample.ext Sample.plugin
                    "trace-1" Sample.reqBucket
                    (Arn.mkARN "aws" "s3" "" "" "my-bucket" "")
                    ltac:(discriminate) eq_refl eq_refl));
    vm_compute; (reflexivity || discriminate).
Defined.

(** ** Recommendations *)

(** C7. A non-nil request whose filter is absent, or present with an empty
    SKU, succeeds with an empty list of recommendations and the summary of the
    empty list. *)
Theorem GetRecommendations_without_sku_is_empty
    (ext : Externals) (p : AWSPublicPlugin) (traceID : string)
    (req : GetRecommendationsRequest.t) :
  (GetRecommendationsRequest.Filter req = None
   \/ exists f, GetRecommendationsRequest.Filter req = Some f
                /\ RecommendationFilter.Sku f = "") ->
  GetRecommendations ext p traceID (Some req)
  = Ok (GetRecommendationsResponse.mk []
          (CalculateRecommendationSummary ext [] "monthly")).
Proof.
  intros H. unfold GetRecommendations, recommendationsFor.
  destruct H as [-> | (f & -> & Hsku)]; [reflexivity|].
  rewrite Hsku. reflexivity.
Qed.

Lemma GetRecommendations_without_sku_is_empty_witness :
  GetRecommendations Sample.ext Sample.plugin "trace-1"
    (Some (Sample.filterOf "ebs" "" None))
  = Ok (GetRecommendationsResponse.mk []
          (RecommendationSummary.mk 0 0%float "USD" "monthly")).
Proof.
  apply (GetRecommendations_without_sku_is_empty Sample.ext Sample.plugin "trace-1"
           (Sample.filterOf "ebs" "" None)).
  right. exists (RecommendationFilter.mk "ebs" "" "" None). split; reflexivity.
Defined.

Lemma notDearer_intro (recommended current : float) :
  fgt recommended current = false -> notDearer recommended current.
Proof.
  intros H. split; [exact H|]. intros Hr Hc. apply fgt_false_leb; assumption.
Qed.

(** What an emitted generation-upgrade recommendation was built from. *)
Lemma getGenerationUpgradeRecommendation_Some
    (ext : Externals) (p : AWSPublicPlugin) (id instanceType region_ : string)
    (rec : Recommendation.t) :
  getGenerationUpgradeRecommendation ext p id instanceType region_ = Some rec ->
  exists newFamily currentPrice newPrice,
    let newType := newFamily +:+ "." +:+ (parseInstanceType ext instanceType).2 in
    generationUpgradeMap !! (parseInstanceType ext instanceType).1 = Some newFamily
    /\ EC2OnDemandPricePerHour (pricing p) instanceType "Linux" "Shared"
       = (currentPrice, true)
    /\ EC2OnDemandPricePerHour (pricing p) newType "Linux" "Shared" = (newPrice, true)
    /\ fgt newPrice currentPrice = false
    /\ ModifyAction.RecommendedConfig (Recommendation.Modify rec)
       = {[ "instance_type" := newType ]}
    /\ Recommendation.Impact rec
       = impactOf (currentPrice * hoursPerMonth)%float (newPrice * hoursPerMonth)%float.
Proof.
  unfold getGenerationUpgradeRecommendation.
  destruct (parseInstanceType ext instanceType) as [family size]; simpl.
  case_bool_decide; [discriminate|].
  destruct (generationUpgradeMap !! family) as [newFamily|]; [|discriminate].
  destruct (EC2OnDemandPricePerHour (pricing p) instanceType "Linux" "Shared")
    as [currentPrice [|]]; simpl; [|discriminate].
  destruct (EC2OnDemandPricePerHour (pricing p) (newFamily +:+ "." +:+ size)
              "Linux" "Shared") as [newPrice [|]] eqn:Enew; simpl; [|discriminate].
  destruct (fgt newPrice currentPrice) eqn:Egt; [discriminate|].
  intros [= <-]. exists newFamily, currentPrice, newPrice. simpl.
  repeat split; auto.
Qed.

(** What an emitted Graviton recommendation was built from. *)
Lemma getGravitonRecommendation_Some
    (ext : Externals) (p : AWSPublicPlugin) (id instanceType region_ : string)
    (rec : Recommendation.t) :
  getGravitonRecommendation ext p id instanceType region_ = Some rec ->
  exists gravitonFamily currentPrice gravitonPrice,
    let gravitonType :=
      gravitonFamily +:+ "." +:+ (parseInstanceType ext instanceType).2 in
    gravitonMap !! (parseInstanceType ext instanceType).1 = Some gravitonFamily
    /\ EC2OnDemandPricePerHour (pricing p) instanceType "Linux" "Shared"
       = (currentPrice, true)
    /\ EC2OnDemandPricePerHour (pricing p) gravitonType "Linux" "Shared"
       = (gravitonPrice, true)
    /\ fgt gravitonPrice currentPrice = false
    /\ ModifyAction.RecommendedConfig (Recommendation.Modify rec) !! "instance_type"
       = Some gravitonType
    /\ Recommendation.Impact rec
       = impactOf (currentPrice * hoursPerMonth)%float
           (gravitonPrice * hoursPerMonth)%float.
Proof.
  unfold getGravitonRecommendation.
  destruct (parseInstanceType ext instanceType) as [family size]; simpl.
  case_bool_decide; [discriminate|].
  destruct (gravitonMap !! family) as [gravitonFamily|]; [|discriminate].
  destruct (EC2OnDemandPricePerHour (pricing p) instanceType "Linux" "Shared")
    as [currentPrice [|]]; simpl; [|discriminate].
  destruct (EC2OnDemandPricePerHour (pricing p) (gravitonFamily +:+ "." +:+ size)
              "Linux" "Shared") as [gravitonPrice [|]] eqn:Enew; simpl; [|discriminate].
  destruct (fgt gravitonPrice currentPrice) eqn:Egt; [discriminate|].
  intros [= <-]. exists gravitonFamily, currentPrice, gravitonPrice. simpl.
  repeat split; auto.
Qed.

(** What an emitted volume recommendation was built from. *)
Lemma getEBSRecommendations_elem
    (ext : Externals) (p : AWSPublicPlugin) (id volumeType region_ : string)
    (tags : option (gmap string string)) (rec : Recommendation.t) :
  rec ∈ getEBSRecommendations ext p id volumeType region_ tags ->
  exists gp2Price gp3Price,
    volumeType = "gp2"
    /\ EBSPricePerGBMonth (pricing p) "gp2" = (gp2Price, true)
    /\ EBSPricePerGBMonth (pricing p) "gp3" = (gp3Price, true)
    /\ fgt gp3Price gp2Price = false
    /\ ModifyAction.RecommendedConfig (Recommendation.Modify rec) !! "volume_type"
       = Some "gp3"
    /\ Recommendation.Impact rec
       = impactOf (gp2Price * float64_of_int (ebsSizeGB tags))%float
           (gp3Price * float64_of_int (ebsSizeGB tags))%float.
Proof.
  unfold getEBSRecommendations.
  case_bool_decide as Hvt; simpl; [|intros H; inversion H].
  destruct (EBSPricePerGBMonth (pricing p) "gp2") as [gp2Price [|]]; simpl;
    [|intros H; inversion H].
  destruct (EBSPricePerGBMonth (pricing p) "gp3") as [gp3Price [|]]; simpl;
    [|intros H; inversion H].
  destruct (fgt gp3Price gp2Price) eqn:Egt; [intros H; inversion H|].
  intros ->%list_elem_of_singleton. exists gp2Price, gp3Price. simpl.
  repeat split; auto.
Qed.

(** C3. Each of the three generators emits a recommendation only when the
    rate of the recommended configuration was found and is not greater than
    the rate of the current one (less or equal, for rates that are numbers). *)
Theorem recommendations_are_never_dearer (ext : Externals) (p : AWSPublicPlugin) :
  (forall id instanceType region_ rec,
      getGenerationUpgradeRecommendation ext p id instanceType region_ = Some rec ->
      exists newType currentPrice newPrice,
        ModifyAction.RecommendedConfig (Recommendation.Modify rec) !! "instance_type"
        = Some newType
        /\ EC2OnDemandPricePerHour (pricing p) instanceType "Linux" "Shared"
           = (currentPrice, true)
        /\ EC2OnDemandPricePerHour (pricing p) newType "Linux" "Shared"
           = (newPrice, true)
        /\ notDearer newPrice currentPrice)
  /\ (forall id instanceType region_ rec,
        getGravitonRecommendation ext p id instanceType region_ = Some rec ->
        exists gravitonType currentPrice gravitonPrice,
          ModifyAction.RecommendedConfig (Recommendation.Modify rec) !! "instance_type"
          = Some gravitonType
          /\ EC2OnDemandPricePerHour (pricing p) instanceType "Linux" "Shared"
             = (currentPrice, true)
          /\ EC2OnDemandPricePerHour (pricing p) gravitonType "Linux" "Shared"
             = (gravitonPrice, true)
          /\ notDearer gravitonPrice currentPrice)
  /\ (forall id volumeType region_ tags rec,
        rec ∈ getEBSRecommendations ext p id volumeType region_ tags ->
        exists gp2Price gp3Price,
          volumeType = "gp2"
          /\ ModifyAction.RecommendedConfig (Recommendation.Modify rec) !! "volume_type"
             = Some "gp3"
          /\ EBSPricePerGBMonth (pricing p) "gp2" = (gp2Price, true)
          /\ EBSPricePerGBMonth (pricing p) "gp3" = (gp3Price, true)
          /\ notDearer gp3Price gp2Price).
Proof.
  split; [|split].
  - intros id instanceType region_ rec H.
    destruct (getGenerationUpgradeRecommendation_Some _ _ _ _ _ _ H)
      as (newFamily & cur & new & _ & Hcur & Hnew & Hgt & Hcfg & _).
    eexists _, cur, new. rewrite Hcfg, lookup_singleton_eq.
    split; [reflexivity|]. auto using notDearer_intro.
  - intros id instanceType region_ rec H.
    destruct (getGravitonRecommendation_Some _ _ _ _ _ _ H)
      as (fam & cur & new & _ & Hcur & Hnew & Hgt & Hcfg & _).
    eexists _, cur, new. split; [exact Hcfg|]. auto using notDearer_intro.
  - intros id volumeType region_ tags rec H.
    destruct (getEBSRecommendations_elem _ _ _ _ _ _ _ H)
      as (gp2 & gp3 & Hvt & Hgp2 & Hgp3 & Hgt & Hcfg & _).
    exists gp2, gp3. auto 10 using notDearer_intro.
Qed.

Lemma recommendations_are_never_dearer_witness :
  exists newType currentPrice newPrice,
    EC2OnDemandPricePerHour Sample.client "t2.micro" "Linux" "Shared"
    = (currentPrice, true)
    /\ EC2OnDemandPricePerHour Sample.client newType "Linux" "Shared" = (newPrice, true)
    /\ notDearer newPrice currentPrice.
Proof.
  destruct (getGenerationUpgradeRecommendation Sample.ext Sample.plugin
              "uuid-0" "t2.micro" "us-east-1") as [rec|] eqn:E.
  - destruct (proj1 (recommendations_are_never_dearer Sample.ext Sample.plugin)
                _ _ _ _ E) as (newType & cur & new & _ & Hcur & Hnew & Hle).
    exists newType, cur, new. auto.
  - vm_compute in E. discriminate.
Defined.

(** The percentage of an impact block, by cases on the current cost. *)
Lemma savingsPercentOf_positive (savings currentMonthly : float) :
  fgt currentMonthly 0 = true ->
  savingsPercentOf savings currentMonthly = (savings / currentMonthly * 100)%float.
Proof.
  intros H. unfold savingsPercentOf, savingsPercentTraced. rewrite H. reflexivity.
Qed.

Lemma savingsPercentOf_not_positive (savings currentMonthly : float) :
  fgt currentMonthly 0 = false ->
  savingsPercentOf savings currentMonthly = 0%float.
Proof.
  intros H. unfold savingsPercentOf, savingsPercentTraced. rewrite H. reflexivity.
Qed.

(** Every divisor used for a percentage is different from zero. *)
Lemma savingsPercentTraced_divisors (savings currentMonthly : float) :
  Forall (fun d => PrimFloat.eqb d 0 = false)
    (savingsPercentTraced savings currentMonthly).2.
Proof.
  unfold savingsPercentTraced.
  destruct (fgt currentMonthly 0) eqn:E; simpl; [|constructor].
  constructor; [|constructor]. apply fgt_zero_neq, E.
Qed.

(** Every recommendation of a response carries an impact block built by
    [impactOf]. *)
Lemma generateEC2Recommendations_elem
    (ext : Externals) (p : AWSPublicPlugin) (n : nat) (instanceType region_ : string)
    (rec : Recommendation.t) :
  rec ∈ generateEC2Recommendations ext p n instanceType region_ ->
  (exists id, getGenerationUpgradeRecommendation ext p id instanceType region_ = Some rec)
  \/ (exists id, getGravitonRecommendation ext p id instanceType region_ = Some rec).
Proof.
  unfold generateEC2Recommendations.
  destruct (getGenerationUpgradeRecommendation ext p (uuidNew ext n) instanceType region_)
    as [r1|] eqn:E1;
    match goal with
    | |- context [getGravitonRecommendation ext p ?i instanceType region_] =>
        destruct (getGravitonRecommendation ext p i instanceType region_)
          as [r2|] eqn:E2
    end; simpl; intros H;
    repeat match goal with
      | H : _ ∈ _ :: _ |- _ => apply elem_of_cons in H; destruct H as [-> | H]
      | H : _ ∈ [] |- _ => inversion H
      end; eauto.
Qed.

Lemma recommendationsFor_impact
    (ext : Externals) (p : AWSPublicPlugin) (req : GetRecommendationsRequest.t)
    (rec : Recommendation.t) :
  rec ∈ recommendationsFor ext p req ->
  exists currentMonthly newMonthly,
    Recommendation.Impact rec = impactOf currentMonthly newMonthly.
Proof.
  unfold recommendationsFor.
  destruct (GetRecommendationsRequest.Filter req) as [f|]; [|intros H'; inversion H'].
  case_bool_decide; [intros H'; inversion H'|].
  case_bool_decide.
  - intros [[id Hgen] | [id Hgrav]]%generateEC2Recommendations_elem.
    + apply getGenerationUpgradeRecommendation_Some in Hgen
        as (? & ? & ? & _ & _ & _ & _ & _ & ->). eauto.
    + apply getGravitonRecommendation_Some in Hgrav
        as (? & ? & ? & _ & _ & _ & _ & _ & ->). eauto.
  - case_bool_decide; [|intros H'; inversion H'].
    intros Hebs. apply getEBSRecommendations_elem in Hebs
      as (? & ? & _ & _ & _ & _ & _ & ->). eauto.
Qed.

(** C8. In every recommendation of a response, the savings percentage is
    (savings / current monthly cost) * 100 when the current monthly cost is
    above zero and 0 when it is zero, where the savings are the current cost
    less the projected cost; every division made for it has a non-zero
    divisor. *)
Theorem savings_percentage_is_guarded
    (ext : Externals) (p : AWSPublicPlugin) (traceID : string)
    (req : option GetRecommendationsRequest.t) (resp : GetRecommendationsResponse.t)
    (rec : Recommendation.t) :
  GetRecommendations ext p traceID req = Ok resp ->
  rec ∈ GetRecommendationsResponse.Recommendations resp ->
  let impact := Recommendation.Impact rec in
  let savings := RecommendationImpact.EstimatedSavings impact in
  let current := RecommendationImpact.CurrentCost impact in
  savings = (current - RecommendationImpact.ProjectedCost impact)%float
  /\ (fgt current 0 = true ->
      RecommendationImpact.SavingsPercentage impact = (savings / current * 100)%float)
  /\ (PrimFloat.eqb current 0 = true ->
      RecommendationImpact.SavingsPercentage impact = 0%float)
  /\ RecommendationImpact.SavingsPercentage impact
     = (savingsPercentTraced savings current).1
  /\ Forall (fun d => PrimFloat.eqb d 0 = false)
       (savingsPercentTraced savings current).2.
Proof.
  intros Hresp Hin.
  destruct req as [req|]; simpl in Hresp; [|discriminate].
  injection Hresp as <-. simpl in Hin.
  destruct (recommendationsFor_impact ext p req rec Hin) as (c & n & ->).
  simpl. split; [reflexivity|]. split; [|split; [|split]].
  - apply savingsPercentOf_positive.
  - intros Hz. apply savingsPercentOf_not_positive, eqb_zero_not_fgt, Hz.
  - reflexivity.
  - apply savingsPercentTraced_divisors.
Qed.

Lemma savings_percentage_is_guarded_witness :
  Forall
    (fun rec =>
       let impact := Recommendation.Impact rec in
       RecommendationImpact.SavingsPercentage impact
       = (RecommendationImpact.EstimatedSavings impact
          / RecommendationImpact.CurrentCost impact * 100)%float)
    (recommendationsFor Sample.ext Sample.plugin (Sample.filterOf "ec2" "t2.micro" None)).
Proof.
  apply Forall_forall. intros rec Hin.
  refine (proj1 (proj2 (savings_percentage_is_guarded Sample.ext Sample.plugin "trace-1"
                          (Some (Sample.filterOf "ec2" "t2.micro" None)) _ rec
                          eq_refl Hin)) _).
  vm_compute in Hin. apply list_elem_of_singleton in Hin. subst rec.
  vm_compute. reflexivity.
Defined.

(** ** Tags of a resolved descriptor *)

(** The tag fallback of [parseResourceFromRequest], when it succeeds. *)
Lemma parseResourceFromTags_Ok (tags : option (gmap string string))
    (d : ResourceDescriptor.t) :
  parseResourceFromTags tags = Ok d ->
  exists m, tags = Some m /\ d = descriptorFromTags m /\ incomplete d = false.
Proof.
  unfold parseResourceFromTags. destruct tags as [m|]; [|discriminate].
  destruct (incomplete (descriptorFromTags m)) eqn:E; [discriminate|].
  intros [= <-]. eauto.
Qed.

Lemma parseResourceFromRequest_tags (ext : Externals) (req : GetActualCostRequest.t) :
  GetActualCostRequest.ResourceId req = ""
  \/ jsonUnmarshal ext (GetActualCostRequest.ResourceId req) = None ->
  parseResourceFromRequest ext req
  = parseResourceFromTags (GetActualCostRequest.Tags req).
Proof.
  unfold parseResourceFromRequest. intros [H | H].
  - rewrite bool_decide_eq_true_2 by exact H. reflexivity.
  - case_bool_decide; [reflexivity|]. rewrite H. reflexivity.
Qed.

(** The keys the two copy loops skip, one by one. *)
Lemma elem_of_skuTagKeys (k : string) :
  k ∈ skuTagKeys <->
  k = "sku" \/ k = "instanceType" \/ k = "instance_class" \/ k = "type"
  \/ k = "volumeType" \/ k = "volume_type".
Proof.
  unfold skuTagKeys. rewrite !elem_of_cons, elem_of_nil. tauto.
Qed.

Lemma elem_of_descriptorTagKeys (k : string) :
  k ∈ descriptorTagKeys <->
  k = "provider" \/ k = "resource_type" \/ k = "sku" \/ k = "region".
Proof.
  unfold descriptorTagKeys. rewrite !elem_of_cons, elem_of_nil. tauto.
Qed.

(** The tags of a descriptor built from an ARN. *)
Lemma parseResourceFromARN_tags (ext : Externals) (req : GetActualCostRequest.t)
    (d : ResourceDescriptor.t) :
  parseResourceFromARN ext req = Ok d ->
  exists tags,
    ResourceDescriptor.Tags d = Some tags
    /\ (tags !! "sku" = None /\ tags !! "instanceType" = None
        /\ tags !! "instance_class" = None /\ tags !! "type" = None
        /\ tags !! "volumeType" = None /\ tags !! "volume_type" = None)
    /\ (forall k,
          k <> "sku" -> k <> "instanceType" -> k <> "instance_class" ->
          k <> "type" -> k <> "volumeType" -> k <> "volume_type" ->
          tags !! k = commaOk (GetActualCostRequest.Tags req) k).
Proof.
  intros (arn & _ & _ & ->)%parseResourceFromARN_Ok. simpl.
  eexists. split; [reflexivity|]. split.
  - repeat split; apply copyTagsExcept_skipped, elem_of_skuTagKeys; tauto.
  - intros k H1 H2 H3 H4 H5 H6. apply copyTagsExcept_kept.
    rewrite elem_of_skuTagKeys. tauto.
Qed.

(** C10. A descriptor built from an ARN carries none of the keys [sku],
    [instanceType], [instance_class], [type], [volumeType], [volume_type] in
    its tags, and one built from the tag map carries none of [provider],
    [resource_type], [sku], [region]; under every other key the tags of the
    descriptor hold what the tags of the request hold. *)
Theorem resolution_strips_identity_tags (ext : Externals) (p : AWSPublicPlugin) :
  (forall req d,
      parseResourceFromARN ext req = Ok d ->
      exists tags,
        ResourceDescriptor.Tags d = Some tags
        /\ (tags !! "sku" = None /\ tags !! "instanceType" = None
            /\ tags !! "instance_class" = None /\ tags !! "type" = None
            /\ tags !! "volumeType" = None /\ tags !! "volume_type" = None)
        /\ (forall k,
              k <> "sku" -> k <> "instanceType" -> k <> "instance_class" ->
              k <> "type" -> k <> "volumeType" -> k <> "volume_type" ->
              tags !! k = commaOk (GetActualCostRequest.Tags req) k))
  /\ (forall traceID req d,
        GetActualCostRequest.Arn req ≠ "" ->
        ValidateActualCostRequest ext p traceID (Some req) = Ok d ->
        exists tags,
          ResourceDescriptor.Tags d = Some tags
          /\ (tags !! "sku" = None /\ tags !! "instanceType" = None
              /\ tags !! "instance_class" = None /\ tags !! "type" = None
              /\ tags !! "volumeType" = None /\ tags !! "volume_type" = None)
          /\ (forall k,
                k <> "sku" -> k <> "instanceType" -> k <> "instance_class" ->
                k <> "type" -> k <> "volumeType" -> k <> "volume_type" ->
                tags !! k = commaOk (GetActualCostRequest.Tags req) k))
  /\ (forall req d,
        GetActualCostRequest.ResourceId req = ""
        \/ jsonUnmarshal ext (GetActualCostRequest.ResourceId req) = None ->
        parseResourceFromRequest ext req = Ok d ->
        exists tags,
          ResourceDescriptor.Tags d = Some tags
          /\ (tags !! "provider" = None /\ tags !! "resource_type" = None
              /\ tags !! "sku" = None /\ tags !! "region" = None)
          /\ (forall k,
                k <> "provider" -> k <> "resource_type" -> k <> "sku" ->
                k <> "region" ->
                tags !! k = commaOk (GetActualCostRequest.Tags req) k)).
Proof.
  split; [apply parseResourceFromARN_tags|]. split.
  - intros traceID req d Hne Hok.
    destruct (ValidateActualCostRequest_arn_Ok ext p traceID req d Hne Hok)
      as (d0 & Hd0 & -> & _).
    destruct (parseResourceFromARN_tags ext req d0 Hd0) as (tags & Htags & Hrest).
    exists tags. split; [exact Htags | exact Hrest].
  - intros req d Hjson. rewrite (parseResourceFromRequest_tags ext req Hjson).
    intros (m & Hm & -> & _)%parseResourceFromTags_Ok. simpl.
    eexists. split; [reflexivity|]. rewrite Hm. split.
    + repeat split; apply copyTagsExcept_skipped, elem_of_descriptorTagKeys; tauto.
    + intros k H1 H2 H3 H4. apply copyTagsExcept_kept.
      rewrite elem_of_descriptorTagKeys. tauto.
Qed.

Lemma resolution_strips_identity_tags_witness :
  (exists d,
      parseResourceFromARN Sample.ext Fixtures.reqInstanceAllKeys = Ok d
      /\ ResourceDescriptor.Tags d
         = Some (list_to_map
                   [("provider", "aws"); ("resource_type", "ec2");
                    ("region", "us-east-1"); ("app", "web")]))
  /\ (exists d,
        parseResourceFromRequest Sample.ext Fixtures.reqAllKeysTags = Ok d
        /\ ResourceDescriptor.Tags d
           = Some (list_to_map
                     [("instanceType", "t3.small"); ("instance_class", "db.t3");
                      ("type", "x"); ("volumeType", "gp2"); ("volume_type", "gp3");
                      ("app", "web")])).
Proof.
  destruct (resolution_strips_identity_tags Sample.ext Sample.plugin)
    as (Harn & _ & Hflat).
  split.
  - destruct (parseResourceFromARN Sample.ext Fixtures.reqInstanceAllKeys)
      as [d|e] eqn:E; [|vm_compute in E; discriminate].
    destruct (Harn _ d E) as (tags & Htags & Hskip & Hkeep).
    exists d. split; [reflexivity|]. rewrite Htags. f_equal.
    apply map_eq. intros k.
    destruct Hskip as (S1 & S2 & S3 & S4 & S5 & S6).
    destruct (decide (k = "sku")) as [->|N1]; [rewrite S1; reflexivity|].
    destruct (decide (k = "instanceType")) as [->|N2]; [rewrite S2; reflexivity|].
    destruct (decide (k = "instance_class")) as [->|N3]; [rewrite S3; reflexivity|].
    destruct (decide (k = "type")) as [->|N4]; [rewrite S4; reflexivity|].
    destruct (decide (k = "volumeType")) as [->|N5]; [rewrite S5; reflexivity|].
    destruct (decide (k = "volume_type")) as [->|N6]; [rewrite S6; reflexivity|].
    rewrite (Hkeep k N1 N2 N3 N4 N5 N6).
    unfold commaOk, Fixtures.reqInstanceAllKeys, Fixtures.allKeysTags. simpl.
    repeat (rewrite lookup_insert_ne by congruence). reflexivity.
  - destruct (parseResourceFromRequest Sample.ext Fixtures.reqAllKeysTags)
      as [d|e] eqn:E; [|vm_compute in E; discriminate].
    destruct (Hflat Fixtures.reqAllKeysTags d (or_introl eq_refl) E) as (tags & Htags & Hskip & Hkeep).
    exists d. split; [reflexivity|]. rewrite Htags. f_equal.
    apply map_eq. intros k.
    destruct Hskip as (S1 & S2 & S3 & S4).
    destruct (decide (k = "provider")) as [->|N1]; [rewrite S1; reflexivity|].
    destruct (decide (k = "resource_type")) as [->|N2]; [rewrite S2; reflexivity|].
    destruct (decide (k = "sku")) as [->|N3]; [rewrite S3; reflexivity|].
    destruct (decide (k = "region")) as [->|N4]; [rewrite S4; reflexivity|].
    destruct (decide (k = "instanceType")) as [->|M1];
      [rewrite Hkeep by discriminate; vm_compute; reflexivity|].
    destruct (decide (k = "instance_class")) as [->|M2];
      [rewrite Hkeep by discriminate; vm_compute; reflexivity|].
    destruct (decide (k = "type")) as [->|M3];
      [rewrite Hkeep by discriminate; vm_compute; reflexivity|].
    destruct (decide (k = "volumeType")) as [->|M4];
      [rewrite Hkeep by discriminate; vm_compute; reflexivity|].
    destruct (decide (k = "volume_type")) as [->|M5];
      [rewrite Hkeep by discriminate; vm_compute; reflexivity|].
    destruct (decide (k = "app")) as [->|M6];
      [rewrite Hkeep by discriminate; vm_compute; reflexivity|].
    rewrite (Hkeep k N1 N2 N3 N4).
    unfold commaOk, Fixtures.reqAllKeysTags, Fixtures.allKeysTags. simpl.
    transitivity (@None string); [|symmetry];
      repeat (rewrite lookup_insert_ne by congruence); apply lookup_empty.
Defined.

(** ** Completeness of a resolved descriptor *)

(** A descriptor built from the tag map has its four identifying fields
    set, and a descriptor built from an ARN has provider and SKU set. *)
Lemma incomplete_false (d : ResourceDescriptor.t) :
  incomplete d = false ->
  ResourceDescriptor.Provider d ≠ "" /\ ResourceDescriptor.ResourceType d ≠ ""
  /\ ResourceDescriptor.Sku d ≠ "" /\ ResourceDescriptor.Region d ≠ "".
Proof.
  unfold incomplete. rewrite !orb_false_iff, !bool_decide_eq_false. tauto.
Qed.

Lemma parseResourceFromTags_complete (tags : option (gmap string string))
    (d : ResourceDescriptor.t) :
  parseResourceFromTags tags = Ok d -> incomplete d = false.
Proof. intros (m & _ & _ & H)%parseResourceFromTags_Ok. exact H. Qed.

Lemma parseResourceFromTags_Err (tags : option (gmap string string)) (e : error) :
  parseResourceFromTags tags = Err e ->
  e = StatusError InvalidArgument missingResourceText
  \/ e = StatusError InvalidArgument incompleteResourceText.
Proof.
  unfold parseResourceFromTags. destruct tags as [m|].
  - destruct (incomplete (descriptorFromTags m)); [|discriminate].
    intros [= <-]. auto.
  - intros [= <-]. auto.
Qed.

(** C4, at the input on which it fails. A [ResourceId] that decodes as JSON
    is returned as decoded, whatever its fields: when the decoder maps the
    empty object to the zero descriptor, as [encoding/json] does, the request
    resolves to a descriptor whose four identifying fields are all empty, and
    [GetActualCost] goes on to price it. *)
Theorem parseResourceFromRequest_returns_decoded_json
    (ext : Externals) (req : GetActualCostRequest.t) :
  GetActualCostRequest.ResourceId req = "{}" ->
  jsonUnmarshal ext "{}" = Some ResourceDescriptor.zero ->
  parseResourceFromRequest ext req = Ok ResourceDescriptor.zero
  /\ incomplete ResourceDescriptor.zero = true
  /\ (forall start end_,
        GetActualCostRequest.Start req = Some start ->
        GetActualCostRequest.End req = Some end_ ->
        After (AsTime end_) (AsTime start) = true ->
        forall projected,
          getProjectedForResource ext ResourceDescriptor.zero = Ok projected ->
          isOk (GetActualCost ext (Some req)) = true).
Proof.
  intros Hid Hjson.
  assert (Hparse : parseResourceFromRequest ext req = Ok ResourceDescriptor.zero).
  { unfold parseResourceFromRequest. rewrite Hid. simpl. rewrite Hjson. reflexivity. }
  split; [exact Hparse|]. split; [reflexivity|].
  intros start end_ Hs He Hafter projected Hproj.
  unfold GetActualCost. rewrite Hs, He.
  rewrite (calculateRuntimeHours_After ext _ _ Hafter), Hparse. simpl.
  rewrite (Hours_After_nonzero _ _ Hafter), Hproj. reflexivity.
Qed.

Lemma parseResourceFromRequest_returns_decoded_json_witness :
  parseResourceFromRequest Sample.ext Sample.reqEmptyObject = Ok ResourceDescriptor.zero.
Proof.
  apply (parseResourceFromRequest_returns_decoded_json Sample.ext Sample.reqEmptyObject);
    reflexivity.
Defined.

(** ** The time check of the validation path *)

(** [validateTimestamps] accepts exactly the requests whose end is after
    their start; equal instants are refused there, while [GetActualCost]
    answers them with cost 0. *)
Lemma validateTimestamps_None (req : GetActualCostRequest.t) :
  validateTimestamps req = None <->
  exists start end_,
    GetActualCostRequest.Start req = Some start
    /\ GetActualCostRequest.End req = Some end_
    /\ After (AsTime end_) (AsTime start) = true.
Proof.
  unfold validateTimestamps.
  destruct (GetActualCostRequest.Start req) as [s|],
           (GetActualCostRequest.End req) as [e|]; split;
    try discriminate; try (intros (? & ? & ? & ? & ?); discriminate).
  - destruct (After (AsTime e) (AsTime s)) eqn:E; [|discriminate]. eauto.
  - intros (s' & e' & [= <-] & [= <-] & ->). reflexivity.
Qed.

Lemma validateTimestamps_equal_instants (req : GetActualCostRequest.t)
    (start end_ : Timestamp) :
  GetActualCostRequest.Start req = Some start ->
  GetActualCostRequest.End req = Some end_ ->
  AsTime end_ = AsTime start ->
  validateTimestamps req
  = Some (StatusError InvalidArgument "end_time must be after start_time").
Proof.
  intros Hs He Heq. unfold validateTimestamps.
  rewrite Hs, He, Heq, After_irrefl. reflexivity.
Qed.

(** An end before the start is an invalid-argument error of
    [GetActualCost]. *)
Lemma GetActualCost_end_before_start
    (ext : Externals) (req : GetActualCostRequest.t) (start end_ : Timestamp) :
  GetActualCostRequest.Start req = Some start ->
  GetActualCostRequest.End req = Some end_ ->
  Before (AsTime end_) (AsTime start) = true ->
  GetActualCost ext (Some req)
  = Err (StatusError InvalidArgument
           ("invalid time range: " +:+ runtimeHoursErrorText ext)).
Proof.
  intros Hs He Hb. unfold GetActualCost.
  rewrite Hs, He, (calculateRuntimeHours_Before ext _ _ Hb). reflexivity.
Qed.

(** ** The ARN parser on the cases of its test tables *)

Example ParseARN_ec2_instance :
  Arn.ParseARN "arn:aws:ec2:us-east-1:123456789012:instance/i-abc123"
  = Ok (Arn.mkARN "aws" "ec2" "us-east-1" "123456789012" "instance" "i-abc123").
Proof. reflexivity. Qed.

Example ParseARN_rds_colon :
  Arn.ParseARN "arn:aws:rds:eu-west-1:123456789012:db:mydb"
  = Ok (Arn.mkARN "aws" "rds" "eu-west-1" "123456789012" "db" "mydb").
Proof. reflexivity. Qed.

Example ParseARN_s3_bucket :
  Arn.ParseARN "arn:aws:s3:::my-bucket"
  = Ok (Arn.mkARN "aws" "s3" "" "" "my-bucket" "").
Proof. reflexivity. Qed.

Example ParseARN_govcloud :
  Arn.ParseARN "arn:aws-us-gov:ec2:us-gov-west-1:123456789012:instance/i-abc123"
  = Ok (Arn.mkARN "aws-us-gov" "ec2" "us-gov-west-1" "123456789012" "instance" "i-abc123").
Proof. reflexivity. Qed.

Example ParseARN_invalid_formats :
  Forall (fun s => isOk (Arn.ParseARN s) = false)
    [""; "not-an-arn"; "aws:ec2:us-east-1:123456789012:instance/i-abc";
     "urn:aws:ec2:us-east-1:123456789012:instance/i-abc"; "arn:aws:ec2";
     "arn:invalid:ec2:us-east-1:123456789012:instance/i-abc";
     "arn:aws::us-east-1:123456789012:instance/i-abc";
     "arn:aws:ec2:us-east-1:123456789012:";
     "arn:aws-iso:ec2:us-iso-east-1:123456789012:instance/i-abc123";
     "arn:aws-iso-b:ec2:us-isob-east-1:123456789012:instance/i-abc123"].
Proof. repeat constructor. Qed.

Example ToPulumiResourceType_cases :
  map Arn.ToPulumiResourceType
    [Arn.mkARN "" "ec2" "" "" "instance" ""; Arn.mkARN "" "ec2" "" "" "volume" "";
     Arn.mkARN "" "rds" "" "" "db" ""; Arn.mkARN "" "s3" "" "" "bucket" "";
     Arn.mkARN "" "kinesis" "" "" "stream" ""]
  = ["ec2"; "ebs"; "rds"; "s3"; "kinesis"].
Proof. reflexivity. Qed.

(** ** The scenarios of the cost formulas *)

(** A rate of 0.0104 per hour over 730 hours. *)
Example projected_monthly_t3_micro :
  GetProjectedCostResponse.CostPerMonth
    <$> (match Sample.getProjectedForResource
                 (ResourceDescriptor.mk "aws" "ec2" "t3.micro" "us-east-1" None) with
         | Ok r => Some r
         | Err _ => None
         end)
  = Some (0.0104 * 730)%float.
Proof. reflexivity. Qed.

(** One nanosecond is already a non-zero count of hours. *)
Example Hours_one_nanosecond : PrimFloat.eqb (Hours 1) 0 = false.
Proof. reflexivity. Qed.

Example ebsSizeGB_cases :
  map ebsSizeGB
    [None; Some {[ "size" := "500" ]}; Some {[ "size" := "0" ]};
     Some {[ "size" := "abc" ]}; Some {[ "volume_size" := "250" ]};
     Some (<[ "size" := "x" ]> {[ "volume_size" := "250" ]})]
  = [100; 500; 100; 100; 250; 100].
Proof. reflexivity. Qed.

(** * Further properties of the code *)

(** ** Timestamps *)

(** X1. For timestamps in the range that [AsTime] converts without
    wrap-around, [validateTimestamps] accepts a request exactly when both
    timestamps are set and the end is a later instant than the start, counted
    in nanoseconds since the epoch. *)
Theorem validateTimestamps_accepts_iff (req : GetActualCostRequest.t) :
  windowInRange req ->
  (validateTimestamps req = None <->
   exists start end_,
     GetActualCostRequest.Start req = Some start
     /\ GetActualCostRequest.End req = Some end_
     /\ unixNanos start < unixNanos end_).
Proof.
  unfold validateTimestamps, windowInRange. intros Hrange.
  destruct (GetActualCostRequest.Start req) as [s|],
           (GetActualCostRequest.End req) as [e|]; split;
    try discriminate; try (intros (? & ? & ? & ? & ?); discriminate).
  - destruct (After (AsTime e) (AsTime s)) eqn:E; [|discriminate].
    intros _. exists s, e. apply After_unixNanos in E; auto.
  - intros (s' & e' & [= <-] & [= <-] & Hlt).
    apply After_unixNanos in Hlt; auto. rewrite Hlt. reflexivity.
Qed.

Lemma validateTimestamps_accepts_iff_witness :
  validateTimestamps Sample.reqTags24h = None.
Proof.
  refine (proj2 (validateTimestamps_accepts_iff Sample.reqTags24h _) _).
  - intros ts [[= <-] | [= <-]]; in_time_range.
  - exists Sample.t0, Sample.t0_plus_24h.
    split; [reflexivity|]. split; [reflexivity|]. vm_compute. reflexivity.
Defined.

(** ** [ValidateActualCostRequest] as a whole *)

(** The non-ARN branch returns what [parseResourceFromRequest] resolved. *)
Lemma ValidateActualCostRequest_plain_Ok (ext : Externals) (p : AWSPublicPlugin)
    (traceID : string) (req : GetActualCostRequest.t) (d : ResourceDescriptor.t) :
  GetActualCostRequest.Arn req = "" ->
  ValidateActualCostRequest ext p traceID (Some req) = Ok d ->
  validateTimestamps req = None
  /\ sdkValidateActualCostRequest ext req = None
  /\ parseResourceFromRequest ext req = Ok d
  /\ ResourceDescriptor.Region d = region p.
Proof.
  intros Harn. unfold ValidateActualCostRequest.
  destruct (validateTimestamps req); [discriminate|].
  rewrite bool_decide_eq_true_2 by exact Harn. simpl.
  destruct (sdkValidateActualCostRequest ext req); [discriminate|].
  destruct (parseResourceFromRequest ext req) as [d0|e]; [|discriminate].
  case_bool_decide as Hrg; simpl; [|discriminate].
  intros [= <-]. auto.
Qed.

(** X2. Whatever way a request is resolved, a descriptor returned by
    [ValidateActualCostRequest] has the region of the plugin. *)
Theorem ValidateActualCostRequest_region
    (ext : Externals) (p : AWSPublicPlugin) (traceID : string)
    (req : option GetActualCostRequest.t) (d : ResourceDescriptor.t) :
  ValidateActualCostRequest ext p traceID req = Ok d ->
  ResourceDescriptor.Region d = region p.
Proof.
  destruct req as [req|]; [|discriminate].
  destruct (decide (GetActualCostRequest.Arn req = "")) as [Harn | Harn]; intros H.
  - apply (ValidateActualCostRequest_plain_Ok ext p traceID req d Harn H).
  - destruct (ValidateActualCostRequest_arn_Ok ext p traceID req d Harn H)
      as (d0 & _ & -> & _).
    reflexivity.
Qed.

Lemma ValidateActualCostRequest_region_witness :
  ValidateActualCostRequest Sample.ext Sample.plugin "trace-1" (Some Sample.reqBucket)
  = Ok (ResourceDescriptor.mk "aws" "s3" "STANDARD" "us-east-1"
          (Some {[ "team" := "data" ]}))
  /\ region Sample.plugin = "us-east-1".
Proof.
  assert (H : ValidateActualCostRequest Sample.ext Sample.plugin "trace-1"
                (Some Sample.reqBucket)
              = Ok (ResourceDescriptor.mk "aws" "s3" "STANDARD" "us-east-1"
                      (Some {[ "team" := "data" ]})))
    by (vm_compute; reflexivity).
  split; [exact H|].
  exact (eq_sym (ValidateActualCostRequest_region _ _ _ _ _ H)).
Defined.

(** The two results of [RegionMismatchError]. *)
Lemma RegionMismatchError_cases (ext : Externals) (p : AWSPublicPlugin)
    (traceID r : string) :
  (withDetailsOk ext traceID (region p) r = true
   /\ RegionMismatchError ext p traceID r = RegionMismatch traceID (region p) r)
  \/ (withDetailsOk ext traceID (region p) r = false
      /\ RegionMismatchError ext p traceID r
         = StatusError FailedPrecondition "region mismatch").
Proof.
  unfold RegionMismatchError.
  destruct (withDetailsOk ext traceID (region p) r); auto.
Qed.

(** X3. Every error of [ValidateActualCostRequest] is one of three: an
    invalid-argument error with the code [ERROR_CODE_INVALID_RESOURCE] and the
    trace ID of the call; the region-mismatch status with its details, which
    name the trace ID, the region of the plugin and a resource region
    different from it; or, when these details could not be attached, the bare
    [FailedPrecondition] status that says [region mismatch] and carries
    neither trace ID nor regions. *)
Theorem ValidateActualCostRequest_error_kinds
    (ext : Externals) (p : AWSPublicPlugin) (traceID : string)
    (req : option GetActualCostRequest.t) (e : error) :
  ValidateActualCostRequest ext p traceID req = Err e ->
  (exists msg, e = ErrorWithID traceID InvalidArgument msg ERROR_CODE_INVALID_RESOURCE)
  \/ (exists r,
        r <> region p
        /\ withDetailsOk ext traceID (region p) r = true
        /\ e = RegionMismatch traceID (region p) r)
  \/ (exists r,
        r <> region p
        /\ withDetailsOk ext traceID (region p) r = false
        /\ e = StatusError FailedPrecondition "region mismatch").
Proof.
  assert (Hmis : forall r,
             r <> region p ->
             (exists r',
                 r' <> region p
                 /\ withDetailsOk ext traceID (region p) r' = true
                 /\ RegionMismatchError ext p traceID r
                    = RegionMismatch traceID (region p) r')
             \/ (exists r',
                   r' <> region p
                   /\ withDetailsOk ext traceID (region p) r' = false
                   /\ RegionMismatchError ext p traceID r
                      = StatusError FailedPrecondition "region mismatch")).
  { intros r Hr.
    destruct (RegionMismatchError_cases ext p traceID r) as [[Hok ->] | [Hok ->]];
      eauto. }
  unfold ValidateActualCostRequest.
  destruct req as [req|]; [|intros [= <-]; eauto].
  destruct (validateTimestamps req); [intros [= <-]; eauto|].
  case_bool_decide as Harn; simpl.
  - destruct (sdkValidateActualCostRequest ext req); [intros [= <-]; eauto|].
    destruct (parseResourceFromRequest ext req) as [d|e0]; [|intros [= <-]; eauto].
    case_bool_decide as Hrg; simpl; [discriminate|].
    intros [= <-]. right.
    destruct (Hmis _ Hrg) as [(r' & ? & ? & ->) | (r' & ? & ? & ->)]; eauto.
  - destruct (parseResourceFromARN ext req) as [d|e0]; [|intros [= <-]; eauto].
    repeat case_bool_decide; simpl; try discriminate.
    intros [= <-]. right.
    match goal with
    | Hr : ResourceDescriptor.Region d <> region p |- _ =>
        destruct (Hmis _ Hr) as [(r' & ? & ? & ->) | (r' & ? & ? & ->)]; eauto
    end.
Qed.

Lemma ValidateActualCostRequest_error_kinds_witness :
  exists r,
    ValidateActualCostRequest Sample.ext Sample.plugin "trace-1"
      (Some Fixtures.reqInstanceWest)
    = Err (RegionMismatch "trace-1" "us-east-1" r)
    /\ r <> "us-east-1".
Proof.
  destruct (ValidateActualCostRequest_error_kinds Sample.ext Sample.plugin "trace-1"
              (Some Fixtures.reqInstanceWest)
              (RegionMismatch "trace-1" "us-east-1" "us-west-2"))
    as [(msg & Hmsg) | [(r & Hne & _ & Hr) | (r & _ & _ & Hr)]].
  - vm_compute. reflexivity.
  - discriminate Hmsg.
  - exists r. split; [|exact Hne]. injection Hr as <-. vm_compute. reflexivity.
  - discriminate Hr.
Defined.

(** X4. An ARN has priority over the other ways to name the resource: when
    the ARN is set, the answer of [ValidateActualCostRequest] is the same for
    every [ResourceId]. *)
Theorem ValidateActualCostRequest_arn_ignores_ResourceId
    (ext : Externals) (p : AWSPublicPlugin) (traceID : string)
    (req : GetActualCostRequest.t) (resourceId : string) :
  GetActualCostRequest.Arn req <> "" ->
  ValidateActualCostRequest ext p traceID
    (Some (GetActualCostRequest.mk resourceId
             (GetActualCostRequest.Start req) (GetActualCostRequest.End req)
             (GetActualCostRequest.Tags req) (GetActualCostRequest.Arn req)))
  = ValidateActualCostRequest ext p traceID (Some req).
Proof.
  intros Harn. unfold ValidateActualCostRequest, validateTimestamps, parseResourceFromARN.
  simpl. rewrite !(bool_decide_eq_false_2 _ Harn). reflexivity.
Qed.

Lemma ValidateActualCostRequest_arn_ignores_ResourceId_witness :
  ValidateActualCostRequest Sample.ext Sample.plugin "trace-1"
    (Some (GetActualCostRequest.mk "{}" (Some Sample.t0) (Some Sample.t0_plus_24h)
             (GetActualCostRequest.Tags Sample.reqInstance)
             (GetActualCostRequest.Arn Sample.reqInstance)))
  = ValidateActualCostRequest Sample.ext Sample.plugin "trace-1"
      (Some Sample.reqInstance).
Proof.
  apply (ValidateActualCostRequest_arn_ignores_ResourceId Sample.ext Sample.plugin
           "trace-1" Sample.reqInstance "{}").
  vm_compute. discriminate.
Defined.

(** X5. An ARN that parses with a region other than the plugin's, on a
    request with valid timestamps and a SKU in the tags, is answered by what
    [RegionMismatchError] builds for the region of the ARN: the
    region-mismatch status that carries that region when its details can be
    attached, and the bare [FailedPrecondition] status otherwise. *)
Theorem ValidateActualCostRequest_arn_region_mismatch
    (ext : Externals) (p : AWSPublicPlugin) (traceID : string)
    (req : GetActualCostRequest.t) (arn : Arn.ARNComponents) :
  validateTimestamps req = None ->
  GetActualCostRequest.Arn req <> "" ->
  ParseARN ext (GetActualCostRequest.Arn req) = Ok arn ->
  skuFromTags ext (GetActualCostRequest.Tags req) <> "" ->
  Arn.Region arn <> "" ->
  Arn.Region arn <> region p ->
  ValidateActualCostRequest ext p traceID (Some req)
  = Err (if withDetailsOk ext traceID (region p) (Arn.Region arn)
         then RegionMismatch traceID (region p) (Arn.Region arn)
         else StatusError FailedPrecondition "region mismatch").
Proof.
  intros Hts Hne Harn Hsku Hr1 Hr2.
  unfold ValidateActualCostRequest. rewrite Hts.
  rewrite bool_decide_eq_false_2 by exact Hne. simpl.
  rewrite (parseResourceFromARN_sku ext req arn Harn Hsku). simpl.
  rewrite !bool_decide_eq_false_2 by assumption. reflexivity.
Qed.

Lemma ValidateActualCostRequest_arn_region_mismatch_witness :
  ValidateActualCostRequest Sample.ext Sample.plugin "trace-1"
    (Some Fixtures.reqInstanceWest)
  = Err (RegionMismatch "trace-1" "us-east-1" "us-west-2").
Proof.
  etransitivity.
  - apply (ValidateActualCostRequest_arn_region_mismatch Sample.ext Sample.plugin
             "trace-1" Fixtures.reqInstanceWest
             (Arn.mkARN "aws" "ec2" "us-west-2" "123456789012" "instance" "i-abc123"));
      vm_compute; (reflexivity || discriminate).
  - vm_compute. reflexivity.
Defined.

(** X6. An ARN that does not parse fails the request with the text of the
    parse error: the [ResourceId] and the tags are not tried instead, even
    when they would resolve the resource. *)
Theorem ValidateActualCostRequest_bad_arn_no_fallback
    (ext : Externals) (p : AWSPublicPlugin) (traceID : string)
    (req : GetActualCostRequest.t) (err : error) :
  validateTimestamps req = None ->
  GetActualCostRequest.Arn req <> "" ->
  ParseARN ext (GetActualCostRequest.Arn req) = Err err ->
  ValidateActualCostRequest ext p traceID (Some req)
  = Err (ErrorWithID traceID InvalidArgument (ErrorText err)
           ERROR_CODE_INVALID_RESOURCE).
Proof.
  intros Hts Hne Harn.
  unfold ValidateActualCostRequest. rewrite Hts.
  rewrite bool_decide_eq_false_2 by exact Hne. simpl.
  unfold parseResourceFromARN. rewrite Harn. reflexivity.
Qed.

Lemma ValidateActualCostRequest_bad_arn_no_fallback_witness :
  isOk (parseResourceFromRequest Sample.ext Fixtures.reqBadArn) = true
  /\ ValidateActualCostRequest Sample.ext Sample.plugin "trace-1"
       (Some Fixtures.reqBadArn)
     = Err (ErrorWithID "trace-1" InvalidArgument
              "invalid ARN format: expected at least 6 segments"
              ERROR_CODE_INVALID_RESOURCE).
Proof.
  split; [vm_compute; reflexivity|].
  apply (ValidateActualCostRequest_bad_arn_no_fallback Sample.ext Sample.plugin
           "trace-1" Fixtures.reqBadArn
           (Errorf "invalid ARN format: expected at least 6 segments"));
    vm_compute; (reflexivity || discriminate).
Defined.

(** X7. The time window is checked before the resource is looked at: for
    timestamps in the range that [AsTime] converts without wrap-around, a
    request whose end is not a later instant than its start is refused by
    [ValidateActualCostRequest] with the same invalid-argument error for
    every ARN, [ResourceId] and tag map. An empty window is refused too. *)
Theorem ValidateActualCostRequest_window_first
    (ext : Externals) (p : AWSPublicPlugin) (traceID : string)
    (req : GetActualCostRequest.t) (start end_ : Timestamp) :
  GetActualCostRequest.Start req = Some start ->
  GetActualCostRequest.End req = Some end_ ->
  inTimeRange start ->
  inTimeRange end_ ->
  unixNanos end_ <= unixNanos start ->
  ValidateActualCostRequest ext p traceID (Some req)
  = Err (ErrorWithID traceID InvalidArgument
           "rpc error: code = InvalidArgument desc = end_time must be after start_time"
           ERROR_CODE_INVALID_RESOURCE).
Proof.
  intros Hs He Rs Re Hle.
  unfold ValidateActualCostRequest, validateTimestamps. rewrite Hs, He.
  destruct (After (AsTime end_) (AsTime start)) eqn:E.
  - apply After_unixNanos in E; [lia | assumption | assumption].
  - reflexivity.
Qed.

Lemma ValidateActualCostRequest_window_first_witness :
  ValidateActualCostRequest Sample.ext Sample.plugin "trace-1"
    (Some Sample.reqTagsZero)
  = Err (ErrorWithID "trace-1" InvalidArgument
           "rpc error: code = InvalidArgument desc = end_time must be after start_time"
           ERROR_CODE_INVALID_RESOURCE).
Proof.
  apply (ValidateActualCostRequest_window_first Sample.ext Sample.plugin "trace-1"
           Sample.reqTagsZero Sample.t0 Sample.t0);
    first [in_time_range | vm_compute; (reflexivity || discriminate)].
Defined.

(** X8. Without an ARN, on a request that passes the time check and the SDK
    check, [ValidateActualCostRequest] succeeds exactly when
    [parseResourceFromRequest] resolves a descriptor of the plugin's region,
    and it returns that descriptor unchanged. *)
Theorem ValidateActualCostRequest_plain_iff
    (ext : Externals) (p : AWSPublicPlugin) (traceID : string)
    (req : GetActualCostRequest.t) (d : ResourceDescriptor.t) :
  GetActualCostRequest.Arn req = "" ->
  validateTimestamps req = None ->
  sdkValidateActualCostRequest ext req = None ->
  (ValidateActualCostRequest ext p traceID (Some req) = Ok d
   <-> parseResourceFromRequest ext req = Ok d
       /\ ResourceDescriptor.Region d = region p).
Proof.
  intros Harn Hts Hsdk. split.
  - intros H.
    destruct (ValidateActualCostRequest_plain_Ok ext p traceID req d Harn H)
      as (_ & _ & Hd & Hrg).
    auto.
  - intros [Hd Hrg]. unfold ValidateActualCostRequest. rewrite Hts.
    rewrite bool_decide_eq_true_2 by exact Harn. simpl.
    rewrite Hsdk, Hd. rewrite bool_decide_eq_true_2 by exact Hrg. reflexivity.
Qed.

Lemma ValidateActualCostRequest_plain_iff_witness :
  ValidateActualCostRequest Sample.ext Sample.plugin "trace-1"
    (Some (GetActualCostRequest.mk "i-abc123" (Some Sample.t0)
             (Some Sample.t0_plus_24h) (Some Fixtures.webTags) ""))
  = Ok (ResourceDescriptor.mk "aws" "ec2" "t3.micro" "us-east-1"
          (Some {[ "app" := "web" ]})).
Proof.
  apply (ValidateActualCostRequest_plain_iff Sample.ext Sample.plugin "trace-1"
           (GetActualCostRequest.mk "i-abc123" (Some Sample.t0)
              (Some Sample.t0_plus_24h) (Some Fixtures.webTags) ""));
    try (vm_compute; reflexivity).
  split; vm_compute; reflexivity.
Defined.

(** ** [GetActualCost] as a whole *)

(** The hours of a window whose instants are ordered. *)
Lemma calculateRuntimeHours_le (ext : Externals) (start end_ : Timestamp) :
  inTimeRange start ->
  inTimeRange end_ ->
  unixNanos start <= unixNanos end_ ->
  calculateRuntimeHours ext (AsTime start) (AsTime end_)
  = Ok (Hours (Sub (AsTime end_) (AsTime start)))
  /\ (PrimFloat.eqb (Hours (Sub (AsTime end_) (AsTime start))) 0 = true
      <-> unixNanos end_ = unixNanos start).
Proof.
  intros Rs Re Hle. unfold calculateRuntimeHours.
  destruct (Before (AsTime end_) (AsTime start)) eqn:Eb.
  - apply Before_unixNanos in Eb; [lia | assumption | assumption].
  - split; [reflexivity|].
    destruct (Z.eq_dec (unixNanos end_) (unixNanos start)) as [Heq | Hne].
    + pose proof (proj2 (AsTime_eq_unixNanos end_ start Re Rs) Heq) as ->.
      rewrite Sub_diag. split; auto.
    + assert (Hafter : After (AsTime end_) (AsTime start) = true)
        by (apply After_unixNanos; [assumption | assumption | lia]).
      rewrite (Hours_After_nonzero _ _ Hafter). split; [discriminate | contradiction].
Qed.

(** X9. For timestamps in the range that [AsTime] converts without
    wrap-around, every success of [GetActualCost] is one of two: an empty
    window with the single zero-cost result, or a window of positive length
    with the single pro-rated result of a resource that resolved and was
    priced. The result always carries the start of the request as its
    timestamp. *)
Theorem GetActualCost_Ok_cases
    (ext : Externals) (req : GetActualCostRequest.t)
    (resp : GetActualCostResponse.t) :
  windowInRange req ->
  GetActualCost ext (Some req) = Ok resp ->
  exists start end_ resource,
    GetActualCostRequest.Start req = Some start
    /\ GetActualCostRequest.End req = Some end_
    /\ parseResourceFromRequest ext req = Ok resource
    /\ ((unixNanos end_ = unixNanos start
         /\ resp = GetActualCostResponse.mk
                     [ActualCostResult.mk (Some start) 0 0 "" "aws-public-fallback"])
        \/ (unixNanos start < unixNanos end_
            /\ exists projected,
                getProjectedForResource ext resource = Ok projected
                /\ let runtimeHours := Hours (Sub (AsTime end_) (AsTime start)) in
                   let cost :=
                     (GetProjectedCostResponse.CostPerMonth projected
                      * (runtimeHours / 730))%float in
                   resp = GetActualCostResponse.mk
                            [ActualCostResult.mk (Some start) cost runtimeHours "hours"
                               (formatActualBillingDetail ext
                                  (GetProjectedCostResponse.BillingDetail projected)
                                  runtimeHours cost)])).
Proof.
  unfold GetActualCost, windowInRange. intros Hrange.
  destruct (GetActualCostRequest.Start req) as [start|]; [|discriminate].
  destruct (GetActualCostRequest.End req) as [end_|]; [|discriminate].
  assert (Rs : inTimeRange start) by auto.
  assert (Re : inTimeRange end_) by auto.
  destruct (Z.lt_ge_cases (unixNanos end_) (unixNanos start)) as [Hlt | Hge].
  - apply Before_unixNanos in Hlt; [|assumption|assumption].
    rewrite (calculateRuntimeHours_Before ext _ _ Hlt). discriminate.
  - destruct (calculateRuntimeHours_le ext start end_ Rs Re ltac:(lia)) as [-> Hzero].
    destruct (parseResourceFromRequest ext req) as [resource|e]; simpl; [|discriminate].
    destruct (PrimFloat.eqb (Hours (Sub (AsTime end_) (AsTime start))) 0) eqn:E.
    + intros [= <-]. exists start, end_, resource.
      split; [reflexivity|]. split; [reflexivity|]. split; [reflexivity|].
      left. split; [apply Hzero; reflexivity | reflexivity].
    + destruct (getProjectedForResource ext resource) as [projected|e] eqn:Ep; simpl;
        [|discriminate].
      intros [= <-]. exists start, end_, resource.
      split; [reflexivity|]. split; [reflexivity|]. split; [reflexivity|].
      right. split.
      * destruct (Z.eq_dec (unixNanos end_) (unixNanos start)) as [Heq|Hne]; [|lia].
        apply Hzero in Heq. discriminate.
      * exists projected. split; [exact Ep | reflexivity].
Qed.

Lemma GetActualCost_Ok_cases_witness :
  exists start end_ resource,
    GetActualCostRequest.Start Sample.reqTagsZero = Some start
    /\ GetActualCostRequest.End Sample.reqTagsZero = Some end_
    /\ parseResourceFromRequest Sample.ext Sample.reqTagsZero = Ok resource
    /\ unixNanos end_ = unixNanos start.
Proof.
  destruct (GetActualCost_Ok_cases Sample.ext Sample.reqTagsZero
              (GetActualCostResponse.mk
                 [ActualCostResult.mk (Some Sample.t0) 0 0 "" "aws-public-fallback"]))
    as (start & end_ & resource & Hs & He & Hres & [[Heq _] | [Hlt _]]).
  - intros ts [[= <-] | [= <-]]; in_time_range.
  - vm_compute. reflexivity.
  - exists start, end_, resource. auto.
  - exfalso. injection Hs as <-. injection He as <-. revert Hlt. vm_compute.
    discriminate.
Defined.

(** X10. For timestamps in the range that [AsTime] converts without
    wrap-around, a window that ends before it starts is an invalid-argument
    error of [GetActualCost], whatever the resource. *)
Theorem GetActualCost_rejects_backwards_window
    (ext : Externals) (req : GetActualCostRequest.t) (start end_ : Timestamp) :
  GetActualCostRequest.Start req = Some start ->
  GetActualCostRequest.End req = Some end_ ->
  inTimeRange start ->
  inTimeRange end_ ->
  unixNanos end_ < unixNanos start ->
  GetActualCost ext (Some req)
  = Err (StatusError InvalidArgument
           ("invalid time range: " +:+ runtimeHoursErrorText ext)).
Proof.
  intros Hs He Rs Re Hlt. apply Before_unixNanos in Hlt; [|assumption|assumption].
  unfold GetActualCost.
  rewrite Hs, He, (calculateRuntimeHours_Before ext _ _ Hlt). reflexivity.
Qed.

Lemma GetActualCost_rejects_backwards_window_witness :
  GetActualCost Sample.ext (Some Fixtures.reqBackwards)
  = Err (StatusError InvalidArgument
           "invalid time range: end time is before start time").
Proof.
  apply (GetActualCost_rejects_backwards_window Sample.ext Fixtures.reqBackwards
           Sample.t0_plus_24h Sample.t0);
    first [in_time_range | vm_compute; reflexivity].
Defined.

(** X11. The resource is resolved before the length of the window is looked
    at: for timestamps in the range that [AsTime] converts without
    wrap-around, on a window that does not end before it starts, an error of
    [parseResourceFromRequest] is the error of [GetActualCost], also when the
    window is empty and no price would be needed. *)
Theorem GetActualCost_unresolved_resource
    (ext : Externals) (req : GetActualCostRequest.t) (start end_ : Timestamp)
    (err : error) :
  GetActualCostRequest.Start req = Some start ->
  GetActualCostRequest.End req = Some end_ ->
  inTimeRange start ->
  inTimeRange end_ ->
  unixNanos start <= unixNanos end_ ->
  parseResourceFromRequest ext req = Err err ->
  GetActualCost ext (Some req) = Err err.
Proof.
  intros Hs He Rs Re Hle Hres. unfold GetActualCost. rewrite Hs, He.
  destruct (calculateRuntimeHours_le ext start end_ Rs Re Hle) as [-> _].
  rewrite Hres. reflexivity.
Qed.

Lemma GetActualCost_unresolved_resource_witness :
  GetActualCost Sample.ext (Some Fixtures.reqNoSkuZero)
  = Err (StatusError InvalidArgument incompleteResourceText).
Proof.
  apply (GetActualCost_unresolved_resource Sample.ext Fixtures.reqNoSkuZero
           Sample.t0 Sample.t0);
    first [in_time_range | vm_compute; (reflexivity || discriminate)].
Defined.

(** X12. For timestamps in the range that [AsTime] converts without
    wrap-around, on a window of positive length, an error of the estimator
    for the resolved resource is the error of [GetActualCost]: a resource
    that cannot be priced is never answered with a cost. *)
Theorem GetActualCost_unpriced_resource
    (ext : Externals) (req : GetActualCostRequest.t) (start end_ : Timestamp)
    (resource : ResourceDescriptor.t) (err : error) :
  GetActualCostRequest.Start req = Some start ->
  GetActualCostRequest.End req = Some end_ ->
  inTimeRange start ->
  inTimeRange end_ ->
  unixNanos start < unixNanos end_ ->
  parseResourceFromRequest ext req = Ok resource ->
  getProjectedForResource ext resource = Err err ->
  GetActualCost ext (Some req) = Err err.
Proof.
  intros Hs He Rs Re Hlt Hres Hproj. unfold GetActualCost. rewrite Hs, He.
  destruct (calculateRuntimeHours_le ext start end_ Rs Re ltac:(lia)) as [-> Hzero].
  rewrite Hres. simpl.
  destruct (PrimFloat.eqb (Hours (Sub (AsTime end_) (AsTime start))) 0) eqn:E.
  - pose proof (proj1 Hzero eq_refl). lia.
  - rewrite Hproj. reflexivity.
Qed.

Lemma GetActualCost_unpriced_resource_witness :
  GetActualCost Sample.ext (Some Fixtures.reqBucketTags)
  = Err (StatusError InvalidArgument "unsupported resource type").
Proof.
  apply (GetActualCost_unpriced_resource Sample.ext Fixtures.reqBucketTags
           Sample.t0 Sample.t0_plus_24h
           (ResourceDescriptor.mk "aws" "s3" "STANDARD" "us-east-1" (Some ∅)));
    first [in_time_range | vm_compute; (reflexivity || discriminate)].
Defined.

(** ** The tag fallback *)

Lemma index_nonempty (m : gmap string string) (k : string) :
  index (Some m) k <> "" <-> exists v, m !! k = Some v /\ v <> "".
Proof.
  unfold index. simpl. destruct (m !! k) as [v|]; simpl; split.
  - eauto.
  - intros (v' & [= <-] & Hv). exact Hv.
  - congruence.
  - intros (v' & [=] & _).
Qed.

Lemma index_Some (m : gmap string string) (k v : string) :
  m !! k = Some v -> index (Some m) k = v.
Proof. intros H. unfold index. simpl. rewrite H. reflexivity. Qed.

(** What a success of the tag fallback was read from. *)
Lemma parseResourceFromTags_fields (tags : option (gmap string string))
    (d : ResourceDescriptor.t) :
  parseResourceFromTags tags = Ok d ->
  exists m provider resourceType sku rg,
    tags = Some m
    /\ m !! "provider" = Some provider /\ provider <> ""
    /\ m !! "resource_type" = Some resourceType /\ resourceType <> ""
    /\ m !! "sku" = Some sku /\ sku <> ""
    /\ m !! "region" = Some rg /\ rg <> ""
    /\ d = ResourceDescriptor.mk provider resourceType sku rg
             (Some (copyTagsExcept descriptorTagKeys (Some m))).
Proof.
  intros (m & -> & -> & Hc)%parseResourceFromTags_Ok.
  apply incomplete_false in Hc as (Hp & Ht & Hs & Hr). simpl in *.
  apply index_nonempty in Hp as (provider & Hp & Hp').
  apply index_nonempty in Ht as (resourceType & Ht & Ht').
  apply index_nonempty in Hs as (sku & Hs & Hs').
  apply index_nonempty in Hr as (rg & Hr & Hr').
  exists m, provider, resourceType, sku, rg.
  unfold descriptorFromTags.
  rewrite (index_Some _ _ _ Hp), (index_Some _ _ _ Ht),
    (index_Some _ _ _ Hs), (index_Some _ _ _ Hr).
  auto 12.
Qed.

(** X13. The tag fallback resolves a resource exactly when the tag map is
    there and holds non-empty values under [provider], [resource_type], [sku]
    and [region] (a key with an empty value counts as missing); the four
    fields of the descriptor are then these values. *)
Theorem parseResourceFromTags_iff (tags : option (gmap string string))
    (d : ResourceDescriptor.t) :
  parseResourceFromTags tags = Ok d <->
  exists m provider resourceType sku rg,
    tags = Some m
    /\ m !! "provider" = Some provider /\ provider <> ""
    /\ m !! "resource_type" = Some resourceType /\ resourceType <> ""
    /\ m !! "sku" = Some sku /\ sku <> ""
    /\ m !! "region" = Some rg /\ rg <> ""
    /\ d = ResourceDescriptor.mk provider resourceType sku rg
             (Some (copyTagsExcept descriptorTagKeys (Some m))).
Proof.
  split.
  - apply parseResourceFromTags_fields.
  - intros (m & provider & resourceType & sku & rg & -> & Hp & Hp' & Ht & Ht'
            & Hs & Hs' & Hr & Hr' & ->).
    unfold parseResourceFromTags, descriptorFromTags, incomplete. simpl.
    rewrite (index_Some _ _ _ Hp), (index_Some _ _ _ Ht),
      (index_Some _ _ _ Hs), (index_Some _ _ _ Hr).
    rewrite !bool_decide_eq_false_2 by assumption. reflexivity.
Qed.

(** X14. Nothing of the tag map is lost by the tag fallback: putting the four
    fields of the descriptor back under their keys in the tags of the
    descriptor gives the tag map of the request. *)
Theorem parseResourceFromTags_round_trip (m : gmap string string)
    (d : ResourceDescriptor.t) :
  parseResourceFromTags (Some m) = Ok d ->
  exists rest,
    ResourceDescriptor.Tags d = Some rest
    /\ <[ "provider" := ResourceDescriptor.Provider d ]>
         (<[ "resource_type" := ResourceDescriptor.ResourceType d ]>
            (<[ "sku" := ResourceDescriptor.Sku d ]>
               (<[ "region" := ResourceDescriptor.Region d ]> rest)))
       = m.
Proof.
  intros (m' & provider & resourceType & sku & rg & [= <-] & Hp & _ & Ht & _
          & Hs & _ & Hr & _ & ->)%parseResourceFromTags_fields.
  simpl. eexists. split; [reflexivity|].
  apply map_eq. intros k.
  destruct (decide (k = "provider")) as [-> | H1];
    [rewrite lookup_insert_eq; auto|rewrite lookup_insert_ne by auto].
  destruct (decide (k = "resource_type")) as [-> | H2];
    [rewrite lookup_insert_eq; auto|rewrite lookup_insert_ne by auto].
  destruct (decide (k = "sku")) as [-> | H3];
    [rewrite lookup_insert_eq; auto|rewrite lookup_insert_ne by auto].
  destruct (decide (k = "region")) as [-> | H4];
    [rewrite lookup_insert_eq; auto|rewrite lookup_insert_ne by auto].
  rewrite copyTagsExcept_kept; [reflexivity|].
  unfold descriptorTagKeys. rewrite !not_elem_of_cons.
  repeat split; auto. apply not_elem_of_nil.
Qed.

Lemma parseResourceFromTags_round_trip_witness :
  exists d rest,
    parseResourceFromTags (Some Fixtures.webTags) = Ok d
    /\ ResourceDescriptor.Tags d = Some rest
    /\ <[ "provider" := "aws" ]>
         (<[ "resource_type" := "ec2" ]>
            (<[ "sku" := "t3.micro" ]> (<[ "region" := "us-east-1" ]> rest)))
       = Fixtures.webTags.
Proof.
  destruct (parseResourceFromTags (Some Fixtures.webTags)) as [d|e] eqn:E.
  - destruct (parseResourceFromTags_round_trip Fixtures.webTags d E)
      as (rest & Hrest & Hm).
    exists d, rest. split; [reflexivity|]. split; [exact Hrest|].
    vm_compute in E. injection E as <-. exact Hm.
  - vm_compute in E. discriminate.
Defined.

(** ** The recommendation generators *)

Lemma Atoi_inInt64 (s : string) (n : Z) :
  Strconv.Atoi s = Some n -> minInt64 <= n <= maxInt64.
Proof.
  unfold Strconv.Atoi.
  match goal with |- context [mbind _ ?x] => destruct x as [k|] end; simpl;
    [|discriminate].
  destruct (inInt64 k) eqn:E; [|discriminate].
  intros [= <-]. unfold inInt64 in E.
  apply andb_true_iff in E as [H1%Z.leb_le H2%Z.leb_le]. auto.
Qed.

(** X15. The volume size used for a recommendation is always a positive
    [int]. The [size] tag decides when it is present, and the [volume_size]
    tag only when [size] is absent: a deciding value that reads as a number
    above zero is the size; one that does not read as a number, or reads as
    zero or less, gives the default of 100, and [volume_size] is not tried in
    its place; with neither tag the size is 100. *)
Theorem ebsSizeGB_positive (tags : option (gmap string string)) :
  let decides (sizeStr : string) : Prop :=
    (forall n, Strconv.Atoi sizeStr = Some n -> 0 < n -> ebsSizeGB tags = n)
    /\ (forall n, Strconv.Atoi sizeStr = Some n -> n <= 0 -> ebsSizeGB tags = 100)
    /\ (Strconv.Atoi sizeStr = None -> ebsSizeGB tags = 100) in
  1 <= ebsSizeGB tags <= maxInt64
  /\ (forall sizeStr, commaOk tags "size" = Some sizeStr -> decides sizeStr)
  /\ (forall sizeStr,
        commaOk tags "size" = None ->
        commaOk tags "volume_size" = Some sizeStr ->
        decides sizeStr)
  /\ (commaOk tags "size" = None -> commaOk tags "volume_size" = None ->
      ebsSizeGB tags = 100).
Proof.
  assert (Hparsed : forall s,
             1 <= match Strconv.Atoi s with
                  | Some parsed => if 0 <? parsed then parsed else defaultEBSVolumeGB
                  | None => defaultEBSVolumeGB
                  end <= maxInt64).
  { intros s. destruct (Strconv.Atoi s) as [n|] eqn:E.
    - apply Atoi_inInt64 in E. destruct (0 <? n) eqn:E0.
      + apply Z.ltb_lt in E0. lia.
      + unfold defaultEBSVolumeGB, maxInt64. lia.
    - unfold defaultEBSVolumeGB, maxInt64. lia. }
  assert (Hdecides : forall s,
             (forall n, Strconv.Atoi s = Some n -> 0 < n ->
                        match Strconv.Atoi s with
                        | Some parsed =>
                            if 0 <? parsed then parsed else defaultEBSVolumeGB
                        | None => defaultEBSVolumeGB
                        end = n)
             /\ (forall n, Strconv.Atoi s = Some n -> n <= 0 ->
                           match Strconv.Atoi s with
                           | Some parsed =>
                               if 0 <? parsed then parsed else defaultEBSVolumeGB
                           | None => defaultEBSVolumeGB
                           end = 100)
             /\ (Strconv.Atoi s = None ->
                 match Strconv.Atoi s with
                 | Some parsed => if 0 <? parsed then parsed else defaultEBSVolumeGB
                 | None => defaultEBSVolumeGB
                 end = 100)).
  { intros s. split; [|split].
    - intros n -> Hn. apply Z.ltb_lt in Hn. rewrite Hn. reflexivity.
    - intros n -> Hn. apply Z.ltb_ge in Hn. rewrite Hn. reflexivity.
    - intros ->. reflexivity. }
  unfold ebsSizeGB. simpl. split; [|split; [|split]].
  - destruct (commaOk tags "size"); [apply Hparsed|].
    destruct (commaOk tags "volume_size"); [apply Hparsed|].
    unfold defaultEBSVolumeGB, maxInt64. lia.
  - intros sizeStr ->. apply Hdecides.
  - intros sizeStr -> ->. apply Hdecides.
  - intros -> ->. reflexivity.
Qed.

Lemma ebsSizeGB_positive_witness :
  ebsSizeGB (Some (<[ "size" := "x" ]> {[ "volume_size" := "250" ]})) = 100
  /\ ebsSizeGB (Some (<[ "size" := "-5" ]> {[ "volume_size" := "250" ]})) = 100
  /\ ebsSizeGB (Some {[ "volume_size" := "250" ]}) = 250.
Proof.
  split; [|split].
  - destruct (ebsSizeGB_positive (Some (<[ "size" := "x" ]> {[ "volume_size" := "250" ]})))
      as (_ & Hsize & _).
    apply (proj2 (proj2 (Hsize "x" ltac:(vm_compute; reflexivity)))).
    vm_compute. reflexivity.
  - destruct (ebsSizeGB_positive
                (Some (<[ "size" := "-5" ]> {[ "volume_size" := "250" ]})))
      as (_ & Hsize & _).
    apply (proj1 (proj2 (Hsize "-5" ltac:(vm_compute; reflexivity))) (-5));
      [vm_compute; reflexivity | lia].
  - destruct (ebsSizeGB_positive (Some {[ "volume_size" := "250" ]}))
      as (_ & _ & Hvolume & _).
    apply (proj1 (Hvolume "250" ltac:(vm_compute; reflexivity)
                    ltac:(vm_compute; reflexivity)) 250);
      [vm_compute; reflexivity | lia].
Defined.

(** X16. A generation-upgrade recommendation is emitted exactly when the
    instance type has a family with an entry in the upgrade table, the rates
    of the current and of the upgraded type are both found, and the upgraded
    rate is not greater than the current one. *)
Theorem getGenerationUpgradeRecommendation_emitted_iff
    (ext : Externals) (p : AWSPublicPlugin) (id instanceType region_ : string) :
  is_Some (getGenerationUpgradeRecommendation ext p id instanceType region_) <->
  exists newFamily currentPrice newPrice,
    (parseInstanceType ext instanceType).1 <> ""
    /\ generationUpgradeMap !! (parseInstanceType ext instanceType).1 = Some newFamily
    /\ EC2OnDemandPricePerHour (pricing p) instanceType "Linux" "Shared"
       = (currentPrice, true)
    /\ EC2OnDemandPricePerHour (pricing p)
         (newFamily +:+ "." +:+ (parseInstanceType ext instanceType).2)
         "Linux" "Shared"
       = (newPrice, true)
    /\ fgt newPrice currentPrice = false.
Proof.
  unfold getGenerationUpgradeRecommendation.
  destruct (parseInstanceType ext instanceType) as [family size]; simpl.
  split.
  - case_bool_decide as Hf; [intros [? [=]]|].
    destruct (generationUpgradeMap !! family) as [newFamily|]; [|intros [? [=]]].
    destruct (EC2OnDemandPricePerHour (pricing p) instanceType "Linux" "Shared")
      as [currentPrice [|]]; simpl; [|intros [? [=]]].
    destruct (EC2OnDemandPricePerHour (pricing p) (newFamily +:+ "." +:+ size)
                "Linux" "Shared") as [newPrice [|]] eqn:Enew; simpl; [|intros [? [=]]].
    destruct (fgt newPrice currentPrice) eqn:Egt; [intros [? [=]]|].
    intros _. exists newFamily, currentPrice, newPrice. auto.
  - intros (newFamily & currentPrice & newPrice & Hf & -> & -> & Hnew & Hgt).
    rewrite bool_decide_eq_false_2 by exact Hf. simpl.
    rewrite Hnew. simpl. rewrite Hgt. eauto.
Qed.

(** X17. A Graviton recommendation is emitted exactly when the instance type
    has a family with an entry in the Graviton table, the rates of the
    current and of the Graviton type are both found, and the Graviton rate is
    not greater than the current one. *)
Theorem getGravitonRecommendation_emitted_iff
    (ext : Externals) (p : AWSPublicPlugin) (id instanceType region_ : string) :
  is_Some (getGravitonRecommendation ext p id instanceType region_) <->
  exists gravitonFamily currentPrice gravitonPrice,
    (parseInstanceType ext instanceType).1 <> ""
    /\ gravitonMap !! (parseInstanceType ext instanceType).1 = Some gravitonFamily
    /\ EC2OnDemandPricePerHour (pricing p) instanceType "Linux" "Shared"
       = (currentPrice, true)
    /\ EC2OnDemandPricePerHour (pricing p)
         (gravitonFamily +:+ "." +:+ (parseInstanceType ext instanceType).2)
         "Linux" "Shared"
       = (gravitonPrice, true)
    /\ fgt gravitonPrice currentPrice = false.
Proof.
  unfold getGravitonRecommendation.
  destruct (parseInstanceType ext instanceType) as [family size]; simpl.
  split.
  - case_bool_decide as Hf; [intros [? [=]]|].
    destruct (gravitonMap !! family) as [gravitonFamily|]; [|intros [? [=]]].
    destruct (EC2OnDemandPricePerHour (pricing p) instanceType "Linux" "Shared")
      as [currentPrice [|]]; simpl; [|intros [? [=]]].
    destruct (EC2OnDemandPricePerHour (pricing p) (gravitonFamily +:+ "." +:+ size)
                "Linux" "Shared") as [gravitonPrice [|]] eqn:Enew; simpl;
      [|intros [? [=]]].
    destruct (fgt gravitonPrice currentPrice) eqn:Egt; [intros [? [=]]|].
    intros _. exists gravitonFamily, currentPrice, gravitonPrice. auto.
  - intros (gravitonFamily & currentPrice & gravitonPrice & Hf & -> & -> & Hnew & Hgt).
    rewrite bool_decide_eq_false_2 by exact Hf. simpl.
    rewrite Hnew. simpl. rewrite Hgt. eauto.
Qed.

(** X18. A volume recommendation is emitted exactly for the volume type
    [gp2] when the rates of [gp2] and [gp3] are both found and the [gp3] rate
    is not greater; there is never more than one, and it proposes [gp3] at
    the size read from the tags. *)
Theorem getEBSRecommendations_emitted_iff
    (ext : Externals) (p : AWSPublicPlugin) (id volumeType region_ : string)
    (tags : option (gmap string string)) :
  (length (getEBSRecommendations ext p id volumeType region_ tags) <= 1)%nat
  /\ (getEBSRecommendations ext p id volumeType region_ tags <> [] <->
      volumeType = "gp2"
      /\ exists gp2Price gp3Price,
          EBSPricePerGBMonth (pricing p) "gp2" = (gp2Price, true)
          /\ EBSPricePerGBMonth (pricing p) "gp3" = (gp3Price, true)
          /\ fgt gp3Price gp2Price = false)
  /\ (forall rec,
        rec ∈ getEBSRecommendations ext p id volumeType region_ tags ->
        ModifyAction.RecommendedConfig (Recommendation.Modify rec)
        = <[ "volume_type" := "gp3" ]>
            {[ "size_gb" := Strconv.Itoa (ebsSizeGB tags) ]}).
Proof.
  unfold getEBSRecommendations.
  case_bool_decide as Hvt; simpl.
  - destruct (EBSPricePerGBMonth (pricing p) "gp2") as [gp2Price [|]]; simpl.
    + destruct (EBSPricePerGBMonth (pricing p) "gp3") as [gp3Price [|]]; simpl.
      * destruct (fgt gp3Price gp2Price) eqn:Egt.
        -- split; [simpl; lia|]. split; [|intros rec H; inversion H].
           split; [congruence|].
           intros (_ & a & b & [= <-] & [= <-] & Hgt). congruence.
        -- split; [simpl; lia|]. split.
           ++ split; [|discriminate]. intros _. split; [exact Hvt|]. eauto.
           ++ intros rec ->%list_elem_of_singleton. reflexivity.
      * split; [simpl; lia|]. split; [|intros rec H; inversion H].
        split; [congruence|]. intros (_ & a & b & _ & [=] & _).
    + split; [simpl; lia|]. split; [|intros rec H; inversion H].
      split; [congruence|]. intros (_ & a & b & [=] & _).
  - split; [simpl; lia|]. split; [|intros rec H; inversion H].
    split; [congruence|]. intros (Hgp2 & _). contradiction.
Qed.

Lemma generateEC2Recommendations_length
    (ext : Externals) (p : AWSPublicPlugin) (n : nat) (instanceType region_ : string) :
  (length (generateEC2Recommendations ext p n instanceType region_) <= 2)%nat.
Proof.
  unfold generateEC2Recommendations.
  destruct (getGenerationUpgradeRecommendation ext p (uuidNew ext n) instanceType region_);
    match goal with
    | |- context [getGravitonRecommendation ext p ?i instanceType region_] =>
        destruct (getGravitonRecommendation ext p i instanceType region_)
    end; simpl; lia.
Qed.

Lemma getEBSRecommendations_length
    (ext : Externals) (p : AWSPublicPlugin) (id volumeType region_ : string)
    (tags : option (gmap string string)) :
  (length (getEBSRecommendations ext p id volumeType region_ tags) <= 1)%nat.
Proof.
  unfold getEBSRecommendations.
  case_bool_decide; simpl; [|lia].
  destruct (EBSPricePerGBMonth (pricing p) "gp2") as [gp2Price [|]]; simpl; [|lia].
  destruct (EBSPricePerGBMonth (pricing p) "gp3") as [gp3Price [|]]; simpl; [|lia].
  destruct (fgt gp3Price gp2Price); simpl; lia.
Qed.

(** The fixed fields of an emitted generation-upgrade recommendation. *)
Lemma getGenerationUpgradeRecommendation_fields
    (ext : Externals) (p : AWSPublicPlugin) (id instanceType region_ : string)
    (rec : Recommendation.t) :
  getGenerationUpgradeRecommendation ext p id instanceType region_ = Some rec ->
  Recommendation.Id rec = id
  /\ Recommendation.Resource rec
     = ResourceRecommendationInfo.mk "aws" "ec2" region_ instanceType
  /\ ModifyAction.ModificationType (Recommendation.Modify rec) = modTypeGenUpgrade
  /\ Recommendation.Source rec = sourceAWSPublic
  /\ RecommendationImpact.Currency (Recommendation.Impact rec) = "USD"
  /\ RecommendationImpact.ProjectionPeriod (Recommendation.Impact rec) = "monthly".
Proof.
  unfold getGenerationUpgradeRecommendation.
  destruct (parseInstanceType ext instanceType) as [family size]; simpl.
  case_bool_decide; [discriminate|].
  destruct (generationUpgradeMap !! family) as [newFamily|]; [|discriminate].
  destruct (EC2OnDemandPricePerHour (pricing p) instanceType "Linux" "Shared")
    as [currentPrice [|]]; simpl; [|discriminate].
  destruct (EC2OnDemandPricePerHour (pricing p) (newFamily +:+ "." +:+ size)
              "Linux" "Shared") as [newPrice [|]]; simpl; [|discriminate].
  destruct (fgt newPrice currentPrice); [discriminate|].
  intros [= <-]. simpl. repeat split.
Qed.

(** The fixed fields of an emitted Graviton recommendation. *)
Lemma getGravitonRecommendation_fields
    (ext : Externals) (p : AWSPublicPlugin) (id instanceType region_ : string)
    (rec : Recommendation.t) :
  getGravitonRecommendation ext p id instanceType region_ = Some rec ->
  Recommendation.Id rec = id
  /\ Recommendation.Resource rec
     = ResourceRecommendationInfo.mk "aws" "ec2" region_ instanceType
  /\ ModifyAction.ModificationType (Recommendation.Modify rec) = modTypeGraviton
  /\ Recommendation.Source rec = sourceAWSPublic
  /\ RecommendationImpact.Currency (Recommendation.Impact rec) = "USD"
  /\ RecommendationImpact.ProjectionPeriod (Recommendation.Impact rec) = "monthly".
Proof.
  unfold getGravitonRecommendation.
  destruct (parseInstanceType ext instanceType) as [family size]; simpl.
  case_bool_decide; [discriminate|].
  destruct (gravitonMap !! family) as [gravitonFamily|]; [|discriminate].
  destruct (EC2OnDemandPricePerHour (pricing p) instanceType "Linux" "Shared")
    as [currentPrice [|]]; simpl; [|discriminate].
  destruct (EC2OnDemandPricePerHour (pricing p) (gravitonFamily +:+ "." +:+ size)
              "Linux" "Shared") as [gravitonPrice [|]]; simpl; [|discriminate].
  destruct (fgt gravitonPrice currentPrice); [discriminate|].
  intros [= <-]. simpl. repeat split.
Qed.

(** The fixed fields of an emitted volume recommendation. *)
Lemma getEBSRecommendations_fields
    (ext : Externals) (p : AWSPublicPlugin) (id volumeType region_ : string)
    (tags : option (gmap string string)) (rec : Recommendation.t) :
  rec ∈ getEBSRecommendations ext p id volumeType region_ tags ->
  Recommendation.Id rec = id
  /\ Recommendation.Resource rec
     = ResourceRecommendationInfo.mk "aws" "ebs" region_ volumeType
  /\ ModifyAction.ModificationType (Recommendation.Modify rec) = modTypeVolumeUpgrade
  /\ Recommendation.Source rec = sourceAWSPublic
  /\ RecommendationImpact.Currency (Recommendation.Impact rec) = "USD"
  /\ RecommendationImpact.ProjectionPeriod (Recommendation.Impact rec) = "monthly".
Proof.
  unfold getEBSRecommendations.
  case_bool_decide; simpl; [|intros H'; inversion H'].
  destruct (EBSPricePerGBMonth (pricing p) "gp2") as [gp2Price [|]]; simpl;
    [|intros H'; inversion H'].
  destruct (EBSPricePerGBMonth (pricing p) "gp3") as [gp3Price [|]]; simpl;
    [|intros H'; inversion H'].
  destruct (fgt gp3Price gp2Price); [intros H'; inversion H'|].
  intros ->%list_elem_of_singleton. simpl. repeat split.
Qed.

(** X19. For an instance type there are at most two recommendations; the
    one at position [i] carries the [i]-th identifier drawn, and a generation
    upgrade always comes before a Graviton migration. *)
Theorem generateEC2Recommendations_order
    (ext : Externals) (p : AWSPublicPlugin) (n : nat) (instanceType region_ : string) :
  let recs := generateEC2Recommendations ext p n instanceType region_ in
  (length recs <= 2)%nat
  /\ (forall i rec, recs !! i = Some rec ->
        Recommendation.Id rec = uuidNew ext (n + i)%nat)
  /\ (forall i j a b,
        recs !! i = Some a -> recs !! j = Some b ->
        ModifyAction.ModificationType (Recommendation.Modify a) = modTypeGenUpgrade ->
        ModifyAction.ModificationType (Recommendation.Modify b) = modTypeGraviton ->
        (i < j)%nat).
Proof.
  unfold generateEC2Recommendations.
  destruct (getGenerationUpgradeRecommendation ext p (uuidNew ext n) instanceType region_)
    as [r1|] eqn:E1;
    match goal with
    | |- context [getGravitonRecommendation ext p ?i instanceType region_] =>
        destruct (getGravitonRecommendation ext p i instanceType region_)
          as [r2|] eqn:E2
    end; simpl;
    try (apply getGenerationUpgradeRecommendation_fields in E1
           as (Hid1 & _ & Hm1 & _));
    try (apply getGravitonRecommendation_fields in E2 as (Hid2 & _ & Hm2 & _));
    (split; [lia|]); split.
  - intros [|[|i]] rec; simpl; intros [=]; subst rec.
    + rewrite Hid1. f_equal. lia.
    + rewrite Hid2. reflexivity.
  - intros [|[|i]] [|[|j]] a b; simpl; intros [=] [=]; subst a b; intros Ha Hb;
      try lia; unfold modTypeGenUpgrade, modTypeGraviton in *; congruence.
  - intros [|i] rec; simpl; intros [=]; subst rec.
    rewrite Hid1. f_equal. lia.
  - intros [|i] [|j] a b; simpl; intros [=] [=]; subst a b; intros Ha Hb.
    unfold modTypeGenUpgrade, modTypeGraviton in *. congruence.
  - intros [|i] rec; simpl; intros [=]; subst rec.
    rewrite Hid2. f_equal; simpl; lia.
  - intros [|i] [|j] a b; simpl; intros [=] [=]; subst a b; intros Ha Hb.
    unfold modTypeGenUpgrade, modTypeGraviton in *. congruence.
  - intros i rec [=].
  - intros i j a b [=].
Qed.

(** X20. Every recommendation of a response describes the resource of the
    filter: the provider is [aws], the SKU is the filter's, the region is the
    filter's or, when that is empty, the plugin's, and the resource type is
    the detected service, which is [ec2] or [ebs]; it is attributed to
    [aws-public] and its impact is in USD per month. The response holds at
    most two recommendations, and the filter's SKU is not empty. *)
Theorem GetRecommendations_describes_filter
    (ext : Externals) (p : AWSPublicPlugin) (traceID : string)
    (req : GetRecommendationsRequest.t) (resp : GetRecommendationsResponse.t)
    (rec : Recommendation.t) :
  GetRecommendations ext p traceID (Some req) = Ok resp ->
  rec ∈ GetRecommendationsResponse.Recommendations resp ->
  exists filter_,
    GetRecommendationsRequest.Filter req = Some filter_
    /\ RecommendationFilter.Sku filter_ <> ""
    /\ (let service := detectService ext (RecommendationFilter.ResourceType filter_) in
        (service = "ec2" \/ service = "ebs")
        /\ Recommendation.Resource rec
           = ResourceRecommendationInfo.mk "aws" service
               (if bool_decide (RecommendationFilter.Region filter_ = "")
                then region p else RecommendationFilter.Region filter_)
               (RecommendationFilter.Sku filter_))
    /\ Recommendation.Source rec = "aws-public"
    /\ RecommendationImpact.Currency (Recommendation.Impact rec) = "USD"
    /\ RecommendationImpact.ProjectionPeriod (Recommendation.Impact rec) = "monthly"
    /\ (length (GetRecommendationsResponse.Recommendations resp) <= 2)%nat.
Proof.
  unfold GetRecommendations. intros [= <-]. simpl.
  unfold recommendationsFor.
  destruct (GetRecommendationsRequest.Filter req) as [f|]; [|intros H'; inversion H'].
  case_bool_decide as Hsku; [intros H'; inversion H'|].
  case_bool_decide as Hec2.
  - intros Hin. exists f. split; [reflexivity|]. split; [exact Hsku|].
    pose proof (generateEC2Recommendations_elem _ _ _ _ _ _ Hin) as [[id Hg] | [id Hg]].
    + apply getGenerationUpgradeRecommendation_fields in Hg
        as (_ & Hres & _ & Hsrc & Hcur & Hper).
      rewrite Hec2. repeat split; auto.
      match goal with
      | |- (length (generateEC2Recommendations ?e ?q ?n ?i ?r) <= 2)%nat =>
          exact (generateEC2Recommendations_length e q n i r)
      end.
    + apply getGravitonRecommendation_fields in Hg
        as (_ & Hres & _ & Hsrc & Hcur & Hper).
      rewrite Hec2. repeat split; auto.
      match goal with
      | |- (length (generateEC2Recommendations ?e ?q ?n ?i ?r) <= 2)%nat =>
          exact (generateEC2Recommendations_length e q n i r)
      end.
  - case_bool_decide as Hebs; [|intros H'; inversion H'].
    intros Hin. exists f. split; [reflexivity|]. split; [exact Hsku|].
    pose proof (getEBSRecommendations_fields _ _ _ _ _ _ _ Hin)
      as (_ & Hres & _ & Hsrc & Hcur & Hper).
    rewrite Hebs. repeat split; auto.
    match goal with
    | |- (length (getEBSRecommendations ?e ?q ?i ?v ?r ?t) <= 2)%nat =>
        pose proof (getEBSRecommendations_length e q i v r t); lia
    end.
Qed.

Lemma GetRecommendations_describes_filter_witness :
  Forall
    (fun rec =>
       Recommendation.Resource rec
       = ResourceRecommendationInfo.mk "aws" "ec2" "us-east-1" "t2.micro")
    (recommendationsFor Sample.ext Sample.plugin (Sample.filterOf "ec2" "t2.micro" None)).
Proof.
  apply Forall_forall. intros rec Hin.
  destruct (GetRecommendations_describes_filter Sample.ext Sample.plugin "trace-1"
              (Sample.filterOf "ec2" "t2.micro" None) _ rec eq_refl Hin)
    as (f & Hf & _ & (_ & Hres) & _).
  injection Hf as <-. exact Hres.
Defined.

(** ** The projected-cost validation *)

(** X21. [ValidateProjectedCostRequest] returns a descriptor exactly when
    the SDK check passes and the resource of the request is in the region of
    the plugin, and the descriptor is that resource, unchanged. It fails to
    return only when the SDK check lets a request without a resource through.
    Its errors are an invalid-argument error with the code
    [ERROR_CODE_INVALID_RESOURCE] carrying the text of the SDK, or, for a
    resource of another region, what [RegionMismatchError] builds: the
    region-mismatch status with its details when they can be attached, and
    the bare [FailedPrecondition] status otherwise. *)
Theorem ValidateProjectedCostRequest_outcomes
    (sdk : option GetProjectedCostRequest.t -> option error)
    (ext : Externals) (p : AWSPublicPlugin) (traceID : string)
    (req : option GetProjectedCostRequest.t) :
  (forall d,
      ValidateProjectedCostRequest sdk ext p traceID req = Some (Ok d) <->
      sdk req = None
      /\ req ≫= GetProjectedCostRequest.Resource = Some d
      /\ ResourceDescriptor.Region d = region p)
  /\ (ValidateProjectedCostRequest sdk ext p traceID req = None <->
      sdk req = None /\ req ≫= GetProjectedCostRequest.Resource = None)
  /\ (forall e,
        ValidateProjectedCostRequest sdk ext p traceID req = Some (Err e) <->
        (exists err,
            sdk req = Some err
            /\ e = ErrorWithID traceID InvalidArgument (ErrorText err)
                     ERROR_CODE_INVALID_RESOURCE)
        \/ (exists d,
              sdk req = None
              /\ req ≫= GetProjectedCostRequest.Resource = Some d
              /\ ResourceDescriptor.Region d <> region p
              /\ e = if withDetailsOk ext traceID (region p) (ResourceDescriptor.Region d)
                     then RegionMismatch traceID (region p) (ResourceDescriptor.Region d)
                     else StatusError FailedPrecondition "region mismatch")).
Proof.
  unfold ValidateProjectedCostRequest, RegionMismatchError.
  destruct (sdk req) as [err|].
  - split; [|split].
    + intros d. split; [discriminate|]. intros [[=] _].
    + split; [discriminate|]. intros [[=] _].
    + intros e. split.
      * intros [= <-]. left. eauto.
      * intros [(err' & [= <-] & ->) | (d & [=] & _)]. reflexivity.
  - destruct (req ≫= GetProjectedCostRequest.Resource) as [resource|]; simpl.
    + split; [|split].
      * intros d. case_bool_decide as Hrg; simpl.
        -- split; [intros [= <-]; auto|]. intros (_ & [= <-] & _). reflexivity.
        -- split; [discriminate|]. intros (_ & [= <-] & Hd). contradiction.
      * split; [discriminate|]. intros [_ [=]].
      * intros e. case_bool_decide as Hrg; simpl.
        -- split; [discriminate|].
           intros [(err' & [=] & _) | (d & _ & [= <-] & Hd & _)]. contradiction.
        -- split.
           ++ intros [= <-]. right. exists resource. auto.
           ++ intros [(err' & [=] & _) | (d & _ & [= <-] & _ & ->)]. reflexivity.
    + split; [|split].
      * intros d. split; [discriminate|]. intros (_ & [=] & _).
      * split; auto.
      * intros e. split; [discriminate|].
        intros [(err' & [=] & _) | (d & _ & [=] & _)].
Qed.

(** ** Utilization *)

Lemma SFcompare_refl (x : spec_float) :
  x <> S754_nan -> SFcompare x x = Some Eq.
Proof.
  destruct x as [s|s| |s m e]; simpl; try congruence.
  - intros _. destruct s; reflexivity.
  - intros _. rewrite Z.compare_refl.
    change (Pcompare m m Eq) with (Pos.compare m m). rewrite Pos.compare_refl.
    destruct s; reflexivity.
Qed.

Lemma SFcompare_Some (x y : spec_float) (c : comparison) :
  SFcompare x y = Some c -> x <> S754_nan /\ y <> S754_nan.
Proof.
  destruct x, y; simpl; intros H; split; congruence.
Qed.

Lemma isNaN_false_iff (x : float) :
  isNaN x = false <-> Prim2SF x <> S754_nan.
Proof.
  unfold isNaN. rewrite negb_false_iff, FloatAxioms.eqb_spec. unfold SFeqb. split.
  - intros H Hn. rewrite Hn in H. discriminate.
  - intros H. rewrite (SFcompare_refl _ H). reflexivity.
Qed.

(** A comparison that holds is between two numbers. *)
Lemma ltb_numbers (x y : float) :
  PrimFloat.ltb x y = true -> isNaN x = false /\ isNaN y = false.
Proof.
  rewrite FloatAxioms.ltb_spec, !isNaN_false_iff. unfold SFltb.
  destruct (SFcompare (Prim2SF x) (Prim2SF y)) as [c|] eqn:E; [|discriminate].
  intros _. exact (SFcompare_Some _ _ _ E).
Qed.

Lemma leb_numbers (x y : float) :
  PrimFloat.leb x y = true -> isNaN x = false /\ isNaN y = false.
Proof.
  rewrite FloatAxioms.leb_spec, !isNaN_false_iff. unfold SFleb.
  destruct (SFcompare (Prim2SF x) (Prim2SF y)) as [c|] eqn:E; [|discriminate].
  intros _. exact (SFcompare_Some _ _ _ E).
Qed.

Lemma leb_refl (x : float) : isNaN x = false -> PrimFloat.leb x x = true.
Proof.
  rewrite isNaN_false_iff, FloatAxioms.leb_spec. unfold SFleb.
  intros H. rewrite (SFcompare_refl _ H). reflexivity.
Qed.

Lemma ltb_irrefl (x : float) : PrimFloat.ltb x x = false.
Proof.
  rewrite FloatAxioms.ltb_spec. unfold SFltb.
  destruct (SFcompare (Prim2SF x) (Prim2SF x)) as [c|] eqn:E; [|reflexivity].
  rewrite (SFcompare_refl _ (proj1 (SFcompare_Some _ _ _ E))) in E.
  injection E as <-. reflexivity.
Qed.

Lemma leb_not_ltb (x y : float) :
  PrimFloat.leb x y = true -> PrimFloat.ltb y x = false.
Proof.
  rewrite FloatAxioms.leb_spec, FloatAxioms.ltb_spec. unfold SFleb, SFltb.
  rewrite (SFcompare_antisym (Prim2SF x) (Prim2SF y)).
  destruct (SFcompare (Prim2SF x) (Prim2SF y)) as [[]|]; simpl; congruence.
Qed.

(** [Clamp] between ordered bounds, on a number. *)
Lemma Clamp_range (v lo hi : float) :
  PrimFloat.leb lo hi = true -> isNaN v = false ->
  PrimFloat.leb lo (Carbon.Clamp v lo hi) = true
  /\ PrimFloat.leb (Carbon.Clamp v lo hi) hi = true.
Proof.
  intros Hle Hv. destruct (leb_numbers _ _ Hle) as [Hlo Hhi].
  unfold Carbon.Clamp.
  destruct (PrimFloat.ltb v lo) eqn:E1.
  - split; [apply leb_refl, Hlo | exact Hle].
  - destruct (fgt v hi) eqn:E2.
    + split; [exact Hle | apply leb_refl, Hhi].
    + split.
      * apply fgt_false_leb; auto.
      * apply fgt_false_leb; auto.
Qed.

(** X22. Between bounds [lo <= hi], [Clamp] of a number lies between the
    bounds, both ends included. *)
Theorem Clamp_within_bounds (v lo hi : float) :
  PrimFloat.leb lo hi = true -> isNaN v = false ->
  PrimFloat.leb lo (Carbon.Clamp v lo hi) = true
  /\ PrimFloat.leb (Carbon.Clamp v lo hi) hi = true.
Proof.
  apply Clamp_range.
Qed.

Lemma Clamp_within_bounds_witness :
  PrimFloat.leb 0 (Carbon.Clamp 1.5 0 1) = true
  /\ PrimFloat.leb (Carbon.Clamp 1.5 0 1) 1 = true.
Proof.
  apply (Clamp_within_bounds 1.5 0 1); vm_compute; reflexivity.
Defined.

(** X23. [Clamp] returns a value that is not a number unchanged, whatever
    the bounds; and between bounds [lo <= hi], clamping a second time changes
    nothing. *)
Theorem Clamp_fixed_points (v lo hi : float) :
  (isNaN v = true -> Carbon.Clamp v lo hi = v)
  /\ (PrimFloat.leb lo hi = true ->
      Carbon.Clamp (Carbon.Clamp v lo hi) lo hi = Carbon.Clamp v lo hi).
Proof.
  split.
  - intros Hv. unfold Carbon.Clamp, fgt.
    destruct (PrimFloat.ltb v lo) eqn:E1.
    { apply ltb_numbers in E1 as [E1 _]. congruence. }
    destruct (PrimFloat.ltb hi v) eqn:E2.
    { apply ltb_numbers in E2 as [_ E2]. congruence. }
    reflexivity.
  - intros Hle. pose proof (leb_not_ltb _ _ Hle) as Hgt.
    unfold Carbon.Clamp at 2 3.
    destruct (PrimFloat.ltb v lo) eqn:E1.
    + unfold Carbon.Clamp, fgt. rewrite ltb_irrefl, Hgt. reflexivity.
    + destruct (fgt v hi) eqn:E2.
      * unfold Carbon.Clamp, fgt. rewrite Hgt, ltb_irrefl. reflexivity.
      * unfold Carbon.Clamp. rewrite E1, E2. reflexivity.
Qed.

(** X24. With a default between 0 and 1, the utilization that
    [GetUtilization] returns is always between 0 and 1: a value that is not
    a number, or not above zero, is passed over, and a value above 1 is
    lowered to 1. *)
Theorem GetUtilization_in_unit_interval
    (DefaultUtilization requestUtil : float) (perResourceUtil : option float) :
  PrimFloat.leb 0 DefaultUtilization = true ->
  PrimFloat.leb DefaultUtilization 1 = true ->
  PrimFloat.leb 0 (Carbon.GetUtilization DefaultUtilization requestUtil perResourceUtil)
  = true
  /\ PrimFloat.leb (Carbon.GetUtilization DefaultUtilization requestUtil perResourceUtil) 1
     = true.
Proof.
  intros H0 H1.
  assert (Hunit : PrimFloat.leb 0 1 = true) by (vm_compute; reflexivity).
  assert (Hreq : PrimFloat.leb 0
                   (if fgt requestUtil 0 then Carbon.Clamp requestUtil 0 1
                    else DefaultUtilization) = true
                 /\ PrimFloat.leb
                      (if fgt requestUtil 0 then Carbon.Clamp requestUtil 0 1
                       else DefaultUtilization) 1 = true).
  { destruct (fgt requestUtil 0) eqn:E; [|auto].
    apply Clamp_range; [exact Hunit|]. apply ltb_numbers in E as [_ E]. exact E. }
  unfold Carbon.GetUtilization. destruct perResourceUtil as [u|]; [|exact Hreq].
  destruct (fgt u 0) eqn:E; [|exact Hreq].
  apply Clamp_range; [exact Hunit|]. apply ltb_numbers in E as [_ E]. exact E.
Qed.

Lemma GetUtilization_in_unit_interval_witness :
  PrimFloat.leb 0 (Carbon.GetUtilization 0.5 infinity (Some nan)) = true
  /\ PrimFloat.leb (Carbon.GetUtilization 0.5 infinity (Some nan)) 1 = true.
Proof.
  apply (GetUtilization_in_unit_interval 0.5 infinity (Some nan));
    vm_compute; reflexivity.
Defined.

(** ** Instance specifications *)

(** One row keeps what is stored sound. *)
Lemma parseRow_stored (TrimSpace : string -> string) (ParseFloat : string -> option float)
    (specs : gmap string Carbon.InstanceSpec) (r : Carbon.ReadResult) :
  (forall k spec, specs !! k = Some spec -> storedSpec k spec) ->
  forall k spec,
    Carbon.parseRow TrimSpace ParseFloat specs r !! k = Some spec -> storedSpec k spec.
Proof.
  intros Hspecs k spec. unfold Carbon.parseRow.
  destruct r as [record|]; [|apply Hspecs].
  destruct (length record <=? Carbon.colMaxWatts)%nat; [apply Hspecs|].
  case_bool_decide as Hty; [apply Hspecs|].
  destruct (Strconv.Atoi _) as [vcpuCount|] eqn:Evc; [|apply Hspecs].
  destruct (vcpuCount <? 1) eqn:Elt; [apply Hspecs|].
  destruct (PrimFloat.ltb _ 0) eqn:Emin; simpl; [apply Hspecs|].
  destruct (PrimFloat.ltb _ _) eqn:Emax in |- *; [apply Hspecs|].
  destruct (decide (k = TrimSpace (Carbon.field record Carbon.colInstanceType)))
    as [-> | Hne].
  - rewrite lookup_insert_eq. intros [= <-].
    apply Atoi_inInt64 in Evc. apply Z.ltb_ge in Elt.
    unfold storedSpec. simpl. repeat split; auto; lia.
  - rewrite lookup_insert_ne by congruence. apply Hspecs.
Qed.

Lemma foldl_parseRow_stored (TrimSpace : string -> string)
    (ParseFloat : string -> option float) (rows : list Carbon.ReadResult) :
  forall specs : gmap string Carbon.InstanceSpec,
    (forall k spec, specs !! k = Some spec -> storedSpec k spec) ->
    forall k spec,
      foldl (Carbon.parseRow TrimSpace ParseFloat) specs rows !! k = Some spec ->
      storedSpec k spec.
Proof.
  induction rows as [|r rows IH]; intros specs Hspecs; simpl; [exact Hspecs|].
  apply IH. apply parseRow_stored, Hspecs.
Qed.

Lemma parseRow_size (TrimSpace : string -> string) (ParseFloat : string -> option float)
    (specs : gmap string Carbon.InstanceSpec) (r : Carbon.ReadResult) :
  (size (Carbon.parseRow TrimSpace ParseFloat specs r) <= S (size specs))%nat.
Proof.
  unfold Carbon.parseRow.
  destruct r as [record|]; [|lia].
  destruct (length record <=? Carbon.colMaxWatts)%nat; [lia|].
  case_bool_decide; [lia|].
  destruct (Strconv.Atoi _) as [vcpuCount|]; [|lia].
  destruct (vcpuCount <? 1); [lia|].
  destruct (_ || _); [lia|].
  rewrite map_size_insert.
  match goal with |- context [specs !! ?k] => destruct (specs !! k) end; simpl; lia.
Qed.

Lemma foldl_parseRow_size (TrimSpace : string -> string)
    (ParseFloat : string -> option float) (rows : list Carbon.ReadResult) :
  forall specs : gmap string Carbon.InstanceSpec,
    (size (foldl (Carbon.parseRow TrimSpace ParseFloat) specs rows)
     <= size specs + length rows)%nat.
Proof.
  induction rows as [|r rows IH]; intros specs; simpl; [lia|].
  pose proof (IH (Carbon.parseRow TrimSpace ParseFloat specs r)).
  pose proof (parseRow_size TrimSpace ParseFloat specs r). lia.
Qed.

(** X25. Whatever the rows of the data are, a lookup of an instance type
    either finds nothing and gives the zero specification, or gives a
    specification stored under its own, non-empty, instance type, with one
    vCPU at least and watts for which neither [min < 0] nor [max < min]
    holds. *)
Theorem GetInstanceSpec_sound (TrimSpace : string -> string)
    (ParseFloat : string -> option float) (headerOk : bool)
    (rows : list Carbon.ReadResult) (instanceType : string) :
  let instanceSpecs := Carbon.parseInstanceSpecs TrimSpace ParseFloat headerOk rows in
  let '(spec, ok) := Carbon.GetInstanceSpec instanceSpecs instanceType in
  if ok then storedSpec instanceType spec else spec = Carbon.zeroSpec.
Proof.
  unfold Carbon.GetInstanceSpec, Carbon.parseInstanceSpecs. simpl.
  destruct headerOk.
  - destruct (foldl _ _ _ !! instanceType) as [spec|] eqn:E; [|reflexivity].
    apply (foldl_parseRow_stored TrimSpace ParseFloat rows ∅); [|exact E].
    intros k s. rewrite lookup_empty. discriminate.
  - rewrite lookup_empty. reflexivity.
Qed.

(** X26. The number of loaded specifications is at most the number of rows
    read after the header, and it is 0 when the header cannot be read. *)
Theorem InstanceSpecCount_bound (TrimSpace : string -> string)
    (ParseFloat : string -> option float) (headerOk : bool)
    (rows : list Carbon.ReadResult) :
  0 <= Carbon.InstanceSpecCount
         (Carbon.parseInstanceSpecs TrimSpace ParseFloat headerOk rows)
    <= Z.of_nat (length rows)
  /\ Carbon.InstanceSpecCount (Carbon.parseInstanceSpecs TrimSpace ParseFloat false rows)
     = 0.
Proof.
  unfold Carbon.InstanceSpecCount, Carbon.parseInstanceSpecs. split.
  - destruct headerOk.
    + pose proof (foldl_parseRow_size TrimSpace ParseFloat rows ∅) as H.
      rewrite map_size_empty in H. lia.
    + rewrite map_size_empty. lia.
  - rewrite map_size_empty. reflexivity.
Qed.

(** ** Region configuration *)

Lemma safePatternMatch_nonempty (s : string) :
  Regionsconfig.safePatternMatch s = true -> s <> "".
Proof.
  unfold Regionsconfig.safePatternMatch. case_bool_decide; [discriminate|auto].
Qed.

(** The build tag of a safe ID is safe. *)
Lemma safePatternMatch_tag (id : string) :
  Regionsconfig.safePatternMatch id = true ->
  Regionsconfig.safePatternMatch ("region_" +:+ id) = true.
Proof.
  unfold Regionsconfig.safePatternMatch. intros [_ H]%andb_true_iff.
  simpl. exact H.
Qed.

Lemma checkRegion_None_iff (quote : string -> string) (seen : gset string)
    (r : Regionsconfig.RegionConfig) :
  Regionsconfig.checkRegion quote seen r = None <->
  validRegion r /\ Regionsconfig.ID r ∉ seen.
Proof.
  unfold Regionsconfig.checkRegion, validRegion. split.
  - repeat case_bool_decide;
      destruct (Regionsconfig.safePatternMatch (Regionsconfig.ID r)) eqn:S1;
      destruct (Regionsconfig.safePatternMatch (Regionsconfig.Name r)) eqn:S2;
      destruct (Regionsconfig.safePatternMatch (Regionsconfig.Tag r)) eqn:S3;
      simpl; try discriminate; intros _; auto.
  - intros [(S1 & S2 & Ht) Hseen].
    pose proof (safePatternMatch_nonempty _ S1) as N1.
    pose proof (safePatternMatch_nonempty _ S2) as N2.
    pose proof (safePatternMatch_tag _ S1) as S3. rewrite <- Ht in S3.
    pose proof (safePatternMatch_nonempty _ S3) as N3.
    rewrite !bool_decide_eq_false_2 by assumption.
    rewrite S1, S2, S3. simpl.
    rewrite bool_decide_eq_true_2 by exact Ht. simpl.
    rewrite bool_decide_eq_false_2 by exact Hseen. reflexivity.
Qed.

Lemma validateFrom_None_iff (quote : string -> string)
    (regions : list Regionsconfig.RegionConfig) :
  forall seen : gset string,
    Regionsconfig.validateFrom quote seen regions = None <->
    Forall validRegion regions
    /\ NoDup (Regionsconfig.ID <$> regions)
    /\ (forall r, r ∈ regions -> Regionsconfig.ID r ∉ seen).
Proof.
  induction regions as [|r regions IH]; intros seen; simpl.
  - split; [|reflexivity]. intros _. split; [constructor|].
    split; [constructor|]. intros r Hin. inversion Hin.
  - destruct (Regionsconfig.checkRegion quote seen r) as [err|] eqn:E.
    + split; [discriminate|]. intros (Hall & _ & Hseen). exfalso.
      assert (Regionsconfig.checkRegion quote seen r = None) as E'.
      { apply checkRegion_None_iff. split; [inversion Hall; auto|].
        apply Hseen. left. }
      congruence.
    + apply checkRegion_None_iff in E as [Hv Hns]. rewrite IH. split.
      * intros (Hall & Hnd & Hseen). split; [constructor; auto|]. split.
        -- constructor; [|exact Hnd].
           intros (r' & Heq & Hin)%list_elem_of_fmap.
           apply (Hseen r' Hin). rewrite <- Heq.
           apply elem_of_union_l, elem_of_singleton. reflexivity.
        -- intros r' [-> | Hin]%elem_of_cons; [exact Hns|].
           intros Hs. apply (Hseen r' Hin). apply elem_of_union_r, Hs.
      * intros (Hall & Hnd & Hseen). apply Forall_cons in Hall as [_ Hall].
        apply NoDup_cons in Hnd as [Hni Hnd].
        split; [exact Hall|]. split; [exact Hnd|].
        intros r' Hin [Hs | Hs]%elem_of_union.
        -- apply elem_of_singleton in Hs. apply Hni. rewrite <- Hs.
           apply list_elem_of_fmap. eauto.
        -- apply (Hseen r'); [right; exact Hin | exact Hs].
Qed.

Lemma validateFrom_app_Some (quote : string -> string)
    (regions more : list Regionsconfig.RegionConfig) (e : error) :
  forall seen : gset string,
    Regionsconfig.validateFrom quote seen regions = Some e ->
    Regionsconfig.validateFrom quote seen (regions ++ more) = Some e.
Proof.
  induction regions as [|r regions IH]; intros seen; simpl; [discriminate|].
  destruct (Regionsconfig.checkRegion quote seen r); [auto|]. apply IH.
Qed.

(** X27. [Validate] accepts a list of regions exactly when every entry has
    an ID and a name that match the safe pattern and the tag [region_] + ID,
    and no ID occurs twice. *)
Theorem Validate_accepts_iff (quote : string -> string)
    (regions : list Regionsconfig.RegionConfig) :
  Regionsconfig.Validate quote regions = None <->
  Forall validRegion regions /\ NoDup (Regionsconfig.ID <$> regions).
Proof.
  unfold Regionsconfig.Validate. rewrite validateFrom_None_iff. split.
  - intros (Hall & Hnd & _). auto.
  - intros (Hall & Hnd). split; [exact Hall|]. split; [exact Hnd|].
    intros r _. apply not_elem_of_empty.
Qed.

(** X28. The error of [Validate] is that of the first failing entry: once a
    list is refused, it is refused with the same error whatever entries
    follow it. *)
Theorem Validate_first_failure (quote : string -> string)
    (regions more : list Regionsconfig.RegionConfig) (e : error) :
  Regionsconfig.Validate quote regions = Some e ->
  Regionsconfig.Validate quote (regions ++ more) = Some e.
Proof.
  apply validateFrom_app_Some.
Qed.

Lemma Validate_first_failure_witness :
  Regionsconfig.Validate Fixtures.quote
    ((Fixtures.regions ++ [Regionsconfig.mkRegion "us-east-1" "Again" "region_us-east-1"])
     ++ [Regionsconfig.mkRegion "" "" ""])
  = Some (Errorf "duplicate region id: us-east-1").
Proof.
  apply (Validate_first_failure Fixtures.quote
           (Fixtures.regions
            ++ [Regionsconfig.mkRegion "us-east-1" "Again" "region_us-east-1"])
           [Regionsconfig.mkRegion "" "" ""]).
  vm_compute. reflexivity.
Defined.

(** X29. [LoadAndValidate] returns a configuration exactly when [Load]
    returns it and its regions are valid with no ID twice; an error of [Load]
    is returned as it is, and an error of [Validate] is wrapped. *)
Theorem LoadAndValidate_outcomes (quote : string -> string)
    (ReadFile : string -> Result string)
    (yamlUnmarshal : string -> Result Regionsconfig.Config)
    (filename : string) :
  (forall config,
      Regionsconfig.LoadAndValidate quote ReadFile yamlUnmarshal filename = Ok config <->
      Regionsconfig.Load ReadFile yamlUnmarshal filename = Ok config
      /\ Forall validRegion (Regionsconfig.Regions config)
      /\ NoDup (Regionsconfig.ID <$> Regionsconfig.Regions config))
  /\ (forall e,
        Regionsconfig.Load ReadFile yamlUnmarshal filename = Err e ->
        Regionsconfig.LoadAndValidate quote ReadFile yamlUnmarshal filename = Err e)
  /\ (forall config e,
        Regionsconfig.Load ReadFile yamlUnmarshal filename = Ok config ->
        Regionsconfig.Validate quote (Regionsconfig.Regions config) = Some e ->
        Regionsconfig.LoadAndValidate quote ReadFile yamlUnmarshal filename
        = Err (Errorf ("validation failed: " +:+ ErrorText e))).
Proof.
  unfold Regionsconfig.LoadAndValidate.
  destruct (Regionsconfig.Load ReadFile yamlUnmarshal filename) as [c|e0]; simpl.
  - split; [|split].
    + intros config.
      destruct (Regionsconfig.Validate quote (Regionsconfig.Regions c)) as [err|] eqn:E.
      * split; [discriminate|]. intros ([= ->] & Hall & Hnd).
        unfold Regionsconfig.Validate in E.
        assert (Regionsconfig.validateFrom quote ∅ (Regionsconfig.Regions config) = None)
          as E'.
        { apply validateFrom_None_iff. split; [exact Hall|]. split; [exact Hnd|].
          intros r _. apply not_elem_of_empty. }
        congruence.
      * unfold Regionsconfig.Validate in E.
        apply validateFrom_None_iff in E as (Hall & Hnd & _).
        split; [intros [= <-]; auto|]. intros ([= <-] & _). reflexivity.
    + intros e [=].
    + intros config e [= <-] ->. reflexivity.
  - split; [|split].
    + intros config. split; [discriminate|]. intros [[=] _].
    + intros e [= <-]. reflexivity.
    + intros config e [=].
Qed.

(** ** The metrics aggregator *)

Lemma string_append_cons (ch : ascii) (a b : string) :
  String ch a +:+ b = String ch (a +:+ b).
Proof.
  reflexivity.
Qed.

Lemma string_append_assoc (a b c : string) :
  (a +:+ b) +:+ c = a +:+ (b +:+ c).
Proof.
  induction a as [|ch a IH]; [reflexivity|].
  rewrite !string_append_cons, IH. reflexivity.
Qed.

Lemma string_append_empty_r (a : string) : a +:+ "" = a.
Proof.
  induction a as [|ch a IH]; [reflexivity|].
  rewrite !string_append_cons, IH. reflexivity.
Qed.

(** What the loop has written so far stays in front of what it writes
    next. *)
Lemma scrape_acc {World Ctx Request Body : Type}
    (net : MetricsAggregator.Net World Ctx Request Body) (ctx : Ctx)
    (ports : list Z) :
  forall (allMetrics : string) (w : World),
    MetricsAggregator.scrape net ctx (allMetrics, w) ports
    = (allMetrics +:+ (MetricsAggregator.scrape net ctx ("", w) ports).1,
       (MetricsAggregator.scrape net ctx ("", w) ports).2).
Proof.
  unfold MetricsAggregator.scrape.
  induction ports as [|port ports IH]; intros allMetrics w; simpl.
  - rewrite string_append_empty_r. reflexivity.
  - destruct (MetricsAggregator.fetchMetrics net ctx port w) as [[metrics|err] w1].
    + rewrite IH. rewrite (IH ("" +:+ metrics +:+ MetricsAggregator.newline)). simpl.
      rewrite !string_append_assoc. reflexivity.
    + apply IH.
Qed.

(** Ports whose fetch fails whatever the world leave what was written as it
    is. *)
Lemma scrape_all_fail {World Ctx Request Body : Type}
    (net : MetricsAggregator.Net World Ctx Request Body) (ctx : Ctx)
    (ports : list Z) :
  (forall port w, port ∈ ports ->
                  exists err w', MetricsAggregator.fetchMetrics net ctx port w = (Err err, w')) ->
  forall (allMetrics : string) (w : World),
    (MetricsAggregator.scrape net ctx (allMetrics, w) ports).1 = allMetrics.
Proof.
  unfold MetricsAggregator.scrape.
  induction ports as [|port ports IH]; intros Hfail allMetrics w; simpl; [reflexivity|].
  destruct (Hfail port w ltac:(left)) as (err & w' & ->).
  apply IH. intros port' w0 Hin. apply Hfail. right. exact Hin.
Qed.

(** X30. Below the largest [int], the body that [aggregatedMetricsHandler]
    writes for a port range is built port by port in ascending order, under
    the one context made at the start from the timeout: it is what the loop
    writes for the lower part of the range, followed by what the loop writes
    for the upper part when it goes on in the world the lower part left.
    When the fetch fails for every port of the range, the body is empty. *)
Theorem aggregatedMetricsHandler_split {World Ctx Request Body : Type}
    (net : MetricsAggregator.Net World Ctx Request Body)
    (a b c : Z) (listenPort : string) (timeout : Duration) (w : World) :
  a <= b + 1 -> b <= c -> c < maxInt64 ->
  (exists lower w1 upper w2,
      MetricsAggregator.scrape net (MetricsAggregator.WithTimeout net w timeout)
        ("", w) (seqZ a (b - a + 1)) = (lower, w1)
      /\ MetricsAggregator.scrape net (MetricsAggregator.WithTimeout net w timeout)
           ("", w1) (seqZ (b + 1) (c - b)) = (upper, w2)
      /\ MetricsAggregator.aggregatedMetricsHandler net
           (MetricsAggregator.mkConfig a c listenPort timeout) w
         = Some (lower +:+ upper, w2))
  /\ ((forall port w', a <= port <= c ->
         exists err w'',
           MetricsAggregator.fetchMetrics net
             (MetricsAggregator.WithTimeout net w timeout) port w' = (Err err, w'')) ->
      exists w2,
        MetricsAggregator.aggregatedMetricsHandler net
          (MetricsAggregator.mkConfig a c listenPort timeout) w
        = Some ("", w2)).
Proof.
  intros Hab Hbc Hc. unfold MetricsAggregator.aggregatedMetricsHandler. simpl.
  assert (Hc' : (c =? maxInt64) = false) by (apply Z.eqb_neq; lia).
  rewrite Hc', !andb_false_r.
  set (ctx := MetricsAggregator.WithTimeout net w timeout).
  split.
  - destruct (MetricsAggregator.scrape net ctx ("", w) (seqZ a (b - a + 1)))
      as [lower w1] eqn:El.
    destruct (MetricsAggregator.scrape net ctx ("", w1) (seqZ (b + 1) (c - b)))
      as [upper w2] eqn:Eu.
    exists lower, w1, upper, w2. split; [reflexivity|]. split; [exact Eu|].
    f_equal.
    replace (c - a + 1) with ((b - a + 1) + (c - b)) by lia.
    rewrite seqZ_app by lia.
    replace (a + (b - a + 1)) with (b + 1) by lia.
    unfold MetricsAggregator.scrape in *. rewrite foldl_app, El.
    fold (MetricsAggregator.scrape net ctx (lower, w1) (seqZ (b + 1) (c - b))).
    rewrite scrape_acc. unfold MetricsAggregator.scrape. rewrite Eu. reflexivity.
  - intros Hfail.
    destruct (MetricsAggregator.scrape net ctx ("", w) (seqZ a (c - a + 1)))
      as [text w2] eqn:E.
    exists w2. f_equal. f_equal.
    change text with (text, w2).1. rewrite <- E.
    apply scrape_all_fail.
    intros port w' Hin. apply Hfail. apply elem_of_seqZ in Hin. lia.
Qed.

Lemma aggregatedMetricsHandler_split_witness :
  MetricsAggregator.aggregatedMetricsHandler Fixtures.net
    (MetricsAggregator.mkConfig 8001 8003 "9090" 25) 0
  = Some ("up 1" +:+ MetricsAggregator.newline +:+ "up 3" +:+ MetricsAggregator.newline,
          30).
Proof.
  destruct (proj1 (aggregatedMetricsHandler_split Fixtures.net 8001 8002 8003 "9090" 25 0
                     ltac:(lia) ltac:(lia) ltac:(reflexivity)))
    as (lower & w1 & upper & w2 & Hl & Hu & ->).
  vm_compute in Hl. injection Hl as <- <-.
  vm_compute in Hu. injection Hu as <- <-.
  reflexivity.
Defined.

(** With a timeout of zero the context has expired when the first request is
    made: every fetch fails and the body is empty. *)
Example aggregatedMetricsHandler_expired :
  MetricsAggregator.aggregatedMetricsHandler Fixtures.net
    (MetricsAggregator.mkConfig 8001 8003 "9090" 0) 0
  = Some ("", 0).
Proof. vm_compute. reflexivity. Qed.
